(** * LLM governance council: the deliberation pipeline of [backend/council.py]

    A shallow embedding of the orchestration module and the properties of
    its specification.

    Conventions of the embedding.
    - A Python [str] is a [string]; a character stands for the code point
      of the same number, so the texts covered are those over code points
      below 256.  On that range the character classes below ([isspace],
      [isdecimal], [lower_char]) are the ones of CPython's [str] and [re].
    - A [dict] is an association list in insertion order, which is the
      iteration order of a Python dict.
    - A call to the responder gateway is an effect: the pipeline runs in a
      state monad that appends every call to a trace, and the answer of
      the gateway is looked up in an oracle indexed by the call number. *)

From Stdlib Require Import Bool Arith Lia List Sorted Permutation ZArith.
From Stdlib Require Import Ascii String.
Import ListNotations.

Local Open Scope list_scope.
Local Open Scope string_scope.
Local Open Scope nat_scope.

(* ================================================================= *)
(** ** Python strings *)

Module Py.

(** Code point of a character and the character of a code point. *)
Definition ord (c : ascii) : nat := nat_of_ascii c.

Definition in_range (lo hi : nat) (c : ascii) : bool :=
  (lo <=? ord c) && (ord c <=? hi).

(** [str.isspace] on one character, also the class [\s] of [re]:
    TAB LF VT FF CR, FS GS RS US, SPACE, NEL and NBSP. *)
Definition isspace (c : ascii) : bool :=
  in_range 9 13 c || in_range 28 32 c
  || (ord c =? 133) || (ord c =? 160).

(** The class [\d] of [re]: the decimal digits. *)
Definition isdecimal (c : ascii) : bool := in_range 48 57 c.

(** The class [[A-Z]]. *)
Definition isupper_az (c : ascii) : bool := in_range 65 90 c.

(** [str.lower] on one character: [A-Z] and the capital letters
    192..222 (without the multiplication sign 215) move up by 32. *)
Definition lower_char (c : ascii) : ascii :=
  if in_range 65 90 c || (in_range 192 222 c && negb (ord c =? 215))
  then ascii_of_nat (ord c + 32) else c.

(** [str.upper] on one character.  For 181, 223 and 255 the result of
    Python leaves the range of the embedding; [upper] is only applied to
    text matched by letters of the basic alphabet. *)
Definition upper_char (c : ascii) : ascii :=
  if in_range 97 122 c || (in_range 224 254 c && negb (ord c =? 247))
  then ascii_of_nat (ord c - 32) else c.

Fixpoint map_chars (f : ascii -> ascii) (s : string) : string :=
  match s with
  | EmptyString => EmptyString
  | String c s' => String (f c) (map_chars f s')
  end.

Definition lower : string -> string := map_chars lower_char.
Definition upper : string -> string := map_chars upper_char.

(** [s[:n]] *)
Fixpoint take (n : nat) (s : string) : string :=
  match n, s with
  | S k, String c s' => String c (take k s')
  | _, _ => EmptyString
  end.

(** [s[n:]] *)
Fixpoint drop (n : nat) (s : string) : string :=
  match n, s with
  | S k, String _ s' => drop k s'
  | _, _ => s
  end.

(** [s.startswith(p)] *)
Fixpoint startswith (p s : string) : bool :=
  match p, s with
  | EmptyString, _ => true
  | String a p', String b s' => Ascii.eqb a b && startswith p' s'
  | String _ _, EmptyString => false
  end.

(** [sub in s] *)
Fixpoint contains (sub s : string) : bool :=
  startswith sub s
  || match s with
     | EmptyString => false
     | String _ s' => contains sub s'
     end.

(** [s.lstrip()], [s.rstrip()] and [s.strip()] *)
Fixpoint lstrip (s : string) : string :=
  match s with
  | String c s' => if isspace c then lstrip s' else s
  | EmptyString => EmptyString
  end.

Fixpoint rstrip (s : string) : string :=
  match s with
  | EmptyString => EmptyString
  | String c s' =>
      match rstrip s' with
      | EmptyString => if isspace c then EmptyString else String c EmptyString
      | r => String c r
      end
  end.

Definition strip (s : string) : string := rstrip (lstrip s).

(** [sep.join(l)] *)
Fixpoint join (sep : string) (l : list string) : string :=
  match l with
  | [] => ""
  | [x] => x
  | x :: rest => x ++ sep ++ join sep rest
  end.

(** The scan shared by [str.split] and [str.replace]: occurrences of a
    non-empty [sep] are taken from left to right without overlap.  [skip]
    counts the characters of the current occurrence still to be passed;
    [cur] is the piece read so far. *)
Fixpoint split_from (sep : string) (s : string) (skip : nat) (cur : string)
  : list string :=
  match skip with
  | S k =>
      match s with
      | String _ s' => split_from sep s' k cur
      | EmptyString => [cur]
      end
  | O =>
      if startswith sep s then
        match s with
        | String _ s' => cur :: split_from sep s' (length sep - 1) ""
        | EmptyString => [cur]
        end
      else
        match s with
        | String c s' => split_from sep s' 0 (cur ++ String c "")
        | EmptyString => [cur]
        end
  end.

(** [s.split(sep)] for a non-empty separator. *)
Definition split (sep s : string) : list string := split_from sep s 0 "".

(** [s.replace(old, new)] for a non-empty [old]. *)
Definition replace (old new s : string) : string := join new (split old s).

(** [str(n)] for a natural number. *)
Fixpoint digits_fuel (fuel n : nat) (acc : string) : string :=
  match fuel with
  | O => acc
  | S f =>
      let acc' := String (ascii_of_nat (48 + n mod 10)) acc in
      if n / 10 =? 0 then acc' else digits_fuel f (n / 10) acc'
  end.

Definition str_of_nat (n : nat) : string := digits_fuel (S n) n "".

(** [chr(n)], defined on the code points of the embedding. *)
Definition chr (n : nat) : option string :=
  if n <? 256 then Some (String (ascii_of_nat n) "") else None.

End Py.

(** The double quote, for the literals of the source that contain one. *)
Definition dq : string := String (ascii_of_nat 34) "".
(** Line feed. *)
Definition nl : string := String (ascii_of_nat 10) "".

(* ================================================================= *)
(** ** Regular expressions of [re], as far as the module uses them *)

Module Re.

(** Character classes. *)
Inductive cclass : Type :=
| Any                          (* [.] under DOTALL *)
| Digit                        (* [\d] *)
| Space                        (* [\s] *)
| Range (lo hi : ascii)        (* [[lo-hi]] *)
| OneOf (cs : string)          (* [[abc]] *)
| Chr (c : ascii).             (* one literal character *)

(** Patterns.  Repetition is applied to character classes only, which
    is the case in every pattern of the module. *)
Inductive regex : Type :=
| Lit (s : string)             (* literal text *)
| One (k : cclass)             (* one character of a class *)
| Star (k : cclass)            (* [k*], greedy *)
| StarLazy (k : cclass)        (* [k*?] *)
| Plus (k : cclass)            (* [k+], greedy *)
| Opt (k : cclass)             (* [k?], greedy *)
| Alt (a b : regex)            (* [a|b] *)
| Seq (a b : regex)            (* [ab] *)
| Group (r : regex)            (* [(r)], the capturing group 1 *)
| Ahead (r : regex)            (* [(?=r)] *)
| Eos.                         (* [$] without MULTILINE *)

(** Two characters are equal up to case (IGNORECASE) when their lower
    cases agree. *)
Definition char_eq (ic : bool) (a b : ascii) : bool :=
  if ic then Ascii.eqb (Py.lower_char a) (Py.lower_char b) else Ascii.eqb a b.

Fixpoint mem_char (ic : bool) (cs : string) (c : ascii) : bool :=
  match cs with
  | EmptyString => false
  | String a cs' => char_eq ic a c || mem_char ic cs' c
  end.

Definition in_class (ic : bool) (k : cclass) (c : ascii) : bool :=
  match k with
  | Any => true
  | Digit => Py.isdecimal c
  | Space => Py.isspace c
  | Range lo hi =>
      Py.in_range (Py.ord lo) (Py.ord hi) c
      || (ic && (Py.in_range (Py.ord lo) (Py.ord hi) (Py.lower_char c)
                 || Py.in_range (Py.ord lo) (Py.ord hi) (Py.upper_char c)))
  | OneOf cs => mem_char ic cs c
  | Chr a => char_eq ic a c
  end.

(** The rest of [s] after the literal [p], if [s] starts with it. *)
Fixpoint lit (ic : bool) (p s : string) : option string :=
  match p, s with
  | EmptyString, _ => Some s
  | String a p', String b s' => if char_eq ic a b then lit ic p' s' else None
  | String _ _, EmptyString => None
  end.

(** Backtracking in the order of [re]: a greedy star first takes one more
    character and gives it back when the rest of the pattern fails; a lazy
    star first tries the rest of the pattern. *)
Fixpoint star_greedy {R : Type} (p : ascii -> bool) (s : string)
  (k : string -> option R) : option R :=
  match s with
  | String c s' =>
      if p c then
        match star_greedy p s' k with
        | Some r => Some r
        | None => k s
        end
      else k s
  | EmptyString => k s
  end.

Fixpoint star_lazy {R : Type} (p : ascii -> bool) (s : string)
  (k : string -> option R) : option R :=
  match k s with
  | Some r => Some r
  | None =>
      match s with
      | String c s' => if p c then star_lazy p s' k else None
      | EmptyString => None
      end
  end.

(** [$]: the end of the text, or just before a line feed that ends it. *)
Definition at_end (s : string) : bool :=
  match s with
  | EmptyString => true
  | String c EmptyString => Ascii.eqb c (ascii_of_nat 10)
  | _ => false
  end.

(** [exec ic R r s g k] matches [r] at the start of [s]; [g] is the text
    of group 1 so far; [k] continues with the rest of the text. *)
Fixpoint exec (ic : bool) (R : Type) (r : regex) (s : string)
  (g : option string) (k : string -> option string -> option R) : option R :=
  match r with
  | Lit p =>
      match lit ic p s with
      | Some s' => k s' g
      | None => None
      end
  | One c =>
      match s with
      | String x s' => if in_class ic c x then k s' g else None
      | EmptyString => None
      end
  | Star c => star_greedy (in_class ic c) s (fun s' => k s' g)
  | StarLazy c => star_lazy (in_class ic c) s (fun s' => k s' g)
  | Plus c =>
      match s with
      | String x s' =>
          if in_class ic c x
          then star_greedy (in_class ic c) s' (fun s'' => k s'' g)
          else None
      | EmptyString => None
      end
  | Opt c =>
      match s with
      | String x s' =>
          if in_class ic c x then
            match k s' g with
            | Some r => Some r
            | None => k s g
            end
          else k s g
      | EmptyString => k s g
      end
  | Alt a b =>
      match exec ic R a s g k with
      | Some r => Some r
      | None => exec ic R b s g k
      end
  | Seq a b => exec ic R a s g (fun s' g' => exec ic R b s' g' k)
  | Group a =>
      exec ic R a s g
        (fun s' _ => k s' (Some (Py.take (length s - length s') s)))
  | Ahead a =>
      match exec ic unit a s g (fun _ _ => Some tt) with
      | Some _ => k s g
      | None => None
      end
  | Eos => if at_end s then k s g else None
  end.

(** A match: the matched text, the text of group 1 and the text after
    the match. *)
Record rmatch : Type := mk_rmatch {
  m_text : string;
  m_group : option string;
  m_rest : string
}.

(** [re.match]: a match that starts at the first character. *)
Definition match_at (ic : bool) (r : regex) (s : string) : option rmatch :=
  exec ic rmatch r s None
    (fun s' g => Some (mk_rmatch (Py.take (length s - length s') s) g s')).

(** [re.search]: the leftmost match. *)
Fixpoint search (ic : bool) (r : regex) (s : string) : option rmatch :=
  match match_at ic r s with
  | Some m => Some m
  | None =>
      match s with
      | String _ s' => search ic r s'
      | EmptyString => None
      end
  end.

(** [re.findall] for a pattern without group that matches no empty text:
    the matched texts from left to right, without overlap.  [skip] counts
    the characters of the last match still to be passed. *)
Fixpoint findall_from (ic : bool) (r : regex) (s : string) (skip : nat)
  : list string :=
  match skip with
  | S k =>
      match s with
      | String _ s' => findall_from ic r s' k
      | EmptyString => []
      end
  | O =>
      match match_at ic r s with
      | Some m =>
          m_text m ::
          match s with
          | String _ s' => findall_from ic r s' (length (m_text m) - 1)
          | EmptyString => []
          end
      | None =>
          match s with
          | String _ s' => findall_from ic r s' 0
          | EmptyString => []
          end
      end
  end.

Definition findall (ic : bool) (r : regex) (s : string) : list string :=
  findall_from ic r s 0.

(** [re.split] for a pattern without group that matches no empty text. *)
Fixpoint split_from (ic : bool) (r : regex) (s : string) (skip : nat)
  (cur : string) : list string :=
  match skip with
  | S k =>
      match s with
      | String _ s' => split_from ic r s' k cur
      | EmptyString => [cur]
      end
  | O =>
      match match_at ic r s, s with
      | Some m, String _ s' =>
          cur :: split_from ic r s' (length (m_text m) - 1) ""
      | None, String c s' => split_from ic r s' 0 (cur ++ String c "")
      | _, EmptyString => [cur]
      end
  end.

Definition split (ic : bool) (r : regex) (s : string) : list string :=
  split_from ic r s 0 "".

End Re.

Declare Scope re_scope.
Delimit Scope re_scope with re.
Infix "+++" := Re.Seq (at level 60, right associativity) : re_scope.

(* ================================================================= *)
(** ** Ranking parsing *)

(** The pattern [Response [A-Z]]. *)
Definition re_label : Re.regex :=
  (Re.Lit "Response " +++ Re.One (Re.Range "A" "Z"))%re.

(** The pattern [\d+\.\s*Response [A-Z]]. *)
Definition re_numbered : Re.regex :=
  (Re.Plus Re.Digit +++ Re.One (Re.Chr ".") +++ Re.Star Re.Space +++
   Re.Lit "Response " +++ Re.One (Re.Range "A" "Z"))%re.

(** The text of the first match of [re_label] in [m]; the source applies
    it to the matches of [re_numbered] only, where the search succeeds. *)
Definition label_of (m : string) : string :=
  match Re.search false re_label m with
  | Some x => Re.m_text x
  | None => ""
  end.

Definition FINAL_RANKING : string := "FINAL RANKING:".

(** Parse the FINAL RANKING section from a model's evaluation text. *)
Definition parse_ranking_from_text (ranking_text : string) : list string :=
  if Py.contains FINAL_RANKING ranking_text then
    let parts := Py.split FINAL_RANKING ranking_text in
    if 2 <=? List.length parts then
      let ranking_section := nth 1 parts "" in
      let numbered := Re.findall false re_numbered ranking_section in
      match numbered with
      | _ :: _ => map label_of numbered
      | [] => Re.findall false re_label ranking_section
      end
    else Re.findall false re_label ranking_text
  else Re.findall false re_label ranking_text.

(* ================================================================= *)
(** ** Helpers of the Delphi round: parsing and disagreement detection *)

(** [any(k in text for k in keys)] *)
Definition any_in (keys : list string) (text : string) : bool :=
  existsb (fun k => Py.contains k text) keys.

(** The pattern [DECISION:\s*\[?(REVISE|AFFIRM)\]?]. *)
Definition re_decision : Re.regex :=
  (Re.Lit "DECISION:" +++ Re.Star Re.Space +++ Re.Opt (Re.Chr "[") +++
   Re.Group (Re.Alt (Re.Lit "REVISE") (Re.Lit "AFFIRM")) +++
   Re.Opt (Re.Chr "]"))%re.

(** The pattern [JUSTIFICATION.*?:\s*(G)(?=FINAL RESPONSE:|$)] whose
    group [G] is the lazy [.*?]. *)
Definition re_justification : Re.regex :=
  (Re.Lit "JUSTIFICATION" +++ Re.StarLazy Re.Any +++ Re.One (Re.Chr ":") +++
   Re.Star Re.Space +++ Re.Group (Re.StarLazy Re.Any) +++
   Re.Ahead (Re.Alt (Re.Lit "FINAL RESPONSE:") Re.Eos))%re.

(** The pattern [FINAL RESPONSE:\s*(G)] whose group [G] is the greedy
    star of [.]. *)
Definition re_final_response : Re.regex :=
  (Re.Lit "FINAL RESPONSE:" +++ Re.Star Re.Space +++
   Re.Group (Re.Star Re.Any))%re.

(** [m.group(1)] of a match in which group 1 took part. *)
Definition group1 (m : Re.rmatch) : string :=
  match Re.m_group m with
  | Some g => g
  | None => ""
  end.

(** Parse Delphi reflection response: (decision, justification,
    final_response).  The three searches use IGNORECASE; the last two
    also DOTALL, which is the meaning of [Re.Any]. *)
Definition _parse_delphi_response (response_text : string)
  : string * string * string :=
  let decision :=
    match Re.search true re_decision response_text with
    | Some m => Py.upper (group1 m)
    | None => "AFFIRM"
    end in
  let justification :=
    match Re.search true re_justification response_text with
    | Some m => Py.strip (group1 m)
    | None => "No justification provided"
    end in
  let final_response :=
    match Re.search true re_final_response response_text with
    | Some m => Py.strip (group1 m)
    | None => response_text
    end in
  (decision, Py.take 500 justification, final_response).

Definition explicit : list string :=
  [ "strongly disagree"; "fundamental disagreement"; "cannot support";
    "oppose"; "dangerous recommendation"; "significant divergence";
    "dissent:"; "high-stakes"; "human decision required" ].

Definition high_risk_triggers : list string :=
  [ (* retroactive / forensic actions *)
    "forensic"; "audit past"; "export chat"; "browser logs";
    "chat histories"; "breach notification"; "gdpr"; "ccpa"; "hipaa";
    "regulator";
    (* extreme enforcement *)
    "ban all"; "block all"; "zero tolerance";
    (* risky tech posture *)
    "self-host"; "open-source model"; "run locally"; "deploy llama";
    "local model"; "on-prem model" ].

(** Detect if response indicates material disagreement OR high-stakes
    triggers, even without explicit dissent phrasing. *)
Definition _detect_material_disagreement (response_text : string) : bool :=
  let text := Py.lower response_text in
  any_in explicit text || any_in high_risk_triggers text.

(** The pattern [[.!?]+]. *)
Definition re_sentence_end : Re.regex := Re.Plus (Re.OneOf ".!?").

(** Extract a brief summary of disagreement. *)
Definition _extract_disagreement_summary (response_text : string) : string :=
  let sentences := Re.split false re_sentence_end response_text in
  match
    find (fun s =>
            any_in ["dissent"; "disagree"; "concern"; "risk"; "oppose";
                    "forensic"; "breach"] (Py.lower s))
         sentences
  with
  | Some s => Py.take 220 (Py.strip s)
  | None => "Material disagreement detected"
  end.

(** The templates of the module hold three characters beyond code point
    255 (a bullet, an en dash and an em dash).  They stand in the literals
    below as their UTF-8 bytes; the templates are only concatenated, no
    function of the module looks into them. *)
Definition bullet : string := "•".

(** One line per peer, numbered from [i]. *)
Fixpoint peer_lines (i : nat) (peer_responses : list string) : list string :=
  match peer_responses with
  | [] => []
  | response :: rest =>
      let summary := Py.strip (Py.take 220 response) in
      let summary :=
        if 220 <? String.length response then summary ++ "..." else summary in
      (bullet ++ " Peer " ++ Py.str_of_nat i ++ ": " ++ summary)
        :: peer_lines (S i) rest
  end.

(** Create an anonymized digest of peer responses. *)
Definition _create_peer_digest (peer_responses : list string) : string :=
  match peer_responses with
  | [] => "No peer responses available."
  | _ =>
      let all_text := Py.lower (Py.join " " peer_responses) in
      let digest_parts :=
        List.app ("PEER RESPONSE SUMMARY:" :: peer_lines 1 peer_responses)
          ((nl ++ "KEY THEMES:")
           :: List.app
                (if any_in ["risk"; "danger"; "leak"; "privacy"; "security"]
                      all_text
                 then [bullet ++ " Multiple peers mention risk/safety concerns"]
                 else [])
                (List.app
                   (if any_in ["recommend"; "should"; "plan"; "steps"; "phase"]
                         all_text
                    then [bullet ++ " Peers provide actionable recommendations"]
                    else [])
                   (if any_in ["disagree"; "however"; "but"; "trade-off";
                               "tension"] all_text
                    then [bullet ++ " Divergence in perspectives noted"]
                    else []))) in
      Py.join nl digest_parts
  end.

(* ================================================================= *)
(** ** Dictionaries *)

(** [d[k] = v]: the value of an existing key is replaced in place, a new
    key goes to the end. *)
Fixpoint dict_set {V : Type} (k : string) (v : V) (d : list (string * V))
  : list (string * V) :=
  match d with
  | [] => [(k, v)]
  | (k', v') :: d' =>
      if String.eqb k' k then (k', v) :: d' else (k', v') :: dict_set k v d'
  end.

(** [d.get(k)] *)
Fixpoint dict_get {V : Type} (k : string) (d : list (string * V)) : option V :=
  match d with
  | [] => None
  | (k', v) :: d' => if String.eqb k' k then Some v else dict_get k d'
  end.

(** [d[k].append(x)] on a [defaultdict(list)]. *)
Fixpoint dict_append {V : Type} (k : string) (x : V)
  (d : list (string * list V)) : list (string * list V) :=
  match d with
  | [] => [(k, [x])]
  | (k', xs) :: d' =>
      if String.eqb k' k then (k', List.app xs [x]) :: d'
      else (k', xs) :: dict_append k x d'
  end.

(* ================================================================= *)
(** ** The floats of the aggregator *)

(** [sum(positions) / len(positions)] and [round(avg, 2)] are operations
    on binary64 floats.  A positive float is the pair [(m, e)] of its
    integral significand and exponent, of value [m * 2^e]; the result of
    [round(_, 2)] is the float nearest to a number of hundredths, and it
    is that number of hundredths which stands for it: on the floats
    nearest to hundredths the order is the order of the hundredths. *)
Module F64.

Local Open Scope Z_scope.

(** [n / d] rounded to the nearest integer, halves to the even one. *)
Definition round_half_even (n d : Z) : Z :=
  let q := n / d in
  let r := n mod d in
  if 2 * r <? d then q
  else if d <? 2 * r then q + 1
  else if Z.even q then q else q + 1.

(** [a / (b * 2^e)] as a fraction of integers. *)
Definition scaled (a b e : Z) : Z * Z :=
  if 0 <=? e then (a, b * 2 ^ e) else (a * 2 ^ (- e), b).

(** True division of two positive integers: the float nearest to [a / b],
    halves to even, with a significand of 53 bits (operands and quotient
    within the normal range of binary64). *)
Definition div (a b : Z) : Z * Z :=
  if a <=? 0 then (0, 0) else
  let e0 := Z.log2 a - Z.log2 b - 53 in
  let '(n0, d0) := scaled a b e0 in
  let e := if n0 <? 2 ^ 53 * d0 then e0 else e0 + 1 in
  let '(n, d) := scaled a b e in
  (round_half_even n d, e).

(** [round(x, 2)]: the hundredths nearest to the exact value of the float
    [x], halves to even. *)
Definition round2 (x : Z * Z) : Z :=
  let '(m, e) := x in
  let '(n, d) := scaled (100 * m) 1 (- e) in
  round_half_even n d.

End F64.

(* ================================================================= *)
(** ** Data model *)

(** Represents a council member with identity and role. *)
Module CouncilMember.
Record t : Type := mk {
  id : string;      (* Anonymous identifier: A, B, C, D... *)
  model : string;   (* Full model identifier *)
  role : string     (* Governance role *)
}.

Definition label (m : t) : string := "Response " ++ id m.

Definition short_name (m : t) : string :=
  if Py.contains "/" (model m)
  then last (Py.split "/" (model m)) ""
  else model m.
End CouncilMember.

(** An entry of [stage1_results]. *)
Module Stage1Result.
Record t : Type := mk {
  member_id : string;
  model : string;
  response : string
}.
End Stage1Result.

(** An entry of [delphi_results]. *)
Module DelphiResult.
Record t : Type := mk {
  member_id : string;
  model : string;
  round1_response : string;
  round2_response : string;
  decision : string;
  revision_reason : string;
  has_material_disagreement : bool
}.
End DelphiResult.

(** An entry of [material_disagreements]. *)
Module Disagreement.
Record t : Type := mk {
  member : string;
  role : string;
  issue : string
}.
End Disagreement.

(** An entry of [stage2_results]. *)
Module Stage2Result.
Record t : Type := mk {
  model : string;
  ranking : string;
  parsed_ranking : list string
}.
End Stage2Result.

(** A value of [response_mapping]. *)
Module Mapping.
Record t : Type := mk {
  model : string;
  role : string;
  label : string
}.
End Mapping.

(** An entry of the aggregate ranking; [average_rank] in hundredths. *)
Module AggregateEntry.
Record t : Type := mk {
  model : string;
  role : string;
  average_rank : Z;
  rankings_count : nat
}.
End AggregateEntry.

(** [mapping_metadata] of stage 2. *)
Module MappingMetadata.
Record t : Type := mk {
  council_members : list CouncilMember.t;
  response_mapping : list (string * Mapping.t);
  label_to_model : list (string * string)
}.
End MappingMetadata.

(** The result of stage 3; the error result of a session without any
    stage-1 response carries no [needs_human_review]. *)
Module Stage3Result.
Record t : Type := mk {
  model : string;
  response : string;
  needs_human_review : option bool
}.
End Stage3Result.

(** The metadata of a session. *)
Module Metadata.
Record t : Type := mk {
  council_members : list CouncilMember.t;
  response_mapping : list (string * Mapping.t);
  label_to_model : list (string * string);
  aggregate_rankings : list AggregateEntry.t;
  delphi_mode : bool;
  delphi_results : option (list DelphiResult.t);
  needs_human_review : bool
}.
End Metadata.

(* ================================================================= *)
(** ** Governance role mapping *)

Definition GOVERNANCE_ROLES : list (string * string) :=
  [ ("anthropic/claude-sonnet-4.5", "Ethics Officer");
    ("google/gemini-3-pro-preview", "Systems Architect");
    ("x-ai/grok-4", "Red Team") ].

(** The test shared by the role resolver and the prompt prefix: a ChatGPT
    variant (openai/chatgpt-* or openai/gpt-* ). *)
Definition is_chatgpt_variant (model : string) : bool :=
  Py.contains "openai/" (Py.lower model)
  && (Py.contains "chatgpt" (Py.lower model)
      || Py.contains "gpt" (Py.lower model)).

Definition is_mistral_variant (model : string) : bool :=
  Py.contains "mistral" (Py.lower model).

(** Get governance role for a model, with fallbacks for ChatGPT and
    Mistral variants. *)
Definition get_governance_role (model : string) : string :=
  match dict_get model GOVERNANCE_ROLES with
  | Some r => r
  | None =>
      if is_chatgpt_variant model then "Systems Integrator"
      else if is_mistral_variant model then "Safety Engineer"
      else "Council Member"
  end.

(* ================================================================= *)
(** ** Rank aggregation *)

(** [sort(key=...)] is stable and compares keys with [<] only: an entry
    is put before the first later entry whose key is not smaller. *)
Fixpoint insert_by_key {A : Type} (key : A -> Z) (x : A) (l : list A) : list A :=
  match l with
  | [] => [x]
  | y :: l' => if (key y <? key x)%Z then y :: insert_by_key key x l' else x :: l
  end.

Fixpoint sort_by_key {A : Type} (key : A -> Z) (l : list A) : list A :=
  match l with
  | [] => []
  | x :: l' => insert_by_key key x (sort_by_key key l')
  end.

(** The body of the loop over [enumerate(parsed, start=position)]. *)
Fixpoint record_positions (response_mapping : list (string * Mapping.t))
  (parsed : list string) (position : nat)
  (model_positions : list (string * list nat)) : list (string * list nat) :=
  match parsed with
  | [] => model_positions
  | label :: rest =>
      let response_id := Py.strip (Py.replace "Response " "" label) in
      let model_positions :=
        match dict_get response_id response_mapping with
        | Some mapping =>
            dict_append (Mapping.model mapping) position model_positions
        | None => model_positions
        end in
      record_positions response_mapping rest (S position) model_positions
  end.

(** [ranking.get(parsed_ranking) or parse_ranking_from_text(...)]: an empty
    parsed ranking is parsed again from the text. *)
Definition parsed_of (ranking : Stage2Result.t) : list string :=
  match Stage2Result.parsed_ranking ranking with
  | [] => parse_ranking_from_text (Stage2Result.ranking ranking)
  | parsed => parsed
  end.

Fixpoint collect_positions (response_mapping : list (string * Mapping.t))
  (stage2_results : list Stage2Result.t)
  (model_positions : list (string * list nat)) : list (string * list nat) :=
  match stage2_results with
  | [] => model_positions
  | ranking :: rest =>
      collect_positions response_mapping rest
        (record_positions response_mapping (parsed_of ranking) 1 model_positions)
  end.

(** The role of the first mapping of a model. *)
Definition role_of_model (response_mapping : list (string * Mapping.t))
  (model : string) : string :=
  match find (fun kv => String.eqb (Mapping.model (snd kv)) model)
             response_mapping with
  | Some kv => Mapping.role (snd kv)
  | None => "Council Member"
  end.

Definition sum_positions (positions : list nat) : nat :=
  fold_right Nat.add 0 positions.

(** [round(sum(positions) / len(positions), 2)] in hundredths. *)
Definition average_rank_of (positions : list nat) : Z :=
  F64.round2 (F64.div (Z.of_nat (sum_positions positions))
                      (Z.of_nat (List.length positions))).

Fixpoint aggregate_entries (response_mapping : list (string * Mapping.t))
  (model_positions : list (string * list nat)) : list AggregateEntry.t :=
  match model_positions with
  | [] => []
  | (model, positions) :: rest =>
      match positions with
      | [] => aggregate_entries response_mapping rest
      | _ =>
          AggregateEntry.mk model (role_of_model response_mapping model)
            (average_rank_of positions) (List.length positions)
          :: aggregate_entries response_mapping rest
      end
  end.

(** Calculate aggregate rankings across all models (lower avg rank is
    better). *)
Definition calculate_aggregate_rankings
  (stage2_results : list Stage2Result.t)
  (response_mapping : list (string * Mapping.t)) : list AggregateEntry.t :=
  let model_positions := collect_positions response_mapping stage2_results [] in
  sort_by_key AggregateEntry.average_rank
    (aggregate_entries response_mapping model_positions).

(* ================================================================= *)
(** ** The responder gateway *)

(** One call [query_model(model, messages, timeout)]; [messages] is always
    a single user message, of which the content is kept.  The timeout is
    in seconds, [None] for the default of the gateway. *)
Record Call : Type := mk_call {
  call_model : string;
  call_content : string;
  call_timeout : option nat
}.

(** The dictionary a successful call returns, reduced to its [content]
    entry, which may be missing. *)
Definition Reply : Type := option string.

(** [resp.get(content, "")] *)
Definition content_of (resp : Reply) : string :=
  match resp with
  | Some c => c
  | None => ""
  end.

(** The answers of the responders: the answer to the [n]-th call of the
    session, [None] for a failure. *)
Definition Gateway : Type := nat -> Call -> option Reply.

(** Computations that call the gateway: the state is the trace of the
    calls made so far. *)
Definition M (A : Type) : Type := list Call -> A * list Call.

Definition ret {A : Type} (a : A) : M A := fun tr => (a, tr).

Definition bind {A B : Type} (m : M A) (f : A -> M B) : M B :=
  fun tr => let '(a, tr') := m tr in f a tr'.

Notation "x <- m ;; k" := (bind m (fun x => k))
  (at level 100, m at next level, right associativity).

Definition query_model (gateway : Gateway) (model content : string)
  (timeout : option nat) : M (option Reply) :=
  fun tr =>
    let c := mk_call model content timeout in
    (gateway (List.length tr) c, List.app tr [c]).

(** [asyncio.gather]: the results come in the order of the tasks.  The
    calls of one stage do not depend on each other, so they are made one
    after the other. *)
Fixpoint gather {A : Type} (tasks : list (M A)) : M (list A) :=
  match tasks with
  | [] => ret []
  | t :: rest => a <- t ;; l <- gather rest ;; ret (a :: l)
  end.

(** Modelled from the spec: the parallel invocation helper
    [query_models_parallel] of the gateway module, which is not part of
    the sources: one call per responder, and a map from the responder
    identifier to its text or failure. *)
Definition invoke_all (gateway : Gateway) (models : list string)
  (content : string) : M (list (string * option Reply)) :=
  responses <- gather (map (fun m => query_model gateway m content None) models) ;;
  ret (fold_left (fun d mr => dict_set (fst mr) (snd mr) d)
                 (combine models responses) []).

(* ================================================================= *)
(** ** Prompts *)

(** Role-aware prompts to reduce correlated failure modes. *)
Definition SAFETY_ROLES : list (string * string) :=
  [ ("anthropic/claude-sonnet-4.5",
     "You are an ethical analyst focused on alignment, responsible AI behavior, and downstream impacts.");
    ("google/gemini-3-pro-preview",
     "You are a systems architect optimizing for clarity, robustness, and comprehensive system design. You will also serve as the Chairman to synthesize final recommendations.");
    ("x-ai/grok-4",
     "You are a critical adversarial reviewer actively searching for flaws, edge cases, and hidden risks.") ].

Definition CHATGPT_ROLE : string :=
  "You are a Systems Integrator & Failure-Mode Analyst. Your expertise is in identifying how different components interact, where integration points fail, and what cascade failures might occur. For each analysis, provide: (1) integration risks and failure modes, (2) cross-component dependencies, (3) fault propagation paths, (4) resilience strategies, and (5) system-wide impact assessment.".

Definition MISTRAL_ROLE : string :=
  "You are a Safety Engineer focused on Shadow AI & Data Leakage prevention. Your expertise is in technical controls: AI gateways, DLP/redaction, allowlisting, logging/audit trails, and kill switches. For each recommendation, provide: (1) technical risks, (2) specific controls/guardrails, (3) evidence/logging requirements, (4) testing procedures, and (5) go/no-go recommendation with justification.".

(** The truth value of an optional text: [None] and the empty text are
    false. *)
Definition truthy (s : option string) : bool :=
  match s with
  | Some (String _ _) => true
  | _ => false
  end.

(** The role prefix of a model: exact match first, then the ChatGPT and
    Mistral fallbacks. *)
Definition role_prefix_of (model : string) : option string :=
  let role_prefix := dict_get model SAFETY_ROLES in
  if truthy role_prefix then role_prefix
  else if is_chatgpt_variant model then Some CHATGPT_ROLE
  else if is_mistral_variant model then Some MISTRAL_ROLE
  else role_prefix.

Definition stage1_content (user_query model : string) : string :=
  let role_prefix := role_prefix_of model in
  if truthy role_prefix
  then content_of role_prefix ++ nl ++ nl ++ user_query
  else user_query.

Definition reflection_prompt (user_query response digest : string) : string :=
  "You are participating in a Delphi-style governance council deliberation.

ORIGINAL QUESTION:
"
  ++ user_query
  ++ "

YOUR INITIAL RESPONSE (Round 1):
"
  ++ response
  ++ "

ANONYMIZED PEER FEEDBACK:
"
  ++ digest
  ++ "

INSTRUCTIONS:
Based on the peer feedback above, you may either:
1) REVISE your response if you've identified gaps, errors, or better approaches
2) AFFIRM your original response if you believe it remains sound

Please provide:

DECISION: [REVISE or AFFIRM]

JUSTIFICATION (2-3 sentences):
[Explain why you chose to revise or affirm]

FINAL RESPONSE:
[Your revised response OR your affirmed original response]

If you have high-stakes disagreement, include a line:
DISSENT: <one sentence>

Be explicit about any remaining disagreements with peers. If you strongly disagree on a high-risk recommendation, state it clearly.
".

Definition ranking_prompt (user_query responses_text : string) : string :=
  "You are evaluating different responses to the following question:

Question: "
  ++ user_query
  ++ "

Here are the responses from different models (anonymized):

"
  ++ responses_text
  ++ "

Your task:
1) Evaluate each response briefly (strengths + weaknesses).
2) Then, at the very end, provide a final ranking.

IMPORTANT: Your final ranking MUST be formatted EXACTLY as follows:
- Start with the line " ++ dq ++ "FINAL RANKING:" ++ dq ++ " (all caps, with colon)
- Then list responses from best to worst as a numbered list
- Each line must be: number, period, space, then ONLY the response label (e.g., " ++ dq ++ "1. Response A" ++ dq ++ ")
- Do not add any extra text in the ranking section

Now provide your evaluation and ranking:".

Definition chairman_prompt_body (user_query mode_context synthesis_text stage2_text : string) : string :=
  "You are the Chairman of an AI Governance Council. Multiple AI models have deliberated on the user's question.

Original Question:
"
  ++ user_query
  ++ "

"
  ++ mode_context
  ++ "
"
  ++ synthesis_text
  ++ "

PEER RANKINGS:
"
  ++ stage2_text
  ++ "

You must produce a governance-grade output. Follow this structure exactly:

A) CONSENSUS SUMMARY (3–6 bullets)
- What do most models agree on?

B) KEY DISSENT (only if present)
- Where do models materially disagree? Preserve dissent; do NOT force consensus.
- If dissent involves legal/regulatory exposure, retroactive investigation, or blocking policies, mark it as HIGH-STAKES.

C) 30–60 DAY CONSOLIDATED PLAN (phased)
- Phase 1 (Days 1–15): immediate containment + safe-harbor rules
- Phase 2 (Days 15–30): sanctioned tools + minimal policy
- Phase 3 (Days 30–45): technical boundary controls
- Phase 4 (Days 45–60): training + monitoring + metrics
Each phase MUST include: Owner, Action, Output.

D) DECISION BOUNDARIES (when to escalate)
List clear triggers that require human leadership or counsel. At minimum include:
- handling regulated data (PII/PHI/PCI) or proprietary IP exposure,
- retroactive forensic investigation or breach-notification decisions,
- recommendations that materially increase legal or operational exposure,
- strong unresolved disagreement after Delphi Round 2.

E) KILL SWITCH / STOP CONDITIONS (fail-safe)
Define 1–2 conditions under which the organization must PAUSE rollout and activate incident response.
Include who has authority to trigger the stop and what happens next.
".

Definition escalation_section  : string :=
  "
F) ESCALATE TO HUMAN REVIEW — HUMAN DECISION REQUIRED
State clearly: " ++ dq ++ "HUMAN DECISION REQUIRED" ++ dq ++ ".
Describe:
1) The specific decision point.
2) 2–3 options.
3) Pros/cons + operational impact.
Use compliance-safe language: do NOT recommend " ++ dq ++ "ignoring" ++ dq ++ " past exposure. Instead describe proportional investigation trade-offs and advise consulting counsel where required.
".

(* ================================================================= *)
(** ** The stages *)

Section Pipeline.

(** The configuration of the process and the gateway module. *)
Variable COUNCIL_MODELS : list string.
Variable CHAIRMAN_MODEL : string.
Variable DELPHI_MODE : bool.
Variable gateway : Gateway.
Variable query_models_parallel :
  list string -> string -> M (list (string * option Reply)).

(** *** Stage 1: collect responses *)

(** The loop over [zip(COUNCIL_MODELS, responses)].  The result is [None]
    when a member identifier leaves the code points of the embedding. *)
Fixpoint stage1_members (pairs : list (string * option Reply))
  (member_id_counter : nat)
  : option (list Stage1Result.t * list CouncilMember.t) :=
  match pairs with
  | [] => Some ([], [])
  | (model, None) :: rest => stage1_members rest member_id_counter
  | (model, Some resp) :: rest =>
      match Py.chr (65 + member_id_counter) with
      | None => None
      | Some member_id =>
          let member :=
            CouncilMember.mk member_id model (get_governance_role model) in
          match stage1_members rest (S member_id_counter) with
          | None => None
          | Some (stage1_results, council_members) =>
              Some (Stage1Result.mk (CouncilMember.id member) model
                      (content_of resp) :: stage1_results,
                    member :: council_members)
          end
      end
  end.

(** Stage 1: Collect individual responses from all council models.
    Creates CouncilMember objects (identity mapping single source of
    truth). *)
Definition stage1_collect_responses (user_query : string)
  : M (option (list Stage1Result.t * list CouncilMember.t)) :=
  let tasks :=
    map (fun model =>
           query_model gateway model (stage1_content user_query model) None)
        COUNCIL_MODELS in
  responses <- gather tasks ;;
  ret (stage1_members (combine COUNCIL_MODELS responses) 0).

(** *** Stage 1.5: Delphi reflection *)

(** The responses of all results but the one of index [i]. *)
Fixpoint peers_of (i : nat) (stage1_results : list Stage1Result.t)
  : list string :=
  match stage1_results, i with
  | [], _ => []
  | _ :: rest, O => map Stage1Result.response rest
  | r :: rest, S i' => Stage1Result.response r :: peers_of i' rest
  end.

(** The reflection calls of the members from index [i] on. *)
Fixpoint reflection_tasks (user_query : string)
  (stage1_results : list Stage1Result.t)
  (pairs : list (CouncilMember.t * Stage1Result.t)) (i : nat)
  : list (M (option Reply)) :=
  match pairs with
  | [] => []
  | (member, result) :: rest =>
      let peer_responses := peers_of i stage1_results in
      let digest := _create_peer_digest peer_responses in
      query_model gateway (CouncilMember.model member)
        (reflection_prompt user_query (Stage1Result.response result) digest)
        (Some 180)
      :: reflection_tasks user_query stage1_results rest (S i)
  end.

(** The outcome of one member. *)
Definition delphi_outcome (member : CouncilMember.t) (round1 : Stage1Result.t)
  (resp : option Reply) : DelphiResult.t * list Disagreement.t :=
  let round1_text := Stage1Result.response round1 in
  match resp with
  | None =>
      (DelphiResult.mk (CouncilMember.id member) (CouncilMember.model member)
         round1_text round1_text "AFFIRM"
         "Model did not respond to reflection prompt" false,
       [])
  | Some resp =>
      let response_text := content_of resp in
      let '(decision, justification, final_response) :=
        _parse_delphi_response response_text in
      let has_disagreement := _detect_material_disagreement response_text in
      (DelphiResult.mk (CouncilMember.id member) (CouncilMember.model member)
         round1_text final_response decision justification has_disagreement,
       if has_disagreement
       then [Disagreement.mk (CouncilMember.model member)
               (CouncilMember.role member)
               (_extract_disagreement_summary response_text)]
       else [])
  end.

(** The loop over [zip(council_members, stage1_results, responses)]. *)
Fixpoint delphi_outcomes (council_members : list CouncilMember.t)
  (stage1_results : list Stage1Result.t) (responses : list (option Reply))
  : list DelphiResult.t * list Disagreement.t :=
  match council_members, stage1_results, responses with
  | member :: ms, round1 :: rs, resp :: resps =>
      let '(r, d) := delphi_outcome member round1 resp in
      let '(delphi_results, material_disagreements) :=
        delphi_outcomes ms rs resps in
      (r :: delphi_results, List.app d material_disagreements)
  | _, _, _ => ([], [])
  end.

(** Stage 1.5: Delphi Reflection Round (optional, enabled via
    DELPHI_MODE).  Each model sees an anonymized summary of peer responses
    and can revise/affirm. *)
Definition stage1_5_delphi_reflection (user_query : string)
  (stage1_results : list Stage1Result.t)
  (council_members : list CouncilMember.t)
  : M (list DelphiResult.t * bool) :=
  let tasks :=
    reflection_tasks user_query stage1_results
      (combine council_members stage1_results) 0 in
  responses <- gather tasks ;;
  let '(delphi_results, material_disagreements) :=
    delphi_outcomes council_members stage1_results responses in
  (* Robust escalation signal: either explicit list or any flagged
     round2 response *)
  let needs_human_review :=
    (0 <? List.length material_disagreements)
    || existsb DelphiResult.has_material_disagreement delphi_results in
  ret (delphi_results, needs_human_review).

(** *** Stage 2: collect rankings *)

Fixpoint build_response_mapping (council_members : list CouncilMember.t)
  (response_mapping : list (string * Mapping.t))
  : list (string * Mapping.t) :=
  match council_members with
  | [] => response_mapping
  | member :: rest =>
      build_response_mapping rest
        (dict_set (CouncilMember.id member)
           (Mapping.mk (CouncilMember.model member) (CouncilMember.role member)
              (CouncilMember.label member))
           response_mapping)
  end.

Fixpoint build_label_to_model (council_members : list CouncilMember.t)
  (label_to_model : list (string * string)) : list (string * string) :=
  match council_members with
  | [] => label_to_model
  | member :: rest =>
      build_label_to_model rest
        (dict_set (CouncilMember.label member) (CouncilMember.model member)
           label_to_model)
  end.

(** The anonymized blocks, one per member, joined by an empty line. *)
Definition responses_text_of (stage1_results : list Stage1Result.t)
  (council_members : list CouncilMember.t) : string :=
  Py.join (nl ++ nl)
    (map (fun mr : CouncilMember.t * Stage1Result.t =>
            CouncilMember.label (fst mr) ++ ":" ++ nl
            ++ Stage1Result.response (snd mr))
         (combine council_members stage1_results)).

(** The prompt every responder ranks. *)
Definition stage2_prompt (user_query : string)
  (stage1_results : list Stage1Result.t)
  (council_members : list CouncilMember.t) : string :=
  ranking_prompt user_query (responses_text_of stage1_results council_members).

(** The loop over [model_responses.items()]. *)
Fixpoint stage2_results_of (model_responses : list (string * option Reply))
  : list Stage2Result.t :=
  match model_responses with
  | [] => []
  | (model, None) :: rest => stage2_results_of rest
  | (model, Some resp) :: rest =>
      let full_text := content_of resp in
      Stage2Result.mk model full_text (parse_ranking_from_text full_text)
      :: stage2_results_of rest
  end.

(** Stage 2: Each model ranks the anonymized responses.  Uses
    CouncilMember objects as the single source of truth for identity. *)
Definition stage2_collect_rankings (user_query : string)
  (stage1_results : list Stage1Result.t)
  (council_members : list CouncilMember.t)
  : M (list Stage2Result.t * MappingMetadata.t) :=
  let response_mapping := build_response_mapping council_members [] in
  let label_to_model := build_label_to_model council_members [] in
  let prompt := stage2_prompt user_query stage1_results council_members in
  model_responses <- query_models_parallel COUNCIL_MODELS prompt ;;
  ret (stage2_results_of model_responses,
       MappingMetadata.mk council_members response_mapping label_to_model).

(** *** Stage 3: chairman synthesis *)

(** The truth value of [delphi_results]: [None] and the empty list are
    false. *)
Definition delphi_given (delphi_results : option (list DelphiResult.t))
  : option (list DelphiResult.t) :=
  match delphi_results with
  | Some (r :: rs) => Some (r :: rs)
  | _ => None
  end.

Definition synthesis_text_of (stage1_results : list Stage1Result.t)
  (delphi_results : option (list DelphiResult.t)) : string :=
  match delphi_given delphi_results with
  | Some results =>
      Py.join (nl ++ nl)
        (map (fun r =>
                "Model: " ++ DelphiResult.model r ++ nl
                ++ "Decision: " ++ DelphiResult.decision r ++ nl
                ++ "Reason: " ++ DelphiResult.revision_reason r ++ nl
                ++ "Final Response: " ++ DelphiResult.round2_response r)
             results)
  | None =>
      Py.join (nl ++ nl)
        (map (fun r =>
                "Model: " ++ Stage1Result.model r ++ nl
                ++ "Response: " ++ Stage1Result.response r)
             stage1_results)
  end.

Definition mode_context_of (delphi_results : option (list DelphiResult.t))
  : string :=
  match delphi_given delphi_results with
  | Some _ =>
      "After a Delphi reflection round where models reviewed anonymized peer feedback:"
  | None => "Individual responses:"
  end.

Definition stage2_text_of (stage2_results : list Stage2Result.t) : string :=
  match stage2_results with
  | [] => "No rankings available."
  | _ =>
      Py.join (nl ++ nl)
        (map (fun r =>
                "Model: " ++ Stage2Result.model r ++ nl
                ++ "Ranking: " ++ Stage2Result.ranking r)
             stage2_results)
  end.

(** The prompt of the chairman. *)
Definition chairman_prompt (user_query : string)
  (stage1_results : list Stage1Result.t)
  (stage2_results : list Stage2Result.t)
  (delphi_results : option (list DelphiResult.t))
  (needs_human_review : bool) : string :=
  chairman_prompt_body user_query (mode_context_of delphi_results)
    (synthesis_text_of stage1_results delphi_results)
    (stage2_text_of stage2_results)
  ++ (if needs_human_review then escalation_section else "")
  ++ nl ++ "Provide your final synthesis now.".

(** Stage 3: Chairman synthesizes final response.  In Delphi mode, uses
    Round 2 responses and notes human review needs. *)
Definition stage3_synthesize_final (user_query : string)
  (stage1_results : list Stage1Result.t)
  (stage2_results : list Stage2Result.t)
  (delphi_results : option (list DelphiResult.t))
  (needs_human_review : bool) : M Stage3Result.t :=
  resp <- query_model gateway CHAIRMAN_MODEL
            (chairman_prompt user_query stage1_results stage2_results
               delphi_results needs_human_review)
            (Some 180) ;;
  match resp with
  | None =>
      ret (Stage3Result.mk CHAIRMAN_MODEL
             "Error: Unable to generate final synthesis."
             (Some needs_human_review))
  | Some resp =>
      ret (Stage3Result.mk CHAIRMAN_MODEL (content_of resp)
             (Some needs_human_review))
  end.

(** *** Full pipeline *)

(** The four results of a session; [metadata] is [None] for the empty
    dictionary of a session without any stage-1 response. *)
Record Session : Type := mk_session {
  stage1_results : list Stage1Result.t;
  stage2_results : list Stage2Result.t;
  stage3_result : Stage3Result.t;
  metadata : option Metadata.t
}.

(** The ranking input of Delphi mode: the round-2 responses. *)
Definition ranking_input_of (delphi_results : list DelphiResult.t)
  : list Stage1Result.t :=
  map (fun r =>
         Stage1Result.mk (DelphiResult.member_id r) (DelphiResult.model r)
           (DelphiResult.round2_response r))
      delphi_results.

(** The stages after a successful stage 1. *)
Definition run_after_stage1 (user_query : string)
  (stage1_results : list Stage1Result.t)
  (council_members : list CouncilMember.t) : M Session :=
  delphi <-
    (if DELPHI_MODE then
       dr <- stage1_5_delphi_reflection user_query stage1_results
               council_members ;;
       ret (Some (fst dr), snd dr)
     else ret (None, false)) ;;
  let delphi_results : option (list DelphiResult.t) := fst delphi in
  let needs_human_review : bool := snd delphi in
  let ranking_input :=
    match DELPHI_MODE, delphi_given delphi_results with
    | true, Some results => ranking_input_of results
    | _, _ => stage1_results
    end in
  s2 <- stage2_collect_rankings user_query ranking_input council_members ;;
  let stage2_results := fst s2 in
  let mapping_metadata := snd s2 in
  let response_mapping := MappingMetadata.response_mapping mapping_metadata in
  let aggregate_rankings :=
    calculate_aggregate_rankings stage2_results response_mapping in
  stage3_result <-
    stage3_synthesize_final user_query stage1_results stage2_results
      delphi_results needs_human_review ;;
  ret (mk_session stage1_results stage2_results stage3_result
         (Some (Metadata.mk
                  (MappingMetadata.council_members mapping_metadata)
                  response_mapping
                  (MappingMetadata.label_to_model mapping_metadata)
                  aggregate_rankings
                  DELPHI_MODE
                  (if DELPHI_MODE then delphi_results else None)
                  needs_human_review))).

(** Run the complete council process.  If DELPHI_MODE is enabled,
    includes Stage 1.5 (reflection round).  The result is [None] when a
    member identifier leaves the code points of the embedding. *)
Definition run_full_council (user_query : string) : M (option Session) :=
  s1 <- stage1_collect_responses user_query ;;
  match s1 with
  | None => ret None
  | Some ([], _) =>
      ret (Some (mk_session [] []
                   (Stage3Result.mk "error"
                      "All models failed to respond. Please try again." None)
                   None))
  | Some (stage1_results, council_members) =>
      s <- run_after_stage1 user_query stage1_results council_members ;;
      ret (Some s)
  end.

End Pipeline.

(* ================================================================= *)
(** ** Notions of the specification *)

(** A phrase occurs in a text up to case. *)
Definition occurs_ci (phrase text : string) : Prop :=
  exists pre mid post,
    text = pre ++ mid ++ post /\ Py.lower mid = Py.lower phrase.

(** The replies to the stage-1 calls, in the order of the configured
    responders. *)
Definition stage1_replies (COUNCIL_MODELS : list string) (gateway : Gateway)
  (user_query : string) (tr : list Call) : list (option Reply) :=
  fst (gather
         (map (fun model =>
                 query_model gateway model (stage1_content user_query model)
                   None)
              COUNCIL_MODELS)
         tr).

(** The responders whose call succeeded, in the order of the list. *)
Fixpoint succeeded (models : list string) (replies : list (option Reply))
  : list string :=
  match models, replies with
  | m :: ms, Some _ :: rs => m :: succeeded ms rs
  | _ :: ms, None :: rs => succeeded ms rs
  | _, _ => []
  end.

(** The [n] one-character texts of consecutive code points from [65 + k]
    on: A, B, C, ... for [k = 0]. *)
Definition letters_from (k n : nat) : list string :=
  map (fun i => String (ascii_of_nat (65 + i)) "") (seq k n).

Definition is_uppercase_letter (s : string) : bool :=
  match s with
  | String c EmptyString => Py.isupper_az c
  | _ => false
  end.

(** A council of 27 responders, and a gateway that always answers. *)
Definition council_of_27 : list string :=
  map (fun i => "vendor/model-" ++ Py.str_of_nat i) (seq 1 27).

Definition gateway_ok : Gateway := fun _ _ => Some (Some "ok").

(** The replies to the reflection calls, in the order of the members. *)
Definition reflection_replies (gateway : Gateway) (user_query : string)
  (stage1_results : list Stage1Result.t)
  (council_members : list CouncilMember.t) (tr : list Call)
  : list (option Reply) :=
  fst (gather
         (reflection_tasks gateway user_query stage1_results
            (combine council_members stage1_results) 0)
         tr).

(** The outcome of a member that did not answer the reflection prompt. *)
Definition pass_through (member : CouncilMember.t) (round1 : Stage1Result.t)
  : DelphiResult.t :=
  DelphiResult.mk (CouncilMember.id member) (CouncilMember.model member)
    (Stage1Result.response round1) (Stage1Result.response round1)
    "AFFIRM" "Model did not respond to reflection prompt" false.

(** The responder identifier a parsed label refers to. *)
Definition response_id_of (label : string) : string :=
  Py.strip (Py.replace "Response " "" label).

(** The positions one submission records: the label at the [i]-th place,
    counted from [position], is recorded against the responder it maps to;
    a label that is not in the map records nothing. *)
Fixpoint recordings_of (response_mapping : list (string * Mapping.t))
  (parsed : list string) (position : nat) : list (string * nat) :=
  match parsed with
  | [] => []
  | label :: rest =>
      match dict_get (response_id_of label) response_mapping with
      | Some mapping =>
          (Mapping.model mapping, position)
          :: recordings_of response_mapping rest (S position)
      | None => recordings_of response_mapping rest (S position)
      end
  end.

(** All recordings, submission after submission. *)
Definition recordings (response_mapping : list (string * Mapping.t))
  (submissions : list Stage2Result.t) : list (string * nat) :=
  flat_map (fun r => recordings_of response_mapping (parsed_of r) 1)
           submissions.

(** The positions recorded against a responder, in the order of their
    recording. *)
Definition positions_of (model : string) (recs : list (string * nat))
  : list nat :=
  map snd (filter (fun r => String.eqb (fst r) model) recs).

(** The distinct responders of a list in the order in which each is met
    first. *)
Definition see (seen : list string) (m : string) : list string :=
  if existsb (String.eqb m) seen then seen else List.app seen [m].

Definition first_seen (l : list string) : list string := fold_left see l [].

(** The number of submissions that record a position for a responder. *)
Definition contributing (response_mapping : list (string * Mapping.t))
  (submissions : list Stage2Result.t) (model : string) : nat :=
  List.length
    (filter (fun r =>
               negb (Nat.eqb 0
                       (List.length
                          (positions_of model
                             (recordings_of response_mapping (parsed_of r) 1)))))
            submissions).

(** A list in ascending order of a key. *)
Definition key_sorted {A : Type} (key : A -> Z) (l : list A) : Prop :=
  StronglySorted (fun a b => (key a <= key b)%Z) l.

(** [x] comes before [y] in [l]. *)
Definition before {A : Type} (x y : A) (l : list A) : Prop :=
  exists l1 l2 l3, l = (l1 ++ x :: l2 ++ y :: l3)%list.

(** One recording in the dictionary of positions. *)
Definition record (model_positions : list (string * list nat))
  (r : string * nat) : list (string * list nat) :=
  dict_append (fst r) (snd r) model_positions.

(** The entry of a responder: its role, the rounded mean of its positions
    and their number. *)
Definition entry_of (response_mapping : list (string * Mapping.t))
  (recs : list (string * nat)) (model : string) : AggregateEntry.t :=
  AggregateEntry.mk model (role_of_model response_mapping model)
    (average_rank_of (positions_of model recs))
    (List.length (positions_of model recs)).

(** A submission that names the same response twice, and the map of a
    council of one member. *)
Definition twice_named : Stage2Result.t :=
  let text := "Response A is the best. I rank Response A first." in
  Stage2Result.mk "b/y" text (parse_ranking_from_text text).

Definition mapping_of_one : list (string * Mapping.t) :=
  [("A", Mapping.mk "a/x" "Council Member" "Response A")].

(** A text occurs in another. *)
Definition occurs (x s : string) : Prop := exists pre post, s = pre ++ x ++ post.

(** A session of two responders in which the first fails stage 1 and
    answers the ranking prompt: the gateway fails the first call of the
    session only. *)
Definition gateway_first_fails : Gateway :=
  fun n _ =>
    if n =? 0 then None else Some (Some "FINAL RANKING: 1. Response A").

Definition session_first_fails : option Session * list Call :=
  run_full_council ["a/x"; "b/y"] "b/y" false gateway_first_fails
    (invoke_all gateway_first_fails) "q" [].

(** A session of one responder, without reflection. *)
Definition session_of_one : option Session * list Call :=
  run_full_council ["a/x"] "a/x" false gateway_ok (invoke_all gateway_ok)
    "q" [].

(** The end-to-end scenario: three responders answer stage 1; in stage 2
    the first ranks A, B, C, the second ranks B, A, C and the third gives
    a text without any label; the chairman answers.  The replies are
    listed in the order of the calls. *)
Definition ranking_ABC : string :=
  "FINAL RANKING:" ++ nl ++ "1. Response A" ++ nl ++ "2. Response B" ++ nl
  ++ "3. Response C".

Definition ranking_BAC : string :=
  "FINAL RANKING:" ++ nl ++ "1. Response B" ++ nl ++ "2. Response A" ++ nl
  ++ "3. Response C".

Definition gateway_scenario : Gateway :=
  fun n _ =>
    nth n [Some (Some "first answer"); Some (Some "second answer");
           Some (Some "third answer");
           Some (Some ranking_ABC); Some (Some ranking_BAC);
           Some (Some "I cannot rank these.");
           Some (Some "synthesis")]
        None.

Definition session_scenario : option Session * list Call :=
  run_full_council ["a/x"; "b/y"; "c/z"] "a/x" false gateway_scenario
    (invoke_all gateway_scenario) "q" [].

(** The parsed rankings that are not empty. *)
Definition parseable (rankings : list (list string)) : list (list string) :=
  filter (fun l => match l with [] => false | _ => true end) rankings.

(** What an entry of the aggregate ranking shows: responder, rounded mean
    in hundredths, number of positions. *)
Definition entry_view (e : AggregateEntry.t) : string * Z * nat :=
  (AggregateEntry.model e, AggregateEntry.average_rank e,
   AggregateEntry.rankings_count e).

(** *** Notions for the parsers *)

(** The text after the first occurrence of a marker, if there is one. *)
Fixpoint after_first (marker s : string) : option string :=
  if Py.startswith marker s then Some (Py.drop (String.length marker) s)
  else
    match s with
    | String _ s' => after_first marker s'
    | EmptyString => None
    end.

(** The text before the first occurrence of a marker, the whole text if
    there is none. *)
Fixpoint up_to (marker s : string) : string :=
  if Py.startswith marker s then ""
  else
    match s with
    | String c s' => String c (up_to marker s')
    | EmptyString => ""
    end.

(** The leading characters of a class, and the rest. *)
Fixpoint span (p : ascii -> bool) (s : string) : string * string :=
  match s with
  | String c s' =>
      if p c then let '(a, b) := span p s' in (String c a, b) else ("", s)
  | EmptyString => ("", "")
  end.

(** The label token [Response X], [X] an upper-case letter, at the start
    of a text. *)
Definition label_at (s : string) : option string :=
  if Py.startswith "Response " s then
    match Py.drop 9 s with
    | String c _ =>
        if Py.isupper_az c then Some ("Response " ++ String c "") else None
    | EmptyString => None
    end
  else None.

(** A numbered item [<n>. Response X] at the start of a text: one or more
    digits, a period, white space if any, the label token.  The result is
    the length of the item and its label token. *)
Definition numbered_at (s : string) : option (nat * string) :=
  let '(digits, r1) := span Py.isdecimal s in
  match digits, r1 with
  | String _ _, String c r2 =>
      if Ascii.eqb c "." then
        let '(blank, r3) := span Py.isspace r2 in
        match label_at r3 with
        | Some l =>
            Some (String.length digits + 1 + String.length blank + 10, l)
        | None => None
        end
      else None
  | _, _ => None
  end.

(** The occurrences of a form in a text, from left to right and without
    overlap: [item s] tells whether the form is at the start of [s], with
    the length of the occurrence and what is kept of it; [skip] counts
    the characters of the last occurrence still to be passed. *)
Fixpoint scan {A : Type} (item : string -> option (nat * A)) (s : string)
  (skip : nat) : list A :=
  match skip with
  | S k =>
      match s with
      | String _ s' => scan item s' k
      | EmptyString => []
      end
  | O =>
      match item s with
      | Some (n, a) =>
          a :: match s with
               | String _ s' => scan item s' (n - 1)
               | EmptyString => []
               end
      | None =>
          match s with
          | String _ s' => scan item s' 0
          | EmptyString => []
          end
      end
  end.

(** All bare label tokens of a text, in the order of appearance. *)
Definition bare_labels (s : string) : list string :=
  scan (fun t => option_map (fun l => (10, l)) (label_at t)) s 0.

(** The label tokens of the numbered items of a text, in order. *)
Definition numbered_labels (s : string) : list string :=
  scan numbered_at s 0.

(** The two lower tiers on a section: numbered items if there are any,
    bare label tokens otherwise. *)
Definition labels_of_section (section : string) : list string :=
  match numbered_labels section with
  | [] => bare_labels section
  | labels => labels
  end.

(** The ranking parser in the words of the specification: the section is
    the text after the first marker. *)
Definition parse_ranking_spec (text : string) : list string :=
  match after_first FINAL_RANKING text with
  | Some rest => labels_of_section rest
  | None => bare_labels text
  end.

(** The ranking parser with the section the code takes: the text between
    the first marker and the next one, or the end of the text. *)
Definition parse_ranking_section (text : string) : list string :=
  match after_first FINAL_RANKING text with
  | Some rest => labels_of_section (up_to FINAL_RANKING rest)
  | None => bare_labels text
  end.

(** A text that names the marker before the ranking itself. *)
Definition ranking_with_two_markers : string :=
  "I end with the line FINAL RANKING: as asked." ++ nl
  ++ "FINAL RANKING:" ++ nl ++ "1. Response B" ++ nl ++ "2. Response A".

(** A text starts with a marker up to case. *)
Definition starts_ci (marker s : string) : bool :=
  String.eqb (Py.lower (Py.take (String.length marker) s)) (Py.lower marker).

(** The first place of a text, from the left, where a form is found. *)
Fixpoint first_at {A : Type} (item : string -> option A) (s : string)
  : option A :=
  match item s with
  | Some a => Some a
  | None =>
      match s with
      | String _ s' => first_at item s'
      | EmptyString => None
      end
  end.

(** The text after a marker, up to case, at the start of a text. *)
Definition rest_ci (marker s : string) : option string :=
  if starts_ci marker s then Some (Py.drop (String.length marker) s) else None.

(** The text after the first occurrence of a marker up to case. *)
Definition after_first_ci (marker s : string) : option string :=
  first_at (rest_ci marker) s.

(** The text before the first occurrence of a marker up to case, the
    whole text if there is none. *)
Fixpoint up_to_ci (marker s : string) : string :=
  if starts_ci marker s then ""
  else
    match s with
    | String c s' => String c (up_to_ci marker s')
    | EmptyString => ""
    end.

(** The decision at the start of a text: the marker DECISION: up to
    case, white space if any, an opening bracket if any, and REVISE or
    AFFIRM up to case. *)
Definition decision_at (s : string) : option string :=
  match rest_ci "DECISION:" s with
  | Some r =>
      let r := Py.lstrip r in
      let r :=
        match r with
        | String c r' => if Ascii.eqb c "[" then r' else r
        | EmptyString => r
        end in
      if starts_ci "REVISE" r then Some "REVISE"
      else if starts_ci "AFFIRM" r then Some "AFFIRM"
      else None
  | None => None
  end.

(** The reflection parser in terms of markers: the first decision of the
    text, AFFIRM if there is none; the text after the colon that closes
    the first JUSTIFICATION heading, up to the marker FINAL RESPONSE: or to
    the end, trimmed, and a fixed text if there is no such heading; the
    text after the first marker FINAL RESPONSE:, trimmed, and the whole
    text if the marker is absent. *)
Definition parse_delphi_spec (text : string) : string * string * string :=
  let decision :=
    match first_at decision_at text with
    | Some d => d
    | None => "AFFIRM"
    end in
  let justification :=
    match after_first_ci "JUSTIFICATION" text with
    | Some r1 =>
        match after_first ":" r1 with
        | Some r2 => Py.strip (up_to_ci "FINAL RESPONSE:" r2)
        | None => "No justification provided"
        end
    | None => "No justification provided"
    end in
  let final_response :=
    match after_first_ci "FINAL RESPONSE:" text with
    | Some r => Py.strip r
    | None => text
    end in
  (decision, Py.take 500 justification, final_response).

(** The text before the first place where the lookahead of the
    justification pattern holds: the marker FINAL RESPONSE: up to case, or
    the end of the text. *)
Fixpoint up_to_ahead (s : string) : string :=
  if starts_ci "FINAL RESPONSE:" s || Re.at_end s then ""
  else
    match s with
    | String c s' => String c (up_to_ahead s')
    | EmptyString => ""
    end.

(** An answer with a heading that no colon closes. *)
Definition reflection_without_colon : string :=
  "DECISION: AFFIRM" ++ nl ++ "JUSTIFICATION - I agree with my peers".

(** The justification of a heading at the start of a text, as the
    pattern of the code finds it: after the heading and its colon, past
    the white space, up to the place where the lookahead holds. *)
Definition justification_at (s : string) : option string :=
  match rest_ci "JUSTIFICATION" s with
  | Some s1 =>
      match after_first ":" s1 with
      | Some s2 => Some (Py.strip (up_to_ahead (Py.lstrip s2)))
      | None => None
      end
  | None => None
  end.

(* ================================================================= *)
(** ** Title generation *)

(** [s.lstrip(chars)], [s.rstrip(chars)] and [s.strip(chars)] *)
Fixpoint lstrip_chars (chars s : string) : string :=
  match s with
  | String c s' => if Re.mem_char false chars c then lstrip_chars chars s' else s
  | EmptyString => EmptyString
  end.

Fixpoint rstrip_chars (chars s : string) : string :=
  match s with
  | EmptyString => EmptyString
  | String c s' =>
      match rstrip_chars chars s' with
      | EmptyString =>
          if Re.mem_char false chars c then EmptyString else String c EmptyString
      | r => String c r
      end
  end.

Definition strip_chars (chars s : string) : string :=
  rstrip_chars chars (lstrip_chars chars s).

Definition title_prompt (user_query : string) : string :=
  "Generate a very short title (3-5 words maximum) that summarizes the following question.
The title should be concise and descriptive. Do not use quotes or punctuation in the title.

Question: "
  ++ user_query
  ++ "

Title:".

(** Generate a short title for the conversation based on the first user
    message. *)
Definition generate_conversation_title (gateway : Gateway)
  (user_query : string) : M string :=
  resp <- query_model gateway "google/gemini-2.5-flash"
            (title_prompt user_query) (Some 30) ;;
  match resp with
  | None => ret "New Conversation"
  | Some resp =>
      let title :=
        strip_chars (dq ++ "'")
          (Py.strip (match resp with
                     | Some content => content
                     | None => "New Conversation"
                     end)) in
      let title :=
        if 50 <? String.length title then Py.take 47 title ++ "..."
        else title in
      ret title
  end.

(* ================================================================= *)
(** ** Notions for the further properties *)

(** A session of one responder with reflection: the responder answers
    stage 1, and its reflection names a dissent. *)
Definition gateway_dissent : Gateway :=
  fun n _ =>
    nth n [Some (Some "first answer");
           Some (Some "DECISION: AFFIRM DISSENT: the plan is unsafe");
           Some (Some "FINAL RANKING: 1. Response A");
           Some (Some "synthesis")]
        None.

Definition session_dissent : option Session * list Call :=
  run_full_council ["a/x"] "a/x" true gateway_dissent
    (invoke_all gateway_dissent) "q" [].

(** *** A ranking in the format the ranking prompt asks for *)

(** The label token of a letter. *)
Definition label_token (c : ascii) : string := "Response " ++ String c "".

(** The numbered list of some labels, one item per line, counted from
    [i]: each line is the number, a period, a space and the label. *)
Fixpoint numbered_lines (i : nat) (labels : list string) : string :=
  match labels with
  | [] => ""
  | l :: rest =>
      nl ++ Py.str_of_nat i ++ ". " ++ l ++ numbered_lines (S i) rest
  end.

(** All the characters of a text are in a class. *)
Fixpoint all_chars (p : ascii -> bool) (s : string) : bool :=
  match s with
  | EmptyString => true
  | String c s' => p c && all_chars p s'
  end.



(** A gateway that answers every call but the third, and the session of
    one responder on it: stage 1, the ranking, then the chairman call,
    which fails. *)
Definition gateway_chairman_fails : Gateway :=
  fun n _ => if n =? 2 then None else Some (Some "FINAL RANKING: 1. Response A").

Definition session_chairman_fails : option Session * list Call :=
  run_full_council ["a/x"] "c/z" false gateway_chairman_fails
    (invoke_all gateway_chairman_fails) "q" [].

(** *** A reflection in the format the reflection prompt asks for *)

(** The three parts under their headings, in the layout of the prompt:
    the decision line, the justification under its heading and the final
    response under its heading. *)
Definition formatted_reflection (d j f : string) : string :=
  "DECISION: " ++ d ++ nl ++ nl
  ++ "JUSTIFICATION (2-3 sentences):" ++ nl ++ j ++ nl ++ nl
  ++ "FINAL RESPONSE:" ++ nl ++ f.

(* ================================================================= *)
(** * Properties *)

(** ** Strings *)

Lemma app_nil_r_s (s : string) : s ++ "" = s.
Proof. induction s; simpl; congruence. Qed.

Lemma app_assoc_s (a b c : string) : (a ++ b) ++ c = a ++ b ++ c.
Proof. induction a; simpl; congruence. Qed.

Lemma length_app_s (a b : string) :
  String.length (a ++ b) = String.length a + String.length b.
Proof. induction a; simpl; congruence. Qed.

Lemma map_chars_app f (a b : string) :
  Py.map_chars f (a ++ b) = Py.map_chars f a ++ Py.map_chars f b.
Proof. induction a; simpl; congruence. Qed.

Lemma map_chars_length f (s : string) :
  String.length (Py.map_chars f s) = String.length s.
Proof. induction s; simpl; congruence. Qed.

(** A text whose image splits in two splits itself in two. *)
Lemma map_chars_split f (s x y : string) :
  Py.map_chars f s = x ++ y ->
  exists a b, s = a ++ b /\ Py.map_chars f a = x /\ Py.map_chars f b = y.
Proof.
  revert s; induction x as [|c x IH]; intros s H.
  - exists "", s. auto.
  - destruct s as [|d s]; simpl in H; [discriminate|].
    injection H as Hc Hs.
    destruct (IH _ Hs) as (a & b & -> & Ha & Hb).
    exists (String d a), b. simpl. subst. auto.
Qed.

Lemma lower_char_idem (c : ascii) :
  Py.lower_char (Py.lower_char c) = Py.lower_char c.
Proof.
  destruct c as [[] [] [] [] [] [] [] []]; reflexivity.
Qed.

Lemma lower_idem (s : string) : Py.lower (Py.lower s) = Py.lower s.
Proof.
  unfold Py.lower. induction s; simpl; [reflexivity|].
  rewrite lower_char_idem. congruence.
Qed.

Lemma startswith_iff (p s : string) :
  Py.startswith p s = true <-> exists rest, s = p ++ rest.
Proof.
  revert s; induction p as [|a p IH]; intros s; simpl.
  - split; [intros _; exists s; reflexivity | reflexivity].
  - destruct s as [|b s].
    + split; [discriminate | intros [rest H]; discriminate].
    + rewrite andb_true_iff, IH. split.
      * intros [Hab [rest ->]]. apply Ascii.eqb_eq in Hab. subst.
        exists rest. reflexivity.
      * intros [rest H]. injection H as -> ->. split.
        -- apply Ascii.eqb_refl.
        -- exists rest. reflexivity.
Qed.

Lemma contains_iff (sub s : string) :
  Py.contains sub s = true <-> exists pre post, s = pre ++ sub ++ post.
Proof.
  induction s as [|c s IH].
  - simpl. rewrite orb_false_r, startswith_iff. split.
    + intros [rest H]. exists "", rest. exact H.
    + intros (pre & post & H). destruct pre; simpl in H.
      * exists post. exact H.
      * discriminate.
  - cbn [Py.contains]. rewrite orb_true_iff, startswith_iff, IH. split.
    + intros [[rest H] | (pre & post & H)].
      * exists "", rest. exact H.
      * exists (String c pre), post. simpl. congruence.
    + intros (pre & post & H). destruct pre as [|d pre]; simpl in H.
      * left. exists post. exact H.
      * right. injection H as _ H. exists pre, post. exact H.
Qed.

(** A lower-case phrase is in the lower-cased text exactly when it occurs
    in the text up to case. *)
Lemma contains_lower_iff (phrase text : string) :
  Py.lower phrase = phrase ->
  Py.contains phrase (Py.lower text) = true <-> occurs_ci phrase text.
Proof.
  intros Hp. rewrite contains_iff. unfold occurs_ci. rewrite Hp. split.
  - intros (pre & post & H).
    apply map_chars_split in H. destruct H as (a & b & -> & Ha & Hb).
    apply map_chars_split in Hb. destruct Hb as (m & c & -> & Hm & Hc).
    exists a, m, c. auto.
  - intros (pre & mid & post & -> & Hm).
    exists (Py.lower pre), (Py.lower post).
    unfold Py.lower in *. rewrite !map_chars_app, Hm. reflexivity.
Qed.

Lemma any_in_iff (keys : list string) (text : string) :
  any_in keys text = true <-> exists k, In k keys /\ Py.contains k text = true.
Proof. unfold any_in. apply existsb_exists. Qed.

(** ** The disagreement detector *)

Lemma keywords_lower :
  Forall (fun k => Py.lower k = k) (explicit ++ high_risk_triggers)%list.
Proof. repeat constructor. Qed.

(** C8.  The disagreement detector answers true exactly when a phrase of
    the explicit-disagreement list or a keyword of the high-risk list
    occurs in the text up to case; a text with "breach notification" in it
    is flagged whatever else it says, and a text in which no phrase and no
    keyword occurs is not flagged. *)
Theorem C8_detector_iff_keyword_occurs :
  (forall text,
     _detect_material_disagreement text = true <->
     exists k, In k (explicit ++ high_risk_triggers)%list /\ occurs_ci k text)
  /\ (forall pre post,
        _detect_material_disagreement (pre ++ "breach notification" ++ post)
        = true)
  /\ (forall text,
        (forall k, In k (explicit ++ high_risk_triggers)%list ->
                   ~ occurs_ci k text) ->
        _detect_material_disagreement text = false).
Proof.
  assert (Hiff : forall text,
     _detect_material_disagreement text = true <->
     exists k, In k (explicit ++ high_risk_triggers)%list /\ occurs_ci k text).
  { intros text. unfold _detect_material_disagreement.
    rewrite orb_true_iff, !any_in_iff. split.
    - intros [(k & Hk & Hc) | (k & Hk & Hc)]; exists k; split.
      + apply in_or_app; auto.
      + apply contains_lower_iff; [|exact Hc].
        apply (proj1 (Forall_forall _ _) keywords_lower).
        apply in_or_app; auto.
      + apply in_or_app; auto.
      + apply contains_lower_iff; [|exact Hc].
        apply (proj1 (Forall_forall _ _) keywords_lower).
        apply in_or_app; auto.
    - intros (k & Hk & Hc).
      assert (Hl : Py.lower k = k)
        by (apply (proj1 (Forall_forall _ _) keywords_lower); exact Hk).
      apply in_app_or in Hk. destruct Hk as [Hk | Hk]; [left | right];
        exists k; (split; [exact Hk | apply contains_lower_iff; assumption]). }
  split; [exact Hiff|]. split.
  - intros pre post. apply Hiff. exists "breach notification". split.
    + unfold high_risk_triggers. apply in_or_app. right. simpl. tauto.
    + exists pre, "breach notification", post. auto.
  - intros text Hnone.
    destruct (_detect_material_disagreement text) eqn:E; [|reflexivity].
    apply Hiff in E. destruct E as (k & Hk & Hc).
    exfalso. exact (Hnone k Hk Hc).
Qed.

(* ================================================================= *)
(** ** The gateway monad *)

Lemma bind_eq {A B : Type} (m : M A) (f : A -> M B) (tr : list Call) :
  bind m f tr = f (fst (m tr)) (snd (m tr)).
Proof. unfold bind. destruct (m tr). reflexivity. Qed.

Lemma gather_length {A : Type} (tasks : list (M A)) (tr : list Call) :
  List.length (fst (gather tasks tr)) = List.length tasks.
Proof.
  revert tr; induction tasks as [|t tasks IH]; intros tr; simpl.
  - reflexivity.
  - rewrite !bind_eq. simpl. rewrite IH. reflexivity.
Qed.

Lemma stage1_replies_length MODELS gateway query tr :
  List.length (stage1_replies MODELS gateway query tr) = List.length MODELS.
Proof. unfold stage1_replies. rewrite gather_length. apply length_map. Qed.

Lemma stage1_collect_responses_eq MODELS gateway query tr :
  fst (stage1_collect_responses MODELS gateway query tr)
  = stage1_members (combine MODELS (stage1_replies MODELS gateway query tr)) 0.
Proof.
  unfold stage1_collect_responses, stage1_replies. rewrite bind_eq. reflexivity.
Qed.

(* ================================================================= *)
(** ** Stage 1: the member labels *)

Lemma succeeded_length_le models replies :
  List.length (succeeded models replies) <= List.length models.
Proof.
  revert replies; induction models as [|m ms IH]; intros [|[r|] rs]; simpl;
    try lia; specialize (IH rs); lia.
Qed.

Lemma chr_in_range n :
  n < 256 -> Py.chr n = Some (String (ascii_of_nat n) "").
Proof.
  intros H. unfold Py.chr. destruct (Nat.ltb_spec n 256); [reflexivity | lia].
Qed.

(** The loop of stage 1 labels the successful responders with consecutive
    code points, as long as these stay in the range of the embedding. *)
Lemma stage1_members_spec models : forall replies k,
  List.length replies = List.length models ->
  65 + k + List.length (succeeded models replies) <= 256 ->
  exists results members,
    stage1_members (combine models replies) k = Some (results, members)
    /\ map CouncilMember.id members
       = letters_from k (List.length (succeeded models replies))
    /\ map CouncilMember.model members = succeeded models replies
    /\ map Stage1Result.member_id results = map CouncilMember.id members
    /\ map Stage1Result.model results = map CouncilMember.model members.
Proof.
  induction models as [|m ms IH]; intros replies k Hlen Hk.
  - destruct replies; [|discriminate]. exists [], []. simpl. auto.
  - destruct replies as [|[r|] rs]; [discriminate| |];
      cbn [stage1_members combine succeeded List.length] in Hlen, Hk |- *.
    + destruct (IH rs (S k)) as (results & members & E & Hid & Hm & Hr1 & Hr2);
        [lia | lia |].
      rewrite chr_in_range by lia. rewrite E.
      eexists; eexists; split; [reflexivity|].
      unfold letters_from in *.
      cbn [map seq CouncilMember.id CouncilMember.model
           Stage1Result.member_id Stage1Result.model].
      rewrite Hr1, Hr2, Hid, Hm. auto.
    + destruct (IH rs k) as (results & members & E & H); [lia | lia |].
      exists results, members. auto.
Qed.

Lemma letters_from_NoDup k n : 65 + k + n <= 256 -> NoDup (letters_from k n).
Proof.
  intros H. unfold letters_from.
  apply NoDup_map_NoDup_ForallPairs; [|apply seq_NoDup].
  intros i j Hi Hj E. apply in_seq in Hi, Hj.
  injection E as E.
  apply (f_equal nat_of_ascii) in E.
  rewrite !nat_ascii_embedding in E by lia. lia.
Qed.

Lemma letters_from_uppercase k n :
  k + n <= 26 ->
  Forall (fun s => is_uppercase_letter s = true) (letters_from k n).
Proof.
  intros H. unfold letters_from. apply Forall_map, Forall_forall.
  intros i Hi. apply in_seq in Hi. simpl.
  unfold Py.isupper_az, Py.in_range, Py.ord.
  rewrite nat_ascii_embedding by lia.
  apply andb_true_iff. split; apply Nat.leb_le; lia.
Qed.

(** C1, amended.  In every session in which at most 26 stage-1 calls
    succeed, whatever the pattern of successes and failures, the member
    labels are single upper-case letters without repetition, they are the
    consecutive letters from A on, given in the order of the configured
    responders to exactly the responders whose call succeeded, and there
    are as many labels as successful calls. *)
Theorem C1_labels_of_stage1 :
  forall MODELS gateway user_query tr,
    let winners :=
      succeeded MODELS (stage1_replies MODELS gateway user_query tr) in
    List.length winners <= 26 ->
    exists results members,
      fst (stage1_collect_responses MODELS gateway user_query tr)
      = Some (results, members)
      /\ map CouncilMember.id members = letters_from 0 (List.length winners)
      /\ map CouncilMember.model members = winners
      /\ List.length members = List.length winners
      /\ NoDup (map CouncilMember.id members)
      /\ Forall (fun m => is_uppercase_letter (CouncilMember.id m) = true)
                members
      /\ map Stage1Result.member_id results = map CouncilMember.id members
      /\ map Stage1Result.model results = winners.
Proof.
  intros MODELS gateway user_query tr winners Hn.
  destruct (stage1_members_spec MODELS
              (stage1_replies MODELS gateway user_query tr) 0)
    as (results & members & E & Hid & Hm & Hr1 & Hr2).
  - apply stage1_replies_length.
  - fold winners. lia.
  - fold winners in Hid, Hm. exists results, members.
    rewrite stage1_collect_responses_eq.
    repeat split; try assumption.
    + rewrite <- Hm. symmetry. apply length_map.
    + rewrite Hid. apply letters_from_NoDup. lia.
    + assert (F := letters_from_uppercase 0 (List.length winners) Hn).
      rewrite <- Hid in F. rewrite Forall_map in F. exact F.
    + congruence.
Qed.

Lemma C1_labels_of_stage1_witness :
  exists results members,
    fst (stage1_collect_responses ["a/x"; "b/y"; "c/z"]
           (fun n _ => if n =? 1 then None else Some (Some "text")) "q" [])
    = Some (results, members)
    /\ map CouncilMember.id members = ["A"; "B"]
    /\ map CouncilMember.model members = ["a/x"; "c/z"].
Proof.
  destruct (C1_labels_of_stage1 ["a/x"; "b/y"; "c/z"]
              (fun n _ => if n =? 1 then None else Some (Some "text")) "q" [])
    as (results & members & E & Hid & Hm & _).
  - vm_compute. lia.
  - exists results, members. split; [exact E|]. split; [exact Hid | exact Hm].
Defined.

(** C1 as stated fails for a council of 27 responders that all answer:
    the label of the last member is the character after Z. *)
Lemma C1_counterexample_27_responders :
  exists results members,
    fst (stage1_collect_responses council_of_27 gateway_ok "q" [])
    = Some (results, members)
    /\ List.length
         (succeeded council_of_27
            (stage1_replies council_of_27 gateway_ok "q" [])) = 27
    /\ option_map CouncilMember.id (nth_error members 26) = Some "["
    /\ ~ Forall (fun m => is_uppercase_letter (CouncilMember.id m) = true)
                members.
Proof.
  eexists; eexists. split; [vm_compute; reflexivity|].
  split; [vm_compute; reflexivity|].
  split; [vm_compute; reflexivity|].
  intros F. rewrite Forall_forall in F.
  specialize (F (CouncilMember.mk "[" "vendor/model-27" "Council Member")).
  assert (H : is_uppercase_letter "[" = true).
  { apply F. do 26 right. left. reflexivity. }
  vm_compute in H. discriminate.
Qed.

(* ================================================================= *)
(** ** Stage 1.5: the reflection round *)

Lemma reflection_tasks_length gateway query results pairs i :
  List.length (reflection_tasks gateway query results pairs i)
  = List.length pairs.
Proof.
  revert i; induction pairs as [|[m r] pairs IH]; intros i; simpl;
    [reflexivity | rewrite IH; reflexivity].
Qed.

Lemma reflection_replies_length gateway query results members tr :
  List.length results = List.length members ->
  List.length (reflection_replies gateway query results members tr)
  = List.length members.
Proof.
  intros H. unfold reflection_replies.
  rewrite gather_length, reflection_tasks_length, length_combine. lia.
Qed.

Lemma stage1_5_outcomes_eq gateway query results members tr :
  fst (fst (stage1_5_delphi_reflection gateway query results members tr))
  = fst (delphi_outcomes members results
           (reflection_replies gateway query results members tr)).
Proof.
  unfold stage1_5_delphi_reflection, reflection_replies.
  rewrite bind_eq.
  destruct (delphi_outcomes members results _) as [dr md]. reflexivity.
Qed.

Lemma delphi_outcome_member member round1 reply :
  let r := fst (delphi_outcome member round1 reply) in
  DelphiResult.member_id r = CouncilMember.id member
  /\ DelphiResult.model r = CouncilMember.model member
  /\ DelphiResult.round1_response r = Stage1Result.response round1.
Proof.
  destruct reply as [resp|]; unfold delphi_outcome.
  - destruct (_parse_delphi_response (content_of resp)) as [[d j] f].
    simpl. auto.
  - simpl. auto.
Qed.

(** The loop over the three zipped lists yields the outcome of each
    member at the index of the member. *)
Lemma delphi_outcomes_spec members : forall results replies,
  List.length results = List.length members ->
  List.length replies = List.length members ->
  let outcomes := fst (delphi_outcomes members results replies) in
  map DelphiResult.member_id outcomes = map CouncilMember.id members
  /\ map DelphiResult.model outcomes = map CouncilMember.model members
  /\ map DelphiResult.round1_response outcomes
     = map Stage1Result.response results
  /\ forall i member round1 reply,
       nth_error members i = Some member ->
       nth_error results i = Some round1 ->
       nth_error replies i = Some reply ->
       nth_error outcomes i = Some (fst (delphi_outcome member round1 reply)).
Proof.
  induction members as [|m ms IH]; intros results replies Hr Hp.
  - destruct results; [|discriminate]. simpl. repeat split; auto.
    intros [|i]; discriminate.
  - destruct results as [|r rs]; [discriminate|].
    destruct replies as [|p ps]; [discriminate|].
    injection Hr as Hr. injection Hp as Hp.
    destruct (IH rs ps Hr Hp) as (H1 & H2 & H3 & H4).
    cbn [delphi_outcomes].
    destruct (delphi_outcome_member m r p) as (E1 & E2 & E3).
    destruct (delphi_outcome m r p) as [o d] eqn:Eo.
    destruct (delphi_outcomes ms rs ps) as [os ds].
    cbn [fst map] in *. rewrite H1, H2, H3, E1, E2, E3.
    repeat split; auto.
    intros [|i] member round1 reply Hm Hr1 Hp1; cbn [nth_error] in *.
    + injection Hm as <-. injection Hr1 as <-. injection Hp1 as <-.
      rewrite Eo. reflexivity.
    + eauto.
Qed.

(** C9.  The reflection round yields one outcome per stage-1 member, in
    the order of the members, each with its round-2 text; the outcome of a
    member whose reflection call fails is the pass-through one: decision
    AFFIRM, round 2 equal to round 1, a justification that tells the model
    did not respond, and no disagreement flagged.  The outcome of a member
    that answers carries the final response parsed from its answer. *)
Theorem C9_one_outcome_per_member :
  forall gateway user_query results members tr,
    List.length results = List.length members ->
    let replies := reflection_replies gateway user_query results members tr in
    let outcomes :=
      fst (fst (stage1_5_delphi_reflection gateway user_query results
                  members tr)) in
    List.length outcomes = List.length members
    /\ map DelphiResult.member_id outcomes = map CouncilMember.id members
    /\ map DelphiResult.model outcomes = map CouncilMember.model members
    /\ map DelphiResult.round1_response outcomes
       = map Stage1Result.response results
    /\ (forall i member round1,
          nth_error members i = Some member ->
          nth_error results i = Some round1 ->
          nth_error replies i = Some None ->
          nth_error outcomes i = Some (pass_through member round1))
    /\ (forall i member round1 resp,
          nth_error members i = Some member ->
          nth_error results i = Some round1 ->
          nth_error replies i = Some (Some resp) ->
          exists outcome,
            nth_error outcomes i = Some outcome
            /\ DelphiResult.round2_response outcome
               = snd (_parse_delphi_response (content_of resp))).
Proof.
  intros gateway user_query results members tr Hlen replies outcomes.
  assert (Hp : List.length replies = List.length members)
    by (apply reflection_replies_length; exact Hlen).
  destruct (delphi_outcomes_spec members results replies Hlen Hp)
    as (H1 & H2 & H3 & H4).
  unfold outcomes. rewrite stage1_5_outcomes_eq. fold replies.
  split; [rewrite <- (length_map DelphiResult.member_id), H1;
          apply length_map|].
  repeat split; auto.
  - intros i member round1 Hm Hr Hn.
    rewrite (H4 i member round1 None Hm Hr Hn). reflexivity.
  - intros i member round1 resp Hm Hr Hn.
    eexists. split; [exact (H4 i member round1 (Some resp) Hm Hr Hn)|].
    unfold delphi_outcome.
    destruct (_parse_delphi_response (content_of resp)) as [[d j] f].
    reflexivity.
Qed.

Lemma C9_one_outcome_per_member_witness :
  let members := [CouncilMember.mk "A" "a/x" "Council Member";
                  CouncilMember.mk "B" "b/y" "Council Member"] in
  let results := [Stage1Result.mk "A" "a/x" "first answer";
                  Stage1Result.mk "B" "b/y" "second answer"] in
  let gateway : Gateway :=
    fun n _ => if n =? 0 then None else Some (Some "DECISION: REVISE") in
  map DelphiResult.member_id
    (fst (fst (stage1_5_delphi_reflection gateway "q" results members [])))
  = ["A"; "B"]
  /\ nth_error
       (fst (fst (stage1_5_delphi_reflection gateway "q" results members [])))
       0
     = Some (pass_through (CouncilMember.mk "A" "a/x" "Council Member")
               (Stage1Result.mk "A" "a/x" "first answer")).
Proof.
  intros members results gateway.
  destruct (C9_one_outcome_per_member gateway "q" results members []
              eq_refl) as (_ & H1 & _ & _ & H4 & _).
  split.
  - exact H1.
  - apply H4; reflexivity.
Defined.

(* ================================================================= *)
(** ** The full pipeline *)

(** The session after a successful stage 1, stage by stage. *)
Lemma run_after_stage1_spec MODELS CHAIR (DELPHI : bool) gateway qmp query
      results members tr :
  exists dr nhr tr1 model_responses tr2 text,
    (if DELPHI return Prop
     then exists outcomes,
         stage1_5_delphi_reflection gateway query results members tr
         = ((outcomes, nhr), tr1)
         /\ dr = Some outcomes
     else dr = None /\ nhr = false /\ tr1 = tr)
    /\ qmp MODELS
         (stage2_prompt query
            (match DELPHI, delphi_given dr with
             | true, Some outcomes => ranking_input_of outcomes
             | _, _ => results
             end)
            members)
         tr1
       = (model_responses, tr2)
    /\ run_after_stage1 MODELS CHAIR DELPHI gateway qmp query results
         members tr
       = (mk_session results (stage2_results_of model_responses)
            (Stage3Result.mk CHAIR text (Some nhr))
            (Some (Metadata.mk members
                     (build_response_mapping members [])
                     (build_label_to_model members [])
                     (calculate_aggregate_rankings
                        (stage2_results_of model_responses)
                        (build_response_mapping members []))
                     DELPHI
                     (if DELPHI then dr else None)
                     nhr)),
          List.app tr2
            [mk_call CHAIR
               (chairman_prompt query results
                  (stage2_results_of model_responses) dr nhr)
               (Some 180)]).
Proof.
  unfold run_after_stage1.
  destruct DELPHI.
  - destruct (stage1_5_delphi_reflection gateway query results members tr)
      as [[outcomes nhr] tr1] eqn:E15.
    rewrite !bind_eq. rewrite E15. cbn [fst snd ret].
    unfold stage2_collect_rankings. rewrite !bind_eq.
    destruct (qmp MODELS
                (stage2_prompt query
                   match delphi_given (Some outcomes) with
                   | Some outcomes0 => ranking_input_of outcomes0
                   | None => results
                   end members) tr1) as [mr tr2] eqn:E2.
    cbn [fst snd ret MappingMetadata.response_mapping
         MappingMetadata.council_members MappingMetadata.label_to_model].
    unfold stage3_synthesize_final, query_model. rewrite bind_eq.
    cbn [fst snd].
    destruct (gateway _ _) as [resp|];
      (do 6 eexists; split; [eexists; split; reflexivity|];
       split; [exact E2 | reflexivity]).
  - rewrite !bind_eq. cbn [fst snd ret].
    unfold stage2_collect_rankings. rewrite !bind_eq.
    destruct (qmp MODELS (stage2_prompt query results members) tr)
      as [mr tr2] eqn:E2.
    cbn [fst snd ret MappingMetadata.response_mapping
         MappingMetadata.council_members MappingMetadata.label_to_model].
    unfold stage3_synthesize_final, query_model. rewrite bind_eq.
    cbn [fst snd].
    destruct (gateway _ _) as [resp|];
      (do 6 eexists; split; [repeat split|];
       split; [exact E2 | reflexivity]).
Qed.

(** A session with stage-1 results went through all the stages. *)
Lemma run_full_council_inv MODELS CHAIR DELPHI gateway qmp query tr
      session tr' :
  run_full_council MODELS CHAIR DELPHI gateway qmp query tr
  = (Some session, tr') ->
  stage1_results session <> [] ->
  exists results members,
    fst (stage1_collect_responses MODELS gateway query tr)
    = Some (results, members)
    /\ results <> []
    /\ run_after_stage1 MODELS CHAIR DELPHI gateway qmp query results members
         (snd (stage1_collect_responses MODELS gateway query tr))
       = (session, tr').
Proof.
  unfold run_full_council. rewrite bind_eq.
  destruct (stage1_collect_responses MODELS gateway query tr)
    as [[[results members]|] tr1]; cbn [fst snd]; [|discriminate].
  destruct results as [|r rs].
  - unfold ret. intros H Hne. injection H as <- _. contradiction Hne.
    reflexivity.
  - rewrite bind_eq. unfold ret. intros H _.
    exists (r :: rs), members. split; [reflexivity|].
    split; [discriminate|].
    destruct (run_after_stage1 _ _ _ _ _ _ _ _ _) as [s t].
    cbn [fst snd] in H. congruence.
Qed.

(** C10.  With the Delphi flag off and at least one stage-1 success, the
    escalation flag is false in the stage-3 result and in the metadata, no
    reflection outcome is recorded, and the prompt of the chairman call,
    the last call of the session, is the body of the chairman prompt
    followed at once by the closing line: the escalation section that asks
    for the statement HUMAN DECISION REQUIRED is not in it. *)
Theorem C10_no_escalation_without_delphi :
  forall MODELS CHAIR gateway qmp query tr session tr',
    run_full_council MODELS CHAIR false gateway qmp query tr
    = (Some session, tr') ->
    stage1_results session <> [] ->
    Stage3Result.needs_human_review (stage3_result session) = Some false
    /\ (exists md,
          metadata session = Some md
          /\ Metadata.needs_human_review md = false
          /\ Metadata.delphi_results md = None)
    /\ exists tr0,
         tr' = List.app tr0
                 [mk_call CHAIR
                    (chairman_prompt_body query "Individual responses:"
                       (synthesis_text_of (stage1_results session) None)
                       (stage2_text_of (stage2_results session))
                     ++ nl ++ "Provide your final synthesis now.")
                    (Some 180)].
Proof.
  intros MODELS CHAIR gateway qmp query tr session tr' Hrun Hne.
  destruct (run_full_council_inv _ _ _ _ _ _ _ _ _ Hrun Hne)
    as (results & members & _ & _ & Hafter).
  destruct (run_after_stage1_spec MODELS CHAIR false gateway qmp query
              results members
              (snd (stage1_collect_responses MODELS gateway query tr)))
    as (dr & nhr & tr1 & mr & tr2 & text & (-> & -> & ->) & _ & E).
  rewrite E in Hafter. injection Hafter as <- <-.
  cbn [stage3_result metadata stage1_results stage2_results
       Stage3Result.needs_human_review].
  split; [reflexivity|]. split.
  - eexists. split; [reflexivity|]. split; reflexivity.
  - exists tr2. reflexivity.
Qed.

(* ================================================================= *)
(** ** Stable sorting *)

Section Sorting.

Context {A : Type} (key : A -> Z).

Local Open Scope Z_scope.

Lemma insert_by_key_split (x : A) (l : list A) :
  exists l1 l2,
    l = (l1 ++ l2)%list
    /\ insert_by_key key x l = (l1 ++ x :: l2)%list
    /\ Forall (fun y => key y < key x) l1
    /\ (forall y l2', l2 = y :: l2' -> key x <= key y).
Proof.
  induction l as [|y l IH]; simpl.
  - exists [], []. repeat split; auto. intros; discriminate.
  - destruct (Z.ltb_spec (key y) (key x)) as [Hlt | Hge].
    + destruct IH as (l1 & l2 & -> & E & F & H).
      exists (y :: l1), l2. rewrite E. repeat split; auto.
    + exists [], (y :: l). repeat split; auto.
      intros y' l2' H. injection H as <- _. exact Hge.
Qed.

Lemma insert_by_key_In (x y : A) (l : list A) :
  In y (insert_by_key key x l) <-> y = x \/ In y l.
Proof.
  destruct (insert_by_key_split x l) as (l1 & l2 & -> & -> & _).
  rewrite !in_app_iff. simpl. intuition auto.
Qed.

Lemma sort_by_key_In (y : A) (l : list A) :
  In y (sort_by_key key l) <-> In y l.
Proof.
  induction l as [|x l IH]; simpl; [tauto|].
  rewrite insert_by_key_In, IH. intuition auto.
Qed.

Lemma insert_by_key_sorted (x : A) (l : list A) :
  key_sorted key l -> key_sorted key (insert_by_key key x l).
Proof.
  unfold key_sorted. induction 1 as [|y l Hs IH Hy]; simpl.
  - constructor; constructor.
  - destruct (Z.ltb_spec (key y) (key x)) as [Hlt | Hge].
    + constructor; [exact IH|].
      apply Forall_forall. intros z Hz. apply insert_by_key_In in Hz.
      destruct Hz as [-> | Hz]; [lia|].
      exact (proj1 (Forall_forall _ _) Hy z Hz).
    + constructor; [constructor; assumption|].
      constructor; [exact Hge|].
      eapply Forall_impl; [|exact Hy]. simpl. intros; lia.
Qed.

Lemma sort_by_key_sorted (l : list A) : key_sorted key (sort_by_key key l).
Proof.
  induction l; simpl; [constructor | apply insert_by_key_sorted; assumption].
Qed.

Lemma before_In (x y : A) (l : list A) : before x y l -> In x l /\ In y l.
Proof.
  intros (l1 & l2 & l3 & ->). split; rewrite !in_app_iff; simpl.
  - auto.
  - right. right. rewrite in_app_iff. simpl. auto.
Qed.

Lemma before_cons (a x y : A) (l : list A) :
  before x y (a :: l) <-> (x = a /\ In y l) \/ before x y l.
Proof.
  split.
  - intros (l1 & l2 & l3 & E). destruct l1 as [|b l1]; simpl in E.
    + injection E as -> ->. left. split; [reflexivity|].
      rewrite in_app_iff. simpl. auto.
    + injection E as -> ->. right. exists l1, l2, l3. reflexivity.
  - intros [[-> Hy] | (l1 & l2 & l3 & ->)].
    + apply in_split in Hy. destruct Hy as (l2 & l3 & ->).
      exists [], l2, l3. reflexivity.
    + exists (a :: l1), l2, l3. reflexivity.
Qed.

Lemma before_app (x y : A) (l1 l2 : list A) :
  before x y (l1 ++ l2)%list <->
  before x y l1 \/ (In x l1 /\ In y l2) \/ before x y l2.
Proof.
  induction l1 as [|a l1 IH]; simpl.
  - split; [auto|]. intros [H | [[[] _] | H]]; [|exact H].
    destruct H as ([|? ?] & ? & ? & H); discriminate.
  - rewrite !before_cons, IH, in_app_iff. intuition auto.
Qed.

Lemma sorted_before (x y : A) (l : list A) :
  key_sorted key l -> before x y l -> key x <= key y.
Proof.
  intros Hs (l1 & l2 & l3 & ->).
  unfold key_sorted in Hs.
  induction l1 as [|a l1 IH]; simpl in Hs.
  - apply StronglySorted_inv in Hs. destruct Hs as [_ F].
    rewrite Forall_forall in F. apply F.
    rewrite in_app_iff. simpl. auto.
  - apply StronglySorted_inv in Hs. tauto.
Qed.

(** Stability: two entries that the sort leaves in some order either have
    keys in strict order, or have equal keys and were in that order. *)
Lemma sort_by_key_stable (x y : A) (l : list A) :
  before x y (sort_by_key key l) ->
  key x < key y \/ (key x = key y /\ before x y l).
Proof.
  revert x y; induction l as [|a l IH]; intros x y H; simpl in H.
  - destruct H as ([|? ?] & ? & ? & H); discriminate.
  - pose proof (sort_by_key_sorted l) as Hs.
    destruct (insert_by_key_split a (sort_by_key key l))
      as (l1 & l2 & E & Ei & F1 & F2).
    rewrite Ei in H. rewrite E in Hs, IH.
    assert (Hl2 : forall z, In z l2 -> key a <= key z).
    { intros z Hz. destruct l2 as [|b l2]; [destruct Hz|].
      pose proof (F2 b l2 eq_refl) as Hb.
      destruct Hz as [<- | Hz]; [exact Hb|].
      assert (key b <= key z); [|lia].
      apply (sorted_before b z (l1 ++ b :: l2)%list Hs).
      apply before_app. right. right. apply before_cons. left. auto. }
    assert (Hin : forall z, In z (l1 ++ l2)%list -> In z l).
    { intros z Hz. rewrite <- E in Hz.
      exact (proj1 (sort_by_key_In z l) Hz). }
    rewrite Forall_forall in F1.
    apply before_app in H. destruct H as [H | [[Hx Hy] | H]].
    + destruct (IH x y) as [Hlt | [Heq Hb]].
      * apply before_app. auto.
      * auto.
      * right. split; [exact Heq|]. apply before_cons. auto.
    + destruct Hy as [<- | Hy].
      * left. apply F1. exact Hx.
      * destruct (IH x y) as [Hlt | [Heq Hb]].
        -- apply before_app. auto.
        -- auto.
        -- right. split; [exact Heq|]. apply before_cons. auto.
    + apply before_cons in H. destruct H as [[-> Hy] | H].
      * pose proof (Hl2 y Hy) as Hle.
        destruct (Z.eq_dec (key a) (key y)) as [Heq | Hne]; [|left; lia].
        right. split; [exact Heq|]. apply before_cons. left.
        split; [reflexivity|]. apply Hin. apply in_app_iff. auto.
      * destruct (IH x y) as [Hlt | [Heq Hb]].
        -- apply before_app. auto.
        -- auto.
        -- right. split; [exact Heq|]. apply before_cons. auto.
Qed.

Lemma sort_by_key_NoDup_map {B : Type} (f : A -> B) (l : list A) :
  NoDup (map f l) -> NoDup (map f (sort_by_key key l)).
Proof.
  induction l as [|x l IH]; simpl; intros H; [constructor|].
  apply NoDup_cons_iff in H. destruct H as [Hx Hl].
  destruct (insert_by_key_split x (sort_by_key key l))
    as (l1 & l2 & E & -> & _).
  specialize (IH Hl). rewrite E in IH.
  rewrite map_app in *. simpl.
  apply NoDup_Add with (a := f x) (l := (map f l1 ++ map f l2)%list).
  - apply Add_app.
  - split; [exact IH|].
    rewrite <- map_app, <- E. intros Hin. apply Hx.
    apply in_map_iff in Hin. destruct Hin as (z & Hz & Hin).
    apply (proj1 (sort_by_key_In z l)) in Hin. apply in_map_iff. eauto.
Qed.

End Sorting.

(* ================================================================= *)
(** ** Rank aggregation *)

Lemma record_positions_eq mapping parsed : forall position d,
  record_positions mapping parsed position d
  = fold_left record (recordings_of mapping parsed position) d.
Proof.
  induction parsed as [|label rest IH]; intros position d; simpl.
  - reflexivity.
  - fold (response_id_of label).
    destruct (dict_get (response_id_of label) mapping); simpl; apply IH.
Qed.

Lemma collect_positions_eq mapping subs : forall d,
  collect_positions mapping subs d = fold_left record (recordings mapping subs) d.
Proof.
  induction subs as [|r subs IH]; intros d; simpl.
  - reflexivity.
  - unfold recordings in *. rewrite fold_left_app, IH, record_positions_eq.
    reflexivity.
Qed.

Lemma see_spec seen m x : In x (see seen m) <-> In x seen \/ x = m.
Proof.
  unfold see. destruct (existsb (String.eqb m) seen) eqn:E.
  - apply existsb_exists in E. destruct E as (y & Hy & E).
    apply String.eqb_eq in E. subst y. split; [auto|].
    intros [H | ->]; assumption.
  - rewrite in_app_iff. simpl. intuition auto.
Qed.

Lemma see_NoDup seen m : NoDup seen -> NoDup (see seen m).
Proof.
  intros H. unfold see. destruct (existsb (String.eqb m) seen) eqn:E.
  - exact H.
  - apply NoDup_Add with (a := m) (l := seen).
    + rewrite <- (app_nil_r seen) at 1. apply Add_app.
    + split; [exact H|]. intros Hin.
      assert (existsb (String.eqb m) seen = true); [|congruence].
      apply existsb_exists. exists m. split; [exact Hin|].
      apply String.eqb_refl.
Qed.

Lemma fold_see_spec l : forall acc,
  NoDup acc ->
  NoDup (fold_left see l acc)
  /\ forall x, In x (fold_left see l acc) <-> In x acc \/ In x l.
Proof.
  induction l as [|m l IH]; intros acc H; simpl.
  - split; [exact H|]. intros x. tauto.
  - destruct (IH (see acc m) (see_NoDup acc m H)) as [N I].
    split; [exact N|]. intros x. rewrite I, see_spec. intuition auto.
Qed.

(** The responders met first are the distinct responders of the list. *)
Lemma first_seen_NoDup l : NoDup (first_seen l).
Proof. apply (fold_see_spec l []). constructor. Qed.

Lemma first_seen_In l x : In x (first_seen l) <-> In x l.
Proof.
  unfold first_seen.
  rewrite (proj2 (fold_see_spec l [] (NoDup_nil _)) x). simpl. tauto.
Qed.

Lemma first_seen_snoc l m : first_seen (l ++ [m])%list = see (first_seen l) m.
Proof. unfold first_seen. rewrite fold_left_app. reflexivity. Qed.

Lemma positions_of_app m recs recs' :
  positions_of m (recs ++ recs')%list
  = (positions_of m recs ++ positions_of m recs')%list.
Proof. unfold positions_of. rewrite filter_app, map_app. reflexivity. Qed.

Lemma positions_of_nil_iff m recs :
  positions_of m recs = [] <-> ~ In m (map fst recs).
Proof.
  unfold positions_of. induction recs as [|[k p] recs IH]; simpl.
  - tauto.
  - destruct (String.eqb_spec k m) as [-> | Hne]; simpl.
    + split; [discriminate | intros H; exfalso; apply H; auto].
    + rewrite IH. intuition auto.
Qed.

Lemma see_cons_neq k K m :
  k <> m -> see (k :: K) m = k :: see K m.
Proof.
  intros Hne. unfold see. simpl.
  destruct (String.eqb_spec m k) as [E | _]; [congruence|]. simpl.
  destruct (existsb (String.eqb m) K); reflexivity.
Qed.

Lemma see_cons_eq K m : see (m :: K) m = m :: K.
Proof. unfold see. simpl. rewrite String.eqb_refl. reflexivity. Qed.

Lemma positions_of_single k m p :
  positions_of k [(m, p)] = if String.eqb m k then [p] else [].
Proof. unfold positions_of. simpl. destruct (String.eqb m k); reflexivity. Qed.

(** One more recording, on the dictionary of the recordings so far. *)
Lemma dict_append_grouped m p recs K :
  NoDup K ->
  (~ In m K -> positions_of m recs = []) ->
  dict_append m p (map (fun k => (k, positions_of k recs)) K)
  = map (fun k => (k, positions_of k (recs ++ [(m, p)])%list)) (see K m).
Proof.
  induction K as [|k K IH]; intros HN Hm.
  - simpl. unfold see. simpl.
    rewrite positions_of_app, positions_of_single, String.eqb_refl, Hm by tauto.
    reflexivity.
  - apply NoDup_cons_iff in HN. destruct HN as [Hk HN]. simpl.
    destruct (String.eqb_spec k m) as [-> | Hne].
    + rewrite see_cons_eq. simpl. f_equal.
      * rewrite positions_of_app, positions_of_single, String.eqb_refl.
        reflexivity.
      * apply map_ext_in. intros k' Hk'. f_equal.
        rewrite positions_of_app, positions_of_single.
        destruct (String.eqb_spec m k') as [-> | _]; [contradiction|].
        symmetry. apply app_nil_r.
    + rewrite see_cons_neq by exact Hne. simpl. f_equal.
      * f_equal. rewrite positions_of_app, positions_of_single.
        destruct (String.eqb_spec m k) as [E | _]; [congruence|].
        symmetry. apply app_nil_r.
      * apply IH; [exact HN|]. intros H. apply Hm. simpl. tauto.
Qed.

(** The dictionary of positions: one key per responder with a recording,
    in the order of the first recordings, with all its positions. *)
Lemma fold_record_grouped recs :
  fold_left record recs []
  = map (fun k => (k, positions_of k recs)) (first_seen (map fst recs)).
Proof.
  induction recs as [|[m p] recs IH] using rev_ind.
  - reflexivity.
  - rewrite fold_left_app, IH, map_app. simpl.
    rewrite first_seen_snoc. unfold record at 1. simpl.
    apply dict_append_grouped.
    + apply first_seen_NoDup.
    + intros H. apply positions_of_nil_iff. rewrite <- first_seen_In.
      exact H.
Qed.

Lemma aggregate_entries_grouped mapping recs K :
  (forall k, In k K -> positions_of k recs <> []) ->
  aggregate_entries mapping (map (fun k => (k, positions_of k recs)) K)
  = map (entry_of mapping recs) K.
Proof.
  induction K as [|k K IH]; intros H; simpl.
  - reflexivity.
  - destruct (positions_of k recs) eqn:E.
    + exfalso. apply (H k); simpl; auto.
    + rewrite IH by (intros k' Hk'; apply H; simpl; auto).
      unfold entry_of at 2. rewrite E. reflexivity.
Qed.

(** The aggregate ranking is the stable sort, by rounded mean, of the
    entries of the responders in the order of their first recording. *)
Lemma calculate_aggregate_rankings_eq subs mapping :
  calculate_aggregate_rankings subs mapping
  = sort_by_key AggregateEntry.average_rank
      (map (entry_of mapping (recordings mapping subs))
           (first_seen (map fst (recordings mapping subs)))).
Proof.
  unfold calculate_aggregate_rankings.
  rewrite collect_positions_eq, fold_record_grouped.
  rewrite aggregate_entries_grouped; [reflexivity|].
  intros k Hk. rewrite positions_of_nil_iff, <- first_seen_In. tauto.
Qed.

Lemma before_map {A B : Type} (f : A -> B) (x y : B) (l : list A) :
  before x y (map f l) ->
  exists a b, before a b l /\ f a = x /\ f b = y.
Proof.
  intros (l1 & l2 & l3 & E).
  apply map_eq_app in E. destruct E as (k1 & k2 & -> & <- & E).
  destruct k2 as [|a k2]; [discriminate|]. simpl in E.
  injection E as Ha E.
  apply map_eq_app in E. destruct E as (k3 & k4 & -> & <- & E).
  destruct k4 as [|b k4]; [discriminate|]. simpl in E.
  injection E as Hb E.
  exists a, b. split; [|auto]. exists k1, k3, k4. reflexivity.
Qed.

Lemma recordings_of_In mapping parsed : forall position m p,
  In (m, p) (recordings_of mapping parsed position) <->
  exists i label mp,
    nth_error parsed i = Some label
    /\ p = position + i
    /\ dict_get (response_id_of label) mapping = Some mp
    /\ Mapping.model mp = m.
Proof.
  induction parsed as [|label rest IH]; intros position m p; simpl.
  - split; [tauto|]. intros ([|i] & l & mp & H & _); discriminate.
  - assert (Hrest :
      In (m, p) (recordings_of mapping rest (S position)) <->
      exists i label0 mp,
        nth_error (label :: rest) (S i) = Some label0
        /\ p = position + S i
        /\ dict_get (response_id_of label0) mapping = Some mp
        /\ Mapping.model mp = m).
    { rewrite IH. split; intros (i & l & mp & H1 & H2 & H3 & H4);
        exists i, l, mp; simpl in *; repeat split; auto; lia. }
    destruct (dict_get (response_id_of label) mapping) as [mp0|] eqn:E.
    + simpl. rewrite Hrest. split.
      * intros [H | (i & l & mp & H)].
        -- injection H as <- <-. exists 0, label, mp0.
           simpl. repeat split; auto; lia.
        -- exists (S i), l, mp. exact H.
      * intros ([|i] & l & mp & H1 & H2 & H3 & H4).
        -- simpl in H1. injection H1 as <-. left.
           rewrite E in H3. injection H3 as <-. subst. f_equal. lia.
        -- right. exists i, l, mp. auto.
    + rewrite Hrest. split.
      * intros (i & l & mp & H). exists (S i), l, mp. exact H.
      * intros ([|i] & l & mp & H1 & H2 & H3 & H4).
        -- simpl in H1. injection H1 as <-. congruence.
        -- exists i, l, mp. auto.
Qed.

Lemma positions_of_flat_map {X : Type} (f : X -> list (string * nat)) m l :
  (forall x, In x l -> List.length (positions_of m (f x)) <= 1) ->
  List.length (positions_of m (flat_map f l))
  = List.length
      (filter (fun x => negb (Nat.eqb 0 (List.length (positions_of m (f x)))))
              l).
Proof.
  induction l as [|x l IH]; intros H; simpl.
  - reflexivity.
  - rewrite positions_of_app, length_app, IH
      by (intros y Hy; apply H; simpl; auto).
    specialize (H x (or_introl eq_refl)).
    destruct (List.length (positions_of m (f x))) as [|[|n]]; simpl; lia.
Qed.

(* ================================================================= *)
(** ** The rounded mean *)

Section Rounding.

Local Open Scope Z_scope.

Lemma round_half_even_bound (n d : Z) :
  0 < d -> 2 * Z.abs (n - d * F64.round_half_even n d) <= d.
Proof.
  intros Hd. unfold F64.round_half_even.
  pose proof (Z.div_mod n d ltac:(lia)) as E.
  pose proof (Z.mod_pos_bound n d Hd) as B.
  destruct (Z.ltb_spec (2 * (n mod d)) d) as [H1 | H1].
  - lia.
  - destruct (Z.ltb_spec d (2 * (n mod d))) as [H2 | H2].
    + lia.
    + destruct (Z.even (n / d)); lia.
Qed.

(** For a quotient below [2^46] the exponent of the float is negative:
    the float is [m / 2^s] with [m] the rounded [a * 2^s / b], and it has
    53 significant bits. *)
Lemma div_normal (a b : Z) :
  0 < a -> 0 < b -> a < 2 ^ 46 ->
  exists s,
    0 < s
    /\ F64.div a b = (F64.round_half_even (a * 2 ^ s) b, - s)
    /\ 2 ^ 52 * b <= a * 2 ^ s < 2 ^ 53 * b.
Proof.
  intros Ha Hb Ha46. unfold F64.div.
  destruct (Z.leb_spec a 0) as [H | _]; [lia|].
  pose proof (Z.log2_spec a Ha) as [La1 La2].
  pose proof (Z.log2_spec b Hb) as [Lb1 Lb2].
  pose proof (Z.log2_nonneg a) as La0.
  pose proof (Z.log2_nonneg b) as Lb0.
  assert (La : Z.log2 a < 46) by (apply Z.log2_lt_pow2; lia).
  set (la := Z.log2 a) in *. set (lb := Z.log2 b) in *.
  assert (Hpow : 2 ^ la * 2 ^ (53 + lb - la) = 2 ^ 52 * 2 ^ Z.succ lb).
  { rewrite <- !Z.pow_add_r by lia. f_equal. lia. }
  assert (Hhalf : 2 ^ (53 + lb - la) = 2 * 2 ^ (52 + lb - la)).
  { replace (53 + lb - la) with (Z.succ (52 + lb - la)) by lia.
    rewrite Z.pow_succ_r by lia. reflexivity. }
  assert (Hpow' : 2 ^ Z.succ la * 2 ^ (52 + lb - la) = 2 ^ 53 * 2 ^ lb).
  { rewrite <- !Z.pow_add_r by lia. f_equal. lia. }
  assert (P1 : 0 < 2 ^ (53 + lb - la)) by (apply Z.pow_pos_nonneg; lia).
  assert (P2 : 0 < 2 ^ (52 + lb - la)) by (apply Z.pow_pos_nonneg; lia).
  unfold F64.scaled at 1.
  destruct (Z.leb_spec 0 (la - lb - 53)) as [H | _]; [lia|].
  replace (- (la - lb - 53)) with (53 + lb - la) by lia.
  destruct (Z.ltb_spec (a * 2 ^ (53 + lb - la)) (2 ^ 53 * b)) as [Hlt | Hge].
  - exists (53 + lb - la). unfold F64.scaled.
    destruct (Z.leb_spec 0 (la - lb - 53)) as [H | _]; [lia|].
    replace (- (la - lb - 53)) with (53 + lb - la) by lia.
    split; [lia|]. split; [f_equal; lia|]. split; [nia | exact Hlt].
  - exists (52 + lb - la). unfold F64.scaled.
    destruct (Z.leb_spec 0 (la - lb - 53 + 1)) as [H | _]; [lia|].
    replace (- (la - lb - 53 + 1)) with (52 + lb - la) by lia.
    split; [lia|]. split; [f_equal; lia|].
    split; [change (2 ^ 53) with (2 * 2 ^ 52) in Hge; nia | nia].
Qed.

(** [round(a / b, 2)] is a number of hundredths nearest to the exact
    quotient. *)
Lemma round2_div_nearest (a b : Z) :
  0 < a -> 0 < b -> 200 * a < 2 ^ 53 ->
  2 * Z.abs (100 * a - F64.round2 (F64.div a b) * b) <= b.
Proof.
  intros Ha Hb Hs.
  destruct (div_normal a b Ha Hb) as (s & Hs0 & E & Hn).
  { change (2 ^ 53) with (128 * 2 ^ 46) in Hs. lia. }
  rewrite E. unfold F64.round2, F64.scaled.
  destruct (Z.leb_spec 0 (- - s)) as [_ | H]; [|lia].
  replace (- - s) with s by lia. rewrite Z.mul_1_l.
  assert (PE : 0 < 2 ^ s) by (apply Z.pow_pos_nonneg; lia).
  set (E2 := 2 ^ s) in *.
  pose proof (round_half_even_bound (a * E2) b Hb) as B1.
  set (m := F64.round_half_even (a * E2) b) in *.
  pose proof (round_half_even_bound (100 * m) E2 PE) as B2.
  set (k := F64.round_half_even (100 * m) E2) in *.
  change (2 ^ 53) with (2 * 2 ^ 52) in Hs.
  assert (HE : 100 * b < E2) by nia.
  nia.
Qed.

End Rounding.

(* ================================================================= *)
(** ** The rank aggregator *)

Lemma positions_of_In m p recs :
  In p (positions_of m recs) -> In (m, p) recs.
Proof.
  unfold positions_of. intros H. apply in_map_iff in H.
  destruct H as ([k q] & <- & H). apply filter_In in H.
  destruct H as [H E]. simpl in E. apply String.eqb_eq in E. subst. exact H.
Qed.

Lemma recordings_positive mapping subs m p :
  In (m, p) (recordings mapping subs) -> 1 <= p.
Proof.
  unfold recordings. intros H. apply in_flat_map in H.
  destruct H as (r & _ & H). apply recordings_of_In in H.
  destruct H as (i & l & mp & _ & -> & _). lia.
Qed.

Lemma sum_positions_ge (ps : list nat) :
  (forall p, In p ps -> 1 <= p) -> List.length ps <= sum_positions ps.
Proof.
  unfold sum_positions. induction ps as [|p ps IH]; simpl; intros H.
  - lia.
  - specialize (H p (or_introl eq_refl)) as Hp.
    specialize (IH (fun q Hq => H q (or_intror Hq))). lia.
Qed.

Lemma parsed_of_stage2 r :
  Stage2Result.parsed_ranking r
  = parse_ranking_from_text (Stage2Result.ranking r) ->
  parsed_of r = Stage2Result.parsed_ranking r.
Proof.
  unfold parsed_of. intros H.
  destruct (Stage2Result.parsed_ranking r); [symmetry; exact H | reflexivity].
Qed.

(** C5, amended.  The aggregate ranking is a function of the submissions
    and of the map of the responders.  A submission records, for each
    label of its parsed sequence that is in the map, the place of the label
    counted from 1 against the mapped responder; other labels are skipped.
    The ranking has one entry for each responder with a recorded position
    and none for the others; the entry carries the mean of the positions of
    the responder rounded to hundredths (a nearest number of hundredths)
    and the number of these positions, which is the number of contributing
    submissions when no submission records the responder twice.  The
    entries are in ascending order of the rounded mean, entries of equal
    mean in the order in which their responders were first recorded. *)
Theorem C5_aggregate_rankings :
  forall subs mapping,
    let recs := recordings mapping subs in
    let agg := calculate_aggregate_rankings subs mapping in
    (forall r m p,
        In (m, p) (recordings_of mapping (parsed_of r) 1) <->
        exists i label mp,
          nth_error (parsed_of r) i = Some label
          /\ p = 1 + i
          /\ dict_get (response_id_of label) mapping = Some mp
          /\ Mapping.model mp = m)
    /\ (forall r,
          Stage2Result.parsed_ranking r
          = parse_ranking_from_text (Stage2Result.ranking r) ->
          parsed_of r = Stage2Result.parsed_ranking r)
    /\ NoDup (map AggregateEntry.model agg)
    /\ (forall m,
          In m (map AggregateEntry.model agg) <-> positions_of m recs <> [])
    /\ (forall e,
          In e agg ->
          let ps := positions_of (AggregateEntry.model e) recs in
          AggregateEntry.average_rank e = average_rank_of ps
          /\ AggregateEntry.rankings_count e = List.length ps
          /\ ((200 * Z.of_nat (sum_positions ps) < 2 ^ 53)%Z ->
              (2 * Z.abs (100 * Z.of_nat (sum_positions ps)
                          - AggregateEntry.average_rank e
                            * Z.of_nat (List.length ps))
               <= Z.of_nat (List.length ps))%Z))
    /\ key_sorted AggregateEntry.average_rank agg
    /\ (forall e1 e2,
          before e1 e2 agg ->
          AggregateEntry.average_rank e1 = AggregateEntry.average_rank e2 ->
          before (AggregateEntry.model e1) (AggregateEntry.model e2)
                 (first_seen (map fst recs)))
    /\ (forall m,
          (forall r, In r subs ->
             List.length
               (positions_of m (recordings_of mapping (parsed_of r) 1)) <= 1) ->
          List.length (positions_of m recs) = contributing mapping subs m).
Proof.
  intros subs mapping recs agg.
  assert (Eagg : agg = sort_by_key AggregateEntry.average_rank
                         (map (entry_of mapping recs)
                              (first_seen (map fst recs))))
    by apply calculate_aggregate_rankings_eq.
  assert (Hentry : forall e, In e agg ->
            In (AggregateEntry.model e) (map fst recs)
            /\ e = entry_of mapping recs (AggregateEntry.model e)).
  { intros e He. rewrite Eagg in He.
    apply (proj1 (sort_by_key_In _ _ _)) in He.
    apply in_map_iff in He. destruct He as (k & <- & Hk).
    apply (proj1 (first_seen_In _ _)) in Hk.
    split; [exact Hk | reflexivity]. }
  split; [intros r m p; apply recordings_of_In|].
  split; [exact parsed_of_stage2|].
  split.
  { rewrite Eagg. apply sort_by_key_NoDup_map.
    rewrite map_map. simpl. rewrite map_id. apply first_seen_NoDup. }
  split.
  { intros m. rewrite positions_of_nil_iff. split.
    - intros H. apply in_map_iff in H. destruct H as (e & <- & He).
      intros Hn. apply Hn. apply (Hentry e He).
    - intros H.
      assert (Hin : In m (map fst recs)).
      { destruct (in_dec string_dec m (map fst recs)); tauto. }
      apply in_map_iff. exists (entry_of mapping recs m). split; [reflexivity|].
      rewrite Eagg. apply sort_by_key_In. apply in_map.
      apply first_seen_In. exact Hin. }
  split.
  { intros e He ps. destruct (Hentry e He) as [Hin E].
    split; [rewrite E at 1; reflexivity|].
    split; [rewrite E at 1; reflexivity|].
    intros Hsmall.
    assert (Hav : AggregateEntry.average_rank e = average_rank_of ps)
      by (rewrite E at 1; reflexivity).
    rewrite Hav. unfold average_rank_of.
    assert (Hne : ps <> []).
    { unfold ps. rewrite positions_of_nil_iff. tauto. }
    assert (Hge : List.length ps <= sum_positions ps).
    { apply sum_positions_ge. intros p Hp.
      apply positions_of_In in Hp.
      exact (recordings_positive mapping subs _ _ Hp). }
    assert (Hlen : 0 < List.length ps)
      by (destruct ps; [congruence | simpl; lia]).
    apply round2_div_nearest; lia. }
  split; [rewrite Eagg; apply sort_by_key_sorted|].
  split.
  { intros e1 e2 Hb Heq. rewrite Eagg in Hb.
    apply sort_by_key_stable in Hb. destruct Hb as [Hlt | [_ Hb]]; [lia|].
    apply before_map in Hb. destruct Hb as (a & b & Hb & <- & <-).
    exact Hb. }
  intros m H. unfold recs, recordings, contributing.
  apply positions_of_flat_map. exact H.
Qed.

Lemma C5_aggregate_rankings_witness :
  In (AggregateEntry.mk "a/x" "Council Member" 150 2)
     (calculate_aggregate_rankings [twice_named] mapping_of_one)
  /\ positions_of "a/x" (recordings mapping_of_one [twice_named]) = [1; 2]
  /\ (2 * Z.abs (100 * 3 - 150 * 2) <= 2)%Z.
Proof.
  assert (Hin : In (AggregateEntry.mk "a/x" "Council Member" 150 2)
                   (calculate_aggregate_rankings [twice_named] mapping_of_one))
    by (left; reflexivity).
  destruct (C5_aggregate_rankings [twice_named] mapping_of_one)
    as (_ & _ & _ & _ & H & _).
  destruct (H _ Hin) as (_ & _ & Hround).
  split; [exact Hin|]. split; [reflexivity|].
  apply Hround. reflexivity.
Defined.

(** C5 as stated fails on a submission that names the same response
    twice: the entry counts two positions, and one submission
    contributes. *)
Lemma C5_counterexample_count_of_positions :
  map AggregateEntry.rankings_count
    (calculate_aggregate_rankings [twice_named] mapping_of_one) = [2]
  /\ map AggregateEntry.model
       (calculate_aggregate_rankings [twice_named] mapping_of_one) = ["a/x"]
  /\ contributing mapping_of_one [twice_named] "a/x" = 1
  /\ Stage2Result.parsed_ranking twice_named = ["Response A"; "Response A"].
Proof. repeat split; vm_compute; reflexivity. Qed.

Lemma C10_no_escalation_without_delphi_witness :
  exists session tr',
    session_of_one = (Some session, tr')
    /\ Stage3Result.needs_human_review (stage3_result session) = Some false.
Proof.
  eexists; eexists. split; [vm_compute; reflexivity|].
  eapply (C10_no_escalation_without_delphi ["a/x"] "a/x" gateway_ok
            (invoke_all gateway_ok) "q" []).
  - vm_compute. reflexivity.
  - discriminate.
Defined.

(* ================================================================= *)
(** ** Anonymity of the prompts *)

Lemma occurs_refl x : occurs x x.
Proof. exists "", "". simpl. symmetry. apply app_nil_r_s. Qed.

Lemma occurs_app_l x a b : occurs x a -> occurs x (a ++ b).
Proof.
  intros (pre & post & ->). exists pre, (post ++ b).
  rewrite !app_assoc_s. reflexivity.
Qed.

Lemma occurs_app_r x a b : occurs x b -> occurs x (a ++ b).
Proof.
  intros (pre & post & ->). exists (a ++ pre), post.
  rewrite !app_assoc_s. reflexivity.
Qed.

Lemma occurs_join x sep l : In x l -> occurs x (Py.join sep l).
Proof.
  induction l as [|y l IH]; intros H; [destruct H|].
  destruct H as [-> | H].
  - destruct l; simpl; [apply occurs_refl | apply occurs_app_l, occurs_refl].
  - destruct l as [|z l]; [destruct H|].
    change (Py.join sep (y :: z :: l)) with (y ++ sep ++ Py.join sep (z :: l)).
    apply occurs_app_r, occurs_app_r, IH, H.
Qed.

(** The blocks of the ranking prompt are made of the labels and of the
    response texts. *)
Lemma responses_text_of_labels results members :
  responses_text_of results members
  = Py.join (nl ++ nl)
      (map (fun p => ("Response " ++ fst p) ++ ":" ++ nl ++ snd p)
           (combine (map CouncilMember.id members)
                    (map Stage1Result.response results))).
Proof.
  unfold responses_text_of. f_equal.
  revert results; induction members as [|m ms IH]; intros [|r rs]; simpl;
    try reflexivity.
  rewrite IH. reflexivity.
Qed.

(** C2, amended.  The stage-2 ranking prompt shows the members through
    their labels only: two registries with the same labels and the same
    response texts give the same ranking prompt, whatever the responder
    identifiers.  The stage-3 chairman prompt is not anonymous: it shows
    every response and every ranking under the identifier of its
    responder. *)
Theorem C2_ranking_prompt_is_anonymous :
  (forall query results results' members members',
      map CouncilMember.id members = map CouncilMember.id members' ->
      map Stage1Result.response results
      = map Stage1Result.response results' ->
      stage2_prompt query results members
      = stage2_prompt query results' members')
  /\ (forall query results rankings nhr r,
        In r results ->
        occurs ("Model: " ++ Stage1Result.model r ++ nl ++ "Response: "
                ++ Stage1Result.response r)
               (chairman_prompt query results rankings None nhr))
  /\ (forall query results rankings delphi nhr r,
        In r rankings ->
        occurs ("Model: " ++ Stage2Result.model r ++ nl ++ "Ranking: "
                ++ Stage2Result.ranking r)
               (chairman_prompt query results rankings delphi nhr)).
Proof.
  split; [|split].
  - intros query results results' members members' Hid Hresp.
    unfold stage2_prompt. rewrite !responses_text_of_labels, Hid, Hresp.
    reflexivity.
  - intros query results rankings nhr r Hr.
    unfold chairman_prompt, chairman_prompt_body.
    apply occurs_app_l.
    do 5 apply occurs_app_r. apply occurs_app_l.
    unfold synthesis_text_of. simpl delphi_given. cbv iota.
    apply occurs_join.
    apply (in_map (fun r => "Model: " ++ Stage1Result.model r ++ nl
                            ++ "Response: " ++ Stage1Result.response r)).
    exact Hr.
  - intros query results rankings delphi nhr r Hr.
    unfold chairman_prompt, chairman_prompt_body.
    apply occurs_app_l.
    do 7 apply occurs_app_r. apply occurs_app_l.
    unfold stage2_text_of. destruct rankings as [|r0 rs]; [destruct Hr|].
    apply occurs_join.
    apply (in_map (fun r => "Model: " ++ Stage2Result.model r ++ nl
                            ++ "Ranking: " ++ Stage2Result.ranking r)).
    exact Hr.
Qed.

Lemma C2_ranking_prompt_is_anonymous_witness :
  stage2_prompt "q" [Stage1Result.mk "A" "a/x" "text"]
    [CouncilMember.mk "A" "a/x" "Council Member"]
  = stage2_prompt "q" [Stage1Result.mk "A" "b/y" "text"]
      [CouncilMember.mk "A" "b/y" "Red Team"].
Proof.
  apply (proj1 C2_ranking_prompt_is_anonymous); reflexivity.
Defined.

(** C2 as stated fails for the chairman prompt: with the label and the
    response text fixed, another responder identifier gives another
    prompt. *)
Lemma C2_counterexample_chairman_prompt :
  chairman_prompt "q" [Stage1Result.mk "A" "a/x" "text"] [] None false
  <> chairman_prompt "q" [Stage1Result.mk "A" "b/y" "text"] [] None false.
Proof.
  apply String.eqb_neq. vm_compute. reflexivity.
Qed.

(* ================================================================= *)
(** ** Responders that fail stage 1 *)

Lemma stage1_members_models models : forall replies k results members,
  stage1_members (combine models replies) k = Some (results, members) ->
  incl (map CouncilMember.model members) (succeeded models replies)
  /\ map Stage1Result.model results = map CouncilMember.model members.
Proof.
  induction models as [|m ms IH]; intros replies k results members H.
  - simpl in H. injection H as <- <-. split; [apply incl_refl | reflexivity].
  - destruct replies as [|[r|] rs]; cbn [stage1_members combine] in H.
    + injection H as <- <-. split; [apply incl_refl | reflexivity].
    + destruct (Py.chr (65 + k)); [|discriminate].
      destruct (stage1_members (combine ms rs) (S k)) as [[res mem]|] eqn:E;
        [|discriminate].
      injection H as <- <-. destruct (IH _ _ _ _ E) as [I1 I2].
      simpl. split; [|rewrite I2; reflexivity].
      intros x [<- | Hx]; [left; reflexivity | right; apply I1, Hx].
    + apply (IH _ _ _ _ H).
Qed.

Lemma succeeded_In models : forall replies m,
  In m (succeeded models replies) ->
  exists i r, nth_error models i = Some m /\ nth_error replies i = Some (Some r).
Proof.
  induction models as [|x ms IH]; intros replies m H; [destruct H|].
  destruct replies as [|[r|] rs]; simpl in H; [destruct H| |].
  - destruct H as [<- | H].
    + exists 0, r. auto.
    + destruct (IH rs m H) as (i & r' & H1 & H2). exists (S i), r'. auto.
  - destruct (IH rs m H) as (i & r' & H1 & H2). exists (S i), r'. auto.
Qed.

(** Dropping a responder that failed from the configuration does not
    change the outcome of stage 1. *)
Lemma stage1_members_drop_failed m ms1 : forall ms2 rs1 rs2 k,
  List.length ms1 = List.length rs1 ->
  stage1_members (combine (ms1 ++ m :: ms2) (rs1 ++ None :: rs2)) k
  = stage1_members (combine (ms1 ++ ms2) (rs1 ++ rs2)) k.
Proof.
  induction ms1 as [|x ms1 IH]; intros ms2 rs1 rs2 k H.
  - destruct rs1; [reflexivity | discriminate].
  - destruct rs1 as [|[r|] rs1]; [discriminate| |]; simpl in H |- *.
    + rewrite IH by lia. reflexivity.
    + apply IH. lia.
Qed.

Lemma dict_set_values {V : Type} (P : V -> Prop) k v (d : list (string * V)) :
  P v -> Forall (fun kv => P (snd kv)) d ->
  Forall (fun kv => P (snd kv)) (dict_set k v d).
Proof.
  intros Hv. induction 1 as [|[k' v'] d Hk Hd IH]; simpl.
  - constructor; [exact Hv | constructor].
  - destruct (String.eqb k' k); constructor; auto.
Qed.

Lemma build_response_mapping_models members : forall d L,
  incl (map CouncilMember.model members) L ->
  Forall (fun kv => In (Mapping.model (snd kv)) L) d ->
  Forall (fun kv => In (Mapping.model (snd kv)) L)
         (build_response_mapping members d).
Proof.
  induction members as [|m ms IH]; intros d L HL Hd; simpl; [exact Hd|].
  apply IH.
  - intros x Hx. apply HL. simpl. auto.
  - apply (dict_set_values (fun v => In (Mapping.model v) L)); [|exact Hd].
    apply HL. simpl. auto.
Qed.

Lemma build_label_to_model_models members : forall d L,
  incl (map CouncilMember.model members) L ->
  Forall (fun kv => In (snd kv) L) d ->
  Forall (fun kv : string * string => In (snd kv) L)
         (build_label_to_model members d).
Proof.
  induction members as [|m ms IH]; intros d L HL Hd; simpl; [exact Hd|].
  apply IH.
  - intros x Hx. apply HL. simpl. auto.
  - apply (dict_set_values (fun v => In v L)); [|exact Hd].
    apply HL. simpl. auto.
Qed.

Lemma delphi_outcomes_models members : forall results replies,
  incl (map DelphiResult.model (fst (delphi_outcomes members results replies)))
       (map CouncilMember.model members).
Proof.
  induction members as [|m ms IH]; intros results replies; simpl.
  - apply incl_refl.
  - destruct results as [|r rs]; [apply incl_nil_l|].
    destruct replies as [|p ps]; [apply incl_nil_l|].
    destruct (delphi_outcome_member m r p) as (_ & E & _).
    destruct (delphi_outcome m r p) as [o d].
    specialize (IH rs ps).
    destruct (delphi_outcomes ms rs ps) as [os ds].
    simpl in *. rewrite E.
    intros x [<- | Hx]; [left; reflexivity | right; apply IH, Hx].
Qed.

Lemma dict_get_In {V : Type} k (d : list (string * V)) v :
  dict_get k d = Some v -> exists k', In (k', v) d.
Proof.
  induction d as [|[k' v'] d IH]; simpl; [discriminate|].
  destruct (String.eqb k' k).
  - intros H. injection H as <-. exists k'. auto.
  - intros H. destruct (IH H) as (k'' & Hk). exists k''. auto.
Qed.

Lemma aggregate_entry_recorded subs mapping e :
  In e (calculate_aggregate_rankings subs mapping) ->
  exists p, In (AggregateEntry.model e, p) (recordings mapping subs).
Proof.
  rewrite calculate_aggregate_rankings_eq. intros He.
  apply (proj1 (sort_by_key_In _ _ _)) in He.
  apply in_map_iff in He. destruct He as (k & <- & Hk).
  apply (proj1 (first_seen_In _ _)) in Hk.
  apply in_map_iff in Hk. destruct Hk as ([k' p] & <- & Hk).
  exists p. exact Hk.
Qed.

(** The responders of the aggregate ranking are responders of the map. *)
Lemma aggregate_models_in_mapping subs mapping e :
  In e (calculate_aggregate_rankings subs mapping) ->
  In (AggregateEntry.model e) (map (fun kv => Mapping.model (snd kv)) mapping).
Proof.
  intros He.
  destruct (aggregate_entry_recorded subs mapping e He) as (p & Hp).
  unfold recordings in Hp. apply in_flat_map in Hp.
  destruct Hp as (r & _ & Hp). apply recordings_of_In in Hp.
  destruct Hp as (i & l & mp & _ & _ & Hg & <-).
  apply dict_get_In in Hg. destruct Hg as (k' & Hk).
  apply in_map_iff. exists (k', mp). auto.
Qed.

(** The two ways a session ends: the error session of a stage 1 without
    any response, or the session of all the stages. *)
Lemma run_full_council_cases MODELS CHAIR DELPHI gateway qmp query tr
      session tr' :
  run_full_council MODELS CHAIR DELPHI gateway qmp query tr
  = (Some session, tr') ->
  (stage1_results session = [] /\ metadata session = None)
  \/ exists results members,
       fst (stage1_collect_responses MODELS gateway query tr)
       = Some (results, members)
       /\ results <> []
       /\ run_after_stage1 MODELS CHAIR DELPHI gateway qmp query results
            members (snd (stage1_collect_responses MODELS gateway query tr))
          = (session, tr').
Proof.
  intros H. destruct (stage1_results session) as [|r rs] eqn:E.
  - left. split; [reflexivity|].
    revert H. unfold run_full_council. rewrite bind_eq.
    destruct (stage1_collect_responses MODELS gateway query tr)
      as [[[results members]|] tr1]; cbn [fst snd]; [|discriminate].
    destruct results as [|r rs].
    + unfold ret. intros H. injection H as <- _. reflexivity.
    + rewrite bind_eq. unfold ret. intros H. exfalso.
      destruct (run_after_stage1_spec MODELS CHAIR DELPHI gateway qmp query
                  (r :: rs) members tr1)
        as (dr & nhr & t1 & mr & t2 & text & _ & _ & Ea).
      rewrite Ea in H. cbn [fst snd] in H. injection H as <- _.
      discriminate E.
  - right. apply (run_full_council_inv _ _ _ _ _ _ _ _ _ H).
    rewrite E. discriminate.
Qed.

(** C3, amended.  A responder whose stage-1 calls all fail is absent from
    the Identity Registry (the member list and the two label maps), from
    the stage-1 results, from the reflection outcomes and from the
    aggregate ranking of the session metadata; the outcome of stage 1,
    from which the reflection prompts and the ranking prompt are built, is
    the one of the configuration without the responder.  (Stage 2 asks
    every configured responder, so the responder can still be in the
    stage-2 results and, with them, in the chairman prompt.) *)
Theorem C3_failed_responder_not_in_registry :
  forall MODELS CHAIR DELPHI gateway qmp query tr session tr' m,
    run_full_council MODELS CHAIR DELPHI gateway qmp query tr
    = (Some session, tr') ->
    (forall i,
        nth_error MODELS i = Some m ->
        nth_error (stage1_replies MODELS gateway query tr) i = Some None) ->
    ~ In m (map Stage1Result.model (stage1_results session))
    /\ (forall md,
          metadata session = Some md ->
          ~ In m (map CouncilMember.model (Metadata.council_members md))
          /\ ~ In m (map (fun kv => Mapping.model (snd kv))
                         (Metadata.response_mapping md))
          /\ ~ In m (map snd (Metadata.label_to_model md))
          /\ ~ In m (map AggregateEntry.model (Metadata.aggregate_rankings md))
          /\ (forall outcomes,
                Metadata.delphi_results md = Some outcomes ->
                ~ In m (map DelphiResult.model outcomes)))
    /\ (forall ms1 ms2 rs1 rs2 k,
          List.length ms1 = List.length rs1 ->
          stage1_members (combine (ms1 ++ m :: ms2) (rs1 ++ None :: rs2)) k
          = stage1_members (combine (ms1 ++ ms2) (rs1 ++ rs2)) k).
Proof.
  intros MODELS CHAIR DELPHI gateway qmp query tr session tr' m Hrun Hfail.
  split; [|split]; [| |intros; apply stage1_members_drop_failed; assumption].
  - destruct (run_full_council_cases _ _ _ _ _ _ _ _ _ Hrun)
      as [[E _] | (results & members & Hs1 & _ & Hafter)].
    + rewrite E. simpl. tauto.
    + rewrite stage1_collect_responses_eq in Hs1.
      destruct (stage1_members_models _ _ _ _ _ Hs1) as [I1 I2].
      destruct (run_after_stage1_spec MODELS CHAIR DELPHI gateway qmp query
                  results members
                  (snd (stage1_collect_responses MODELS gateway query tr)))
        as (dr & nhr & t1 & mr & t2 & text & _ & _ & Ea).
      rewrite Ea in Hafter. injection Hafter as <- _.
      cbn [stage1_results]. rewrite I2. intros Hin.
      apply I1, succeeded_In in Hin. destruct Hin as (i & r & H1 & H2).
      rewrite (Hfail i H1) in H2. discriminate.
  - intros md Hmd.
    destruct (run_full_council_cases _ _ _ _ _ _ _ _ _ Hrun)
      as [[_ E] | (results & members & Hs1 & _ & Hafter)]; [congruence|].
    rewrite stage1_collect_responses_eq in Hs1.
    destruct (stage1_members_models _ _ _ _ _ Hs1) as [I1 _].
    assert (Hnot : ~ In m (map CouncilMember.model members)).
    { intros Hin. apply I1, succeeded_In in Hin.
      destruct Hin as (i & r & H1 & H2).
      rewrite (Hfail i H1) in H2. discriminate. }
    destruct (run_after_stage1_spec MODELS CHAIR DELPHI gateway qmp query
                results members
                (snd (stage1_collect_responses MODELS gateway query tr)))
      as (dr & nhr & t1 & mr & t2 & text & Hdr & _ & Ea).
    rewrite Ea in Hafter. injection Hafter as <- _.
    cbn [metadata] in Hmd. injection Hmd as <-.
    cbn [Metadata.council_members Metadata.response_mapping
         Metadata.label_to_model Metadata.aggregate_rankings
         Metadata.delphi_results].
    assert (Hmap : ~ In m (map (fun kv => Mapping.model (snd kv))
                               (build_response_mapping members []))).
    { intros Hin. apply Hnot. apply in_map_iff in Hin.
      destruct Hin as (kv & <- & Hkv).
      pose proof (build_response_mapping_models members []
                    (map CouncilMember.model members) (incl_refl _)
                    (Forall_nil _)) as F.
      rewrite Forall_forall in F. exact (F kv Hkv). }
    split; [exact Hnot|]. split; [exact Hmap|]. split; [|split].
    + intros Hin. apply Hnot. apply in_map_iff in Hin.
      destruct Hin as (kv & <- & Hkv).
      pose proof (build_label_to_model_models members []
                    (map CouncilMember.model members) (incl_refl _)
                    (Forall_nil _)) as F.
      rewrite Forall_forall in F. exact (F kv Hkv).
    + intros Hin. apply Hmap. apply in_map_iff in Hin.
      destruct Hin as (e & <- & He).
      exact (aggregate_models_in_mapping _ _ e He).
    + intros outcomes Ho. destruct DELPHI; [|discriminate].
      destruct Hdr as (outs & E15 & ->). injection Ho as <-.
      intros Hin. apply Hnot.
      apply (delphi_outcomes_models members results
               (reflection_replies gateway query results members
                  (snd (stage1_collect_responses MODELS gateway query tr)))).
      rewrite <- stage1_5_outcomes_eq, E15. exact Hin.
Qed.

Lemma C3_failed_responder_not_in_registry_witness :
  exists session tr',
    session_first_fails = (Some session, tr')
    /\ ~ In "a/x" (map Stage1Result.model (stage1_results session)).
Proof.
  eexists; eexists. split; [vm_compute; reflexivity|].
  eapply (C3_failed_responder_not_in_registry ["a/x"; "b/y"] "b/y" false
            gateway_first_fails (invoke_all gateway_first_fails) "q" []).
  - vm_compute. reflexivity.
  - intros [|[|[|i]]] H; try discriminate H; reflexivity.
Defined.

(** C3 as stated fails for the stage-2 results and the chairman prompt: a
    responder that failed stage 1 is asked to rank like every other one,
    and its ranking goes to the chairman under its identifier. *)
Lemma C3_counterexample_failed_responder_ranks :
  exists session tr' chairman_call,
    session_first_fails = (Some session, tr')
    /\ nth_error (stage1_replies ["a/x"; "b/y"] gateway_first_fails "q" []) 0
       = Some None
    /\ In "a/x" (map Stage2Result.model (stage2_results session))
    /\ last tr' chairman_call = chairman_call
    /\ call_model chairman_call = "b/y"
    /\ Py.contains "Model: a/x" (call_content chairman_call) = true.
Proof.
  do 3 eexists. split; [vm_compute; reflexivity|].
  split; [vm_compute; reflexivity|].
  split; [left; reflexivity|].
  split; [vm_compute; reflexivity|].
  split; vm_compute; reflexivity.
Qed.

(* ================================================================= *)
(** ** The end-to-end scenario *)

Lemma stage2_results_of_parsed mr r :
  In r (stage2_results_of mr) ->
  Stage2Result.parsed_ranking r
  = parse_ranking_from_text (Stage2Result.ranking r).
Proof.
  induction mr as [|[model [resp|]] mr IH]; simpl.
  - tauto.
  - intros [<- | H]; [reflexivity | exact (IH H)].
  - exact IH.
Qed.

Lemma recordings_parseable mapping subs :
  (forall r, In r subs ->
     Stage2Result.parsed_ranking r
     = parse_ranking_from_text (Stage2Result.ranking r)) ->
  recordings mapping subs
  = flat_map (fun l => recordings_of mapping l 1)
      (parseable (map Stage2Result.parsed_ranking subs)).
Proof.
  unfold recordings, parseable. induction subs as [|r subs IH]; intros H.
  - reflexivity.
  - simpl. rewrite IH by (intros r' Hr'; apply H; simpl; auto).
    rewrite (parsed_of_stage2 r) by (apply H; simpl; auto).
    destruct (Stage2Result.parsed_ranking r); reflexivity.
Qed.

Lemma average_rank_of_1_2 : average_rank_of [1; 2] = 150%Z.
Proof. vm_compute. reflexivity. Qed.

Lemma average_rank_of_2_1 : average_rank_of [2; 1] = 150%Z.
Proof. vm_compute. reflexivity. Qed.

Lemma average_rank_of_3_3 : average_rank_of [3; 3] = 300%Z.
Proof. vm_compute. reflexivity. Qed.

(** The aggregate ranking of the two rankings A, B, C and B, A, C over
    three distinct responders. *)
Lemma aggregate_of_scenario m1 m2 m3 ro1 ro2 ro3 subs :
  m1 <> m2 -> m1 <> m3 -> m2 <> m3 ->
  (forall r, In r subs ->
     Stage2Result.parsed_ranking r
     = parse_ranking_from_text (Stage2Result.ranking r)) ->
  parseable (map Stage2Result.parsed_ranking subs)
  = [["Response A"; "Response B"; "Response C"];
     ["Response B"; "Response A"; "Response C"]] ->
  map entry_view
    (calculate_aggregate_rankings subs
       (build_response_mapping
          [CouncilMember.mk "A" m1 ro1; CouncilMember.mk "B" m2 ro2;
           CouncilMember.mk "C" m3 ro3] []))
  = [(m1, 150%Z, 2); (m2, 150%Z, 2); (m3, 300%Z, 2)].
Proof.
  intros H12 H13 H23 Hsubs Hparse.
  rewrite calculate_aggregate_rankings_eq.
  rewrite (recordings_parseable _ subs Hsubs), Hparse.
  change (flat_map _ _)
    with [(m1, 1); (m2, 2); (m3, 3); (m2, 1); (m1, 2); (m3, 3)].
  assert (E12 : String.eqb m1 m2 = false) by (apply String.eqb_neq; auto).
  assert (E13 : String.eqb m1 m3 = false) by (apply String.eqb_neq; auto).
  assert (E23 : String.eqb m2 m3 = false) by (apply String.eqb_neq; auto).
  assert (E21 : String.eqb m2 m1 = false) by (apply String.eqb_neq; auto).
  assert (E31 : String.eqb m3 m1 = false) by (apply String.eqb_neq; auto).
  assert (E32 : String.eqb m3 m2 = false) by (apply String.eqb_neq; auto).
  assert (Hseen : first_seen (map fst [(m1, 1); (m2, 2); (m3, 3);
                                       (m2, 1); (m1, 2); (m3, 3)])
                  = [m1; m2; m3]).
  { unfold first_seen, see. simpl.
    repeat (progress (rewrite ?String.eqb_refl, ?E12, ?E13, ?E23, ?E21,
                        ?E31, ?E32; simpl)).
    reflexivity. }
  rewrite Hseen. unfold entry_of, positions_of. simpl.
  repeat (progress (rewrite ?String.eqb_refl, ?E12, ?E13, ?E23, ?E21,
                      ?E31, ?E32; simpl)).
  rewrite average_rank_of_1_2, average_rank_of_2_1, average_rank_of_3_3.
  reflexivity.
Qed.

(** C6, amended.  In the end-to-end scenario (three distinct responders
    that all answer stage 1 and get the labels A, B and C, Delphi off, two
    submissions that rank A, B, C and B, A, C in this order, the other
    submissions without any label) the aggregate ranking has the responder
    of A first with mean 1.5, the responder of B second with mean 1.5 (the
    tie is broken by the first recording, which is the one of A in the
    first submission) and the responder of C third with mean 3.0, each with
    two positions, and the escalation flag is false in the metadata and in
    the stage-3 result. *)
Theorem C6_end_to_end_scenario :
  forall m1 m2 m3 CHAIR gateway qmp query tr session tr',
    NoDup [m1; m2; m3] ->
    run_full_council [m1; m2; m3] CHAIR false gateway qmp query tr
    = (Some session, tr') ->
    Forall (fun r => r <> None)
           (stage1_replies [m1; m2; m3] gateway query tr) ->
    parseable (map Stage2Result.parsed_ranking (stage2_results session))
    = [["Response A"; "Response B"; "Response C"];
       ["Response B"; "Response A"; "Response C"]] ->
    exists md,
      metadata session = Some md
      /\ map CouncilMember.id (Metadata.council_members md) = ["A"; "B"; "C"]
      /\ map CouncilMember.model (Metadata.council_members md) = [m1; m2; m3]
      /\ map entry_view (Metadata.aggregate_rankings md)
         = [(m1, 150%Z, 2); (m2, 150%Z, 2); (m3, 300%Z, 2)]
      /\ Metadata.needs_human_review md = false
      /\ Stage3Result.needs_human_review (stage3_result session) = Some false.
Proof.
  intros m1 m2 m3 CHAIR gateway qmp query tr session tr' Hnd Hrun Hok Hparse.
  assert (H12 : m1 <> m2 /\ m1 <> m3 /\ m2 <> m3).
  { apply NoDup_cons_iff in Hnd. destruct Hnd as [Ha Hnd].
    apply NoDup_cons_iff in Hnd. destruct Hnd as [Hb _].
    simpl in Ha, Hb. repeat split; intros E; subst; tauto. }
  destruct H12 as (H12 & H13 & H23).
  pose proof (stage1_replies_length [m1; m2; m3] gateway query tr) as Hlen.
  pose proof (stage1_collect_responses_eq [m1; m2; m3] gateway query tr) as Es.
  unfold run_full_council in Hrun. rewrite bind_eq in Hrun.
  remember (stage1_collect_responses [m1; m2; m3] gateway query tr)
    as s1 eqn:Hs1 in Es, Hrun.
  clear Hs1.
  destruct (stage1_replies [m1; m2; m3] gateway query tr)
    as [|[a|] [|[b|] [|[c|] [|? ?]]]]; try discriminate Hlen;
    try (exfalso; repeat match goal with
                         | H : Forall _ (_ :: _) |- _ =>
                             apply Forall_cons_iff in H; destruct H
                         end; congruence).
  cbn in Es. destruct s1 as [o t]. cbn [fst snd] in Es, Hrun. subst o.
  rewrite bind_eq in Hrun.
  destruct (run_after_stage1_spec [m1; m2; m3] CHAIR false gateway qmp query
              [Stage1Result.mk "A" m1 (content_of a);
               Stage1Result.mk "B" m2 (content_of b);
               Stage1Result.mk "C" m3 (content_of c)]
              [CouncilMember.mk "A" m1 (get_governance_role m1);
               CouncilMember.mk "B" m2 (get_governance_role m2);
               CouncilMember.mk "C" m3 (get_governance_role m3)]
              t)
    as (dr & nhr & t1 & mr & t2 & text & (-> & -> & ->) & _ & Ea).
  rewrite Ea in Hrun. unfold ret in Hrun. cbn [fst snd] in Hrun.
  injection Hrun as <- _.
  cbn [metadata stage3_result stage2_results] in Hparse |- *.
  eexists. split; [reflexivity|].
  cbn [Metadata.council_members Metadata.aggregate_rankings
       Metadata.needs_human_review Stage3Result.needs_human_review].
  split; [reflexivity|]. split; [reflexivity|].
  split; [|split; reflexivity].
  apply aggregate_of_scenario; try assumption.
  intros r Hr. exact (stage2_results_of_parsed mr r Hr).
Qed.

Lemma C6_end_to_end_scenario_witness :
  exists session tr' md,
    session_scenario = (Some session, tr')
    /\ metadata session = Some md
    /\ map entry_view (Metadata.aggregate_rankings md)
       = [("a/x", 150%Z, 2); ("b/y", 150%Z, 2); ("c/z", 300%Z, 2)].
Proof.
  edestruct (C6_end_to_end_scenario "a/x" "b/y" "c/z" "a/x" gateway_scenario
               (invoke_all gateway_scenario) "q" [])
    as (md & Hmd & _ & _ & Hagg & _).
  - repeat constructor; simpl; intuition discriminate.
  - vm_compute. reflexivity.
  - vm_compute. repeat constructor; discriminate.
  - vm_compute. reflexivity.
  - do 3 eexists. split; [vm_compute; reflexivity|].
    split; [exact Hmd | exact Hagg].
Defined.

(** C6 as stated fails: in the scenario the responder of A, not the one
    of B, is first in the aggregate ranking. *)
Lemma C6_counterexample_order_of_the_tie :
  exists session tr' md,
    session_scenario = (Some session, tr')
    /\ metadata session = Some md
    /\ map CouncilMember.id (Metadata.council_members md) = ["A"; "B"; "C"]
    /\ map CouncilMember.model (Metadata.council_members md)
       = ["a/x"; "b/y"; "c/z"]
    /\ map Stage2Result.parsed_ranking (stage2_results session)
       = [["Response A"; "Response B"; "Response C"];
          ["Response B"; "Response A"; "Response C"]; []]
    /\ map AggregateEntry.model (Metadata.aggregate_rankings md)
       = ["a/x"; "b/y"; "c/z"]
    /\ map AggregateEntry.model (Metadata.aggregate_rankings md)
       <> ["b/y"; "a/x"; "c/z"].
Proof.
  do 3 eexists. split; [vm_compute; reflexivity|].
  split; [vm_compute; reflexivity|].
  repeat split; try (vm_compute; reflexivity).
  vm_compute. discriminate.
Qed.

(* ================================================================= *)
(** ** The ranking parser *)

(** *** Splitting at a marker *)

Lemma split_from_skip sep : forall skip s cur,
  skip <= String.length s ->
  Py.split_from sep s skip cur = Py.split_from sep (Py.drop skip s) 0 cur.
Proof.
  induction skip as [|k IH]; intros s cur H.
  - destruct s; reflexivity.
  - destruct s as [|c s]; simpl in H; [lia|].
    simpl. apply IH. lia.
Qed.

Lemma startswith_length p s :
  Py.startswith p s = true -> String.length p <= String.length s.
Proof.
  intros H. apply startswith_iff in H. destruct H as [rest ->].
  rewrite length_app_s. lia.
Qed.

Lemma split_from_0 sep c0 sep' s : forall cur,
  sep = String c0 sep' ->
  Py.split_from sep s 0 cur
  = (cur ++ up_to sep s)
    :: match after_first sep s with
       | Some rest => Py.split_from sep rest 0 ""
       | None => []
       end.
Proof.
  intros cur Hsep. revert cur. induction s as [|c s IH]; intros cur.
  - subst sep. simpl. rewrite app_nil_r_s. reflexivity.
  - cbn [Py.split_from up_to after_first].
    destruct (Py.startswith sep (String c s)) eqn:E.
    + rewrite app_nil_r_s. f_equal.
      pose proof (startswith_length _ _ E) as Hl.
      rewrite split_from_skip by (subst sep; simpl in *; lia).
      subst sep. simpl. rewrite Nat.sub_0_r. reflexivity.
    + rewrite IH, app_assoc_s. reflexivity.
Qed.

Lemma split_eq sep c0 sep' s :
  sep = String c0 sep' ->
  Py.split sep s
  = up_to sep s
    :: match after_first sep s with
       | Some rest => Py.split sep rest
       | None => []
       end.
Proof.
  intros H. unfold Py.split. rewrite (split_from_0 sep c0 sep' s "" H).
  reflexivity.
Qed.

Lemma contains_after_first marker s :
  Py.contains marker s = true <-> after_first marker s <> None.
Proof.
  induction s as [|c s IH]; cbn [Py.contains after_first].
  - destruct (Py.startswith marker ""); simpl; split; congruence.
  - destruct (Py.startswith marker (String c s)); simpl.
    + split; congruence.
    + exact IH.
Qed.

Lemma up_to_no_marker marker s :
  Py.contains marker s = false -> up_to marker s = s.
Proof.
  induction s as [|c s IH]; cbn [Py.contains up_to]; intros H.
  - destruct (Py.startswith marker ""); [discriminate | reflexivity].
  - apply orb_false_iff in H. destruct H as [H1 H2].
    rewrite H1, IH by exact H2. reflexivity.
Qed.

(** *** The matches of the two patterns *)

Lemma lit_false p : forall s,
  Re.lit false p s
  = if Py.startswith p s then Some (Py.drop (String.length p) s) else None.
Proof.
  induction p as [|a p IH]; intros s.
  - destruct s; reflexivity.
  - destruct s as [|b s]; [reflexivity|]. simpl.
    destruct (Ascii.eqb a b); [apply IH | reflexivity].
Qed.

Lemma take_app_length a b :
  Py.take (String.length (a ++ b) - String.length b) (a ++ b) = a.
Proof.
  rewrite length_app_s.
  replace (String.length a + String.length b - String.length b)
    with (String.length a) by lia.
  induction a; simpl; [destruct b; reflexivity | congruence].
Qed.

Lemma star_greedy_max {R : Type} (p : ascii -> bool) (k : string -> option R) :
  (forall c s, p c = true -> k (String c s) = None) ->
  forall s, Re.star_greedy p s k = k (snd (span p s)).
Proof.
  intros Hk. induction s as [|c s IH]; simpl; [reflexivity|].
  destruct (p c) eqn:E; [|reflexivity].
  rewrite IH. destruct (span p s) as [a b]. simpl.
  destruct (k b) eqn:Ek; [reflexivity|].
  apply Hk. exact E.
Qed.

Lemma span_app p s : s = fst (span p s) ++ snd (span p s).
Proof.
  induction s as [|c s IH]; simpl; [reflexivity|].
  destruct (p c); [|reflexivity].
  destruct (span p s) as [a b]. simpl in *. congruence.
Qed.

Lemma span_all p s : forall c, 
  In c (list_ascii_of_string (fst (span p s))) -> p c = true.
Proof.
  induction s as [|x s IH]; simpl; [tauto|].
  destruct (p x) eqn:E; [|simpl; tauto].
  destruct (span p s) as [a b]. simpl in *.
  intros c [<- | H]; [exact E | apply IH, H].
Qed.

Lemma label_at_spec s l :
  label_at s = Some l ->
  exists c rest,
    s = "Response " ++ String c rest
    /\ Py.isupper_az c = true
    /\ l = "Response " ++ String c "".
Proof.
  unfold label_at. destruct (Py.startswith "Response " s) eqn:E; [|discriminate].
  apply startswith_iff in E. destruct E as [rest ->].
  change (Py.drop 9 ("Response " ++ rest)) with rest.
  destruct rest as [|c rest]; [discriminate|].
  destruct (Py.isupper_az c) eqn:Ec; [|discriminate].
  intros H. injection H as <-. exists c, rest. auto.
Qed.

Lemma in_class_upper c :
  Re.in_class false (Re.Range "A" "Z") c = Py.isupper_az c.
Proof. unfold Re.in_class. simpl. apply orb_false_r. Qed.

(** The pattern of the label token matches where the token is. *)
Lemma match_at_re_label s :
  Re.match_at false re_label s
  = option_map (fun l => Re.mk_rmatch l None (Py.drop 10 s)) (label_at s).
Proof.
  unfold Re.match_at, re_label. cbn [Re.exec]. rewrite lit_false.
  unfold label_at.
  destruct (Py.startswith "Response " s) eqn:E; [|reflexivity].
  apply startswith_iff in E. destruct E as [rest ->].
  change (Py.drop (String.length "Response ") ("Response " ++ rest)) with rest.
  change (Py.drop 9 ("Response " ++ rest)) with rest.
  destruct rest as [|c rest]; [reflexivity|].
  rewrite in_class_upper. destruct (Py.isupper_az c); [|reflexivity].
  simpl option_map. f_equal. f_equal.
  change ("Response " ++ String c rest)
    with (("Response " ++ String c "") ++ rest).
  apply take_app_length.
Qed.

Lemma label_at_length s l : label_at s = Some l -> String.length l = 10.
Proof.
  intros H. apply label_at_spec in H. destruct H as (c & rest & _ & _ & ->).
  reflexivity.
Qed.

(** A pattern that matches where a form is finds the occurrences of the
    form. *)
Lemma findall_scan {A : Type} ic r (item : string -> option (nat * A))
      (f : string -> A) :
  (forall s,
      match Re.match_at ic r s with
      | Some m =>
          item s = Some (String.length (Re.m_text m), f (Re.m_text m))
      | None => item s = None
      end) ->
  forall s k, map f (Re.findall_from ic r s k) = scan item s k.
Proof.
  intros H. induction s as [|c s IH]; intros k.
  - destruct k; simpl; [|reflexivity].
    specialize (H ""). destruct (Re.match_at ic r ""); rewrite H; reflexivity.
  - destruct k; simpl; [|apply IH].
    specialize (H (String c s)).
    destruct (Re.match_at ic r (String c s)); rewrite H; simpl;
      rewrite IH; reflexivity.
Qed.

Lemma findall_re_label s :
  Re.findall false re_label s = bare_labels s.
Proof.
  unfold Re.findall, bare_labels.
  rewrite <- (map_id (Re.findall_from false re_label s 0)).
  apply findall_scan. intros t. rewrite match_at_re_label.
  destruct (label_at t) eqn:E; simpl; [|reflexivity].
  rewrite (label_at_length _ _ E). reflexivity.
Qed.

Lemma label_at_not_R x s : Ascii.eqb "R" x = false -> label_at (String x s) = None.
Proof.
  intros H. unfold label_at. cbn [Py.startswith]. rewrite H. reflexivity.
Qed.

Lemma search_label_cons x s :
  Ascii.eqb "R" x = false ->
  Re.search false re_label (String x s) = Re.search false re_label s.
Proof.
  intros H. cbn [Re.search]. rewrite match_at_re_label, label_at_not_R by exact H.
  reflexivity.
Qed.

Lemma search_label_span p s t :
  (forall c, p c = true -> Ascii.eqb "R" c = false) ->
  Re.search false re_label (fst (span p s) ++ t) = Re.search false re_label t.
Proof.
  intros Hp. induction s as [|x s IH]; cbn [span]; [reflexivity|].
  destruct (p x) eqn:E; [|reflexivity].
  destruct (span p s) as [a b]. cbn [fst snd append] in *.
  rewrite search_label_cons by (apply Hp; exact E). exact IH.
Qed.

Lemma isdecimal_not_R c : Py.isdecimal c = true -> Ascii.eqb "R" c = false.
Proof. destruct c as [[] [] [] [] [] [] [] []]; vm_compute; congruence. Qed.

Lemma isspace_not_R c : Py.isspace c = true -> Ascii.eqb "R" c = false.
Proof. destruct c as [[] [] [] [] [] [] [] []]; vm_compute; congruence. Qed.

Lemma isdecimal_not_dot c : Py.isdecimal c = true -> Ascii.eqb "." c = false.
Proof. destruct c as [[] [] [] [] [] [] [] []]; vm_compute; congruence. Qed.

(** The label token of a numbered item. *)
Lemma label_of_item s r2 c rest :
  Py.isupper_az c = true ->
  label_of (fst (span Py.isdecimal s) ++ String "." 
              (fst (span Py.isspace r2) ++ "Response " ++ String c rest))
  = "Response " ++ String c "".
Proof.
  intros Hc. unfold label_of.
  rewrite (search_label_span _ _ _ isdecimal_not_R).
  rewrite search_label_cons by reflexivity.
  rewrite (search_label_span _ _ _ isspace_not_R).
  change (Re.search false re_label ("Response " ++ String c rest))
    with (match Re.match_at false re_label ("Response " ++ String c rest) with
          | Some m => Some m
          | None => Re.search false re_label ("esponse " ++ String c rest)
          end).
  rewrite match_at_re_label. unfold label_at.
  change (Py.startswith "Response " ("Response " ++ String c rest)) with true.
  change (Py.drop 9 ("Response " ++ String c rest)) with (String c rest).
  cbv iota. rewrite Hc. reflexivity.
Qed.

(** The pattern of the numbered item matches where an item is, and the
    label token of the match is the one of the item. *)
Lemma match_at_re_numbered s :
  match Re.match_at false re_numbered s with
  | Some m =>
      numbered_at s
      = Some (String.length (Re.m_text m), label_of (Re.m_text m))
  | None => numbered_at s = None
  end.
Proof.
  unfold Re.match_at, re_numbered. cbn [Re.exec].
  destruct s as [|x s']; [reflexivity|].
  unfold numbered_at. cbn [span].
  change (Re.in_class false Re.Digit x) with (Py.isdecimal x).
  destruct (Py.isdecimal x) eqn:Ex; [|reflexivity].
  rewrite (star_greedy_max Py.isdecimal).
  2:{ intros c s Hc. change (Re.in_class false (Re.Chr ".") c)
        with (Ascii.eqb "." c).
      rewrite (isdecimal_not_dot c Hc). reflexivity. }
  pose proof (span_app Py.isdecimal s') as Hs'.
  pose proof (label_of_item (String x s')) as L.
  cbn [span] in L. rewrite Ex in L.
  destruct (span Py.isdecimal s') as [a r1]. cbn [fst snd] in *.
  destruct r1 as [|c r2]; [reflexivity|].
  change (Re.in_class false (Re.Chr ".") c) with (Ascii.eqb "." c).
  rewrite (Ascii.eqb_sym c "."). destruct (Ascii.eqb "." c) eqn:Ec; [|reflexivity].
  apply Ascii.eqb_eq in Ec. subst c.
  rewrite (star_greedy_max Py.isspace).
  2:{ intros c s Hc. rewrite lit_false. cbn [Py.startswith].
      rewrite (isspace_not_R c Hc). reflexivity. }
  pose proof (span_app Py.isspace r2) as Hr2.
  specialize (L r2).
  destruct (span Py.isspace r2) as [blank r3]. cbn [fst snd] in *.
  rewrite lit_false. unfold label_at.
  destruct (Py.startswith "Response " r3) eqn:E; [|reflexivity].
  apply startswith_iff in E. destruct E as [r4 ->].
  change (Py.drop (String.length "Response ") ("Response " ++ r4)) with r4.
  change (Py.drop 9 ("Response " ++ r4)) with r4.
  destruct r4 as [|z r5]; [reflexivity|].
  rewrite in_class_upper. destruct (Py.isupper_az z) eqn:Ez; [|reflexivity].
  cbn [Re.m_text].
  assert (Etext :
    Py.take (String.length (String x s') - String.length r5) (String x s')
    = String x a ++ String "." (blank ++ "Response " ++ String z "")).
  { rewrite Hs', Hr2.
    replace (String x (a ++ String "." (blank ++ "Response " ++ String z r5)))
      with ((String x a ++ String "." (blank ++ "Response " ++ String z ""))
            ++ r5).
    - apply take_app_length.
    - simpl. rewrite !app_assoc_s. simpl. rewrite !app_assoc_s. reflexivity. }
  rewrite Etext. f_equal. f_equal.
  - rewrite length_app_s. simpl. rewrite length_app_s. simpl. lia.
  - symmetry. exact (L z "" Ez).
Qed.

Lemma findall_re_numbered s :
  map label_of (Re.findall false re_numbered s) = numbered_labels s.
Proof.
  unfold Re.findall, numbered_labels.
  apply findall_scan. exact match_at_re_numbered.
Qed.

Lemma parse_ranking_from_text_eq text :
  parse_ranking_from_text text = parse_ranking_section text.
Proof.
  unfold parse_ranking_from_text, parse_ranking_section.
  destruct (Py.contains FINAL_RANKING text) eqn:E.
  - apply contains_after_first in E.
    destruct (after_first FINAL_RANKING text) as [rest|] eqn:Ea; [|congruence].
    rewrite (split_eq FINAL_RANKING "F" "INAL RANKING:" text eq_refl), Ea.
    rewrite (split_eq FINAL_RANKING "F" "INAL RANKING:" rest eq_refl).
    cbn [List.length Nat.leb nth].
    unfold labels_of_section.
    rewrite <- findall_re_numbered, <- findall_re_label.
    destruct (Re.findall false re_numbered (up_to FINAL_RANKING rest));
      reflexivity.
  - destruct (after_first FINAL_RANKING text) eqn:Ea.
    + assert (Py.contains FINAL_RANKING text = true); [|congruence].
      apply contains_after_first. congruence.
    + apply findall_re_label.
Qed.

(** C4, amended.  The ranking parser has three tiers.  With the marker
    FINAL RANKING: in the text, the section is the text between the first
    marker and the next one (the end of the text if there is no other);
    the numbered items of the section give their label tokens in order, and
    a section without numbered items gives all its bare label tokens.
    Without the marker, the whole text gives its bare label tokens in the
    order of appearance.  When the marker occurs once, the section is the
    text after the first marker.  The text with 1. Response B and
    2. Response A after the marker parses to Response B, Response A, and a
    text without the marker that names two responses parses to these two
    in the order of appearance. *)
Theorem C4_ranking_parser_tiers :
  (forall text, parse_ranking_from_text text = parse_ranking_section text)
  /\ (forall text,
        (forall rest,
            after_first FINAL_RANKING text = Some rest ->
            Py.contains FINAL_RANKING rest = false) ->
        parse_ranking_from_text text = parse_ranking_spec text)
  /\ parse_ranking_from_text
       ("FINAL RANKING:" ++ nl ++ "1. Response B" ++ nl ++ "2. Response A")
     = ["Response B"; "Response A"]
  /\ parse_ranking_from_text "I prefer Response C, then Response A."
     = ["Response C"; "Response A"].
Proof.
  split; [exact parse_ranking_from_text_eq|].
  split; [|split; vm_compute; reflexivity].
  intros text H. rewrite parse_ranking_from_text_eq.
  unfold parse_ranking_section, parse_ranking_spec.
  destruct (after_first FINAL_RANKING text) as [rest|]; [|reflexivity].
  rewrite up_to_no_marker by (apply H; reflexivity). reflexivity.
Qed.

Lemma C4_ranking_parser_tiers_witness :
  parse_ranking_from_text ranking_ABC = parse_ranking_spec ranking_ABC
  /\ parse_ranking_spec ranking_ABC
     = ["Response A"; "Response B"; "Response C"].
Proof.
  split; [|vm_compute; reflexivity].
  apply (proj1 (proj2 C4_ranking_parser_tiers)).
  intros rest H. vm_compute in H. injection H as <-. vm_compute. reflexivity.
Defined.

(** C4 as stated fails on a text with two markers: the code reads the
    section between the two markers and finds no label there, while the
    text after the first marker holds the numbered ranking. *)
Lemma C4_counterexample_two_markers :
  parse_ranking_from_text ranking_with_two_markers = []
  /\ parse_ranking_spec ranking_with_two_markers
     = ["Response B"; "Response A"]
  /\ parse_ranking_from_text ranking_with_two_markers
     <> parse_ranking_spec ranking_with_two_markers.
Proof.
  split; [vm_compute; reflexivity|].
  split; [vm_compute; reflexivity|].
  vm_compute. discriminate.
Qed.

(* ================================================================= *)
(** ** The reflection parser *)

(** *** The engine on the constructs of the three patterns *)

Lemma take_length_le n s : String.length (Py.take n s) <= n.
Proof.
  revert s; induction n as [|n IH]; intros [|c s]; simpl; try lia.
  specialize (IH s). lia.
Qed.

Lemma take_drop n s : s = Py.take n s ++ Py.drop n s.
Proof.
  revert s; induction n as [|n IH]; intros [|c s]; simpl; try reflexivity.
  f_equal. apply IH.
Qed.

Lemma lit_true p : forall s, Re.lit true p s = rest_ci p s.
Proof.
  unfold rest_ci, starts_ci.
  induction p as [|a p IH]; intros s.
  - destruct s; reflexivity.
  - destruct s as [|b s]; [reflexivity|].
    cbn [Re.lit Re.char_eq String.length Py.take Py.drop Py.lower
         Py.map_chars String.eqb].
    rewrite (Ascii.eqb_sym (Py.lower_char b)).
    destruct (Ascii.eqb (Py.lower_char a) (Py.lower_char b));
      [apply IH | reflexivity].
Qed.

Lemma search_first {A : Type} ic r (item : string -> option A)
      (f : Re.rmatch -> A) :
  (forall s,
      match Re.match_at ic r s with
      | Some m => item s = Some (f m)
      | None => item s = None
      end) ->
  forall s, option_map f (Re.search ic r s) = first_at item s.
Proof.
  intros H. induction s as [|c s IH]; cbn [Re.search first_at].
  - specialize (H ""). destruct (Re.match_at ic r ""); rewrite H; reflexivity.
  - specialize (H (String c s)).
    destruct (Re.match_at ic r (String c s)); rewrite H; [reflexivity|].
    exact IH.
Qed.

(** A greedy star before a rest that always matches takes all it can. *)
Lemma star_greedy_total {R : Type} (p : ascii -> bool)
      (k : string -> option R) :
  (forall s, k s <> None) ->
  forall s, Re.star_greedy p s k = k (snd (span p s)).
Proof.
  intros Hk. induction s as [|c s IH]; simpl; [reflexivity|].
  destruct (p c); [|reflexivity].
  rewrite IH. destruct (span p s) as [a b]. simpl.
  destruct (k b) eqn:E; [reflexivity|]. destruct (Hk b E).
Qed.

Lemma span_any s : span (fun _ => true) s = (s, "").
Proof. induction s as [|c s IH]; simpl; [|rewrite IH]; reflexivity. Qed.

Lemma span_lstrip s : snd (span Py.isspace s) = Py.lstrip s.
Proof.
  induction s as [|c s IH]; simpl; [reflexivity|].
  destruct (Py.isspace c); [|reflexivity].
  destruct (span Py.isspace s). exact IH.
Qed.

(** The lazy star of any character stops at the first place where the
    rest of the pattern matches. *)
Lemma star_lazy_first {R : Type} (k : string -> option R) s :
  Re.star_lazy (fun _ => true) s k = first_at k s.
Proof.
  induction s as [|c s IH]; cbn [Re.star_lazy first_at].
  - destruct (k ""); reflexivity.
  - destruct (k (String c s)); [reflexivity | exact IH].
Qed.

(** *** White space *)

Lemma rstrip_snoc_space s c :
  Py.isspace c = true -> Py.rstrip (s ++ String c "") = Py.rstrip s.
Proof.
  intros Hc. induction s as [|x s IH]; simpl.
  - rewrite Hc. reflexivity.
  - rewrite IH. reflexivity.
Qed.

Lemma strip_snoc_space s c :
  Py.isspace c = true -> Py.strip (s ++ String c "") = Py.strip s.
Proof.
  intros Hc. unfold Py.strip. induction s as [|x s IH]; simpl.
  - rewrite Hc. reflexivity.
  - destruct (Py.isspace x); [exact IH|].
    apply (rstrip_snoc_space (String x s) c Hc).
Qed.

Lemma lstrip_span s :
  Py.lstrip (fst (span Py.isspace s) ++ Py.lstrip s) = Py.lstrip s.
Proof.
  induction s as [|c s IH]; simpl; [reflexivity|].
  destruct (Py.isspace c) eqn:E.
  - destruct (span Py.isspace s) as [a b]. simpl in *. rewrite E. exact IH.
  - simpl. rewrite E. reflexivity.
Qed.

Lemma lstrip_idem s : Py.lstrip (Py.lstrip s) = Py.lstrip s.
Proof.
  induction s as [|c s IH]; simpl; [reflexivity|].
  destruct (Py.isspace c) eqn:E; [exact IH|]. simpl. rewrite E. reflexivity.
Qed.

Lemma strip_lstrip s : Py.strip (Py.lstrip s) = Py.strip s.
Proof. unfold Py.strip. rewrite lstrip_idem. reflexivity. Qed.

(** *** Characters up to case *)

Lemma ascii_forall (P : ascii -> bool) :
  forallb (fun n => P (ascii_of_nat n)) (seq 0 256) = true ->
  forall a, P a = true.
Proof.
  intros H a. rewrite forallb_forall in H.
  rewrite <- (ascii_nat_embedding a). apply H. apply in_seq.
  pose proof (nat_ascii_bounded a). lia.
Qed.

Lemma ascii_forall2 (P : ascii -> ascii -> bool) :
  forallb (fun n => forallb (fun m => P (ascii_of_nat n) (ascii_of_nat m))
                            (seq 0 256))
          (seq 0 256) = true ->
  forall a b, P a b = true.
Proof.
  intros H a b. rewrite forallb_forall in H.
  assert (Ha : In (nat_of_ascii a) (seq 0 256)).
  { apply in_seq. pose proof (nat_ascii_bounded a). lia. }
  specialize (H _ Ha). rewrite ascii_nat_embedding in H.
  exact (ascii_forall (P a) H b).
Qed.

Lemma char_eq_colon x : Re.char_eq true ":" x = Ascii.eqb ":" x.
Proof.
  apply Bool.eqb_prop.
  apply (ascii_forall
           (fun x => Bool.eqb (Re.char_eq true ":" x) (Ascii.eqb ":" x))).
  vm_compute. reflexivity.
Qed.

Lemma char_eq_bracket x : Re.char_eq true "[" x = Ascii.eqb x "[".
Proof.
  apply Bool.eqb_prop.
  apply (ascii_forall
           (fun x => Bool.eqb (Re.char_eq true "[" x) (Ascii.eqb x "["))).
  vm_compute. reflexivity.
Qed.

Lemma isspace_lower_not x a :
  Py.isspace x = true -> Py.isupper_az a = true ->
  Ascii.eqb (Py.lower_char x) (Py.lower_char a) = false.
Proof.
  intros Hx Ha.
  pose proof (ascii_forall2
                (fun x a =>
                   implb (Py.isspace x && Py.isupper_az a)
                         (negb (Ascii.eqb (Py.lower_char x) (Py.lower_char a))))
                ltac:(vm_compute; reflexivity) x a) as H.
  cbv beta in H. rewrite Hx, Ha in H. simpl in H.
  apply negb_true_iff in H. exact H.
Qed.

Lemma upper_of_lower_eq a b :
  Py.isupper_az a = true ->
  Ascii.eqb (Py.lower_char b) (Py.lower_char a) = true ->
  Py.upper_char b = a.
Proof.
  intros Ha Hb.
  pose proof (ascii_forall2
                (fun a b =>
                   implb (Py.isupper_az a
                          && Ascii.eqb (Py.lower_char b) (Py.lower_char a))
                         (Ascii.eqb (Py.upper_char b) a))
                ltac:(vm_compute; reflexivity) a b) as H.
  cbv beta in H. rewrite Ha, Hb in H. simpl in H.
  apply Ascii.eqb_eq in H. exact H.
Qed.

Lemma starts_ci_cons a p b s :
  starts_ci (String a p) (String b s)
  = Ascii.eqb (Py.lower_char b) (Py.lower_char a) && starts_ci p s.
Proof. reflexivity. Qed.

Lemma starts_ci_nil_r a p : starts_ci (String a p) "" = false.
Proof. reflexivity. Qed.

Lemma starts_ci_length p : forall s,
  starts_ci p s = true -> String.length p <= String.length s.
Proof.
  induction p as [|a p IH]; intros [|b s] H; simpl; try lia.
  - discriminate.
  - rewrite starts_ci_cons in H. apply andb_true_iff in H.
    specialize (IH s (proj2 H)). lia.
Qed.

(** The text matched up to case by a word in capital letters becomes the
    word by [upper]. *)
Lemma starts_ci_upper p : forall s,
  Forall (fun a => Py.isupper_az a = true) (list_ascii_of_string p) ->
  starts_ci p s = true ->
  Py.upper (Py.take (String.length p) s) = p.
Proof.
  induction p as [|a p IH]; intros s F H.
  - reflexivity.
  - destruct s as [|b s]; [discriminate|].
    rewrite starts_ci_cons in H. apply andb_true_iff in H. destruct H as [H1 H2].
    simpl in F. apply Forall_cons_iff in F. destruct F as [Fa F].
    cbn [String.length Py.take Py.upper Py.map_chars].
    rewrite (upper_of_lower_eq a b Fa H1). f_equal. apply (IH s F H2).
Qed.

Lemma take_minus_drop n s :
  n <= String.length s ->
  Py.take (String.length s - String.length (Py.drop n s)) s = Py.take n s.
Proof.
  intros H. rewrite (take_drop n s) at 1 3.
  rewrite take_app_length. reflexivity.
Qed.

Lemma take_all s : Py.take (String.length s - 0) s = s.
Proof.
  rewrite Nat.sub_0_r. induction s; simpl; congruence.
Qed.

(** *** The final response *)

Lemma match_at_final_response s :
  match Re.match_at true re_final_response s with
  | Some m =>
      option_map Py.strip (rest_ci "FINAL RESPONSE:" s)
      = Some (Py.strip (group1 m))
  | None => option_map Py.strip (rest_ci "FINAL RESPONSE:" s) = None
  end.
Proof.
  unfold Re.match_at, re_final_response. cbn [Re.exec]. rewrite lit_true.
  destruct (rest_ci "FINAL RESPONSE:" s) as [s1|]; [|reflexivity].
  rewrite (star_greedy_total Py.isspace).
  2:{ intros t. rewrite (star_greedy_total (fun _ => true)); discriminate. }
  rewrite (star_greedy_total (fun _ => true)) by discriminate.
  rewrite span_any, span_lstrip. cbn [snd option_map]. unfold group1.
  cbn [Re.m_group]. rewrite take_all, strip_lstrip. reflexivity.
Qed.

Lemma first_at_map {A B : Type} (g : A -> B) item s :
  first_at (fun t => option_map g (item t)) s = option_map g (first_at item s).
Proof.
  induction s as [|c s IH]; cbn [first_at].
  - destruct (item ""); reflexivity.
  - destruct (item (String c s)); [reflexivity | exact IH].
Qed.

Lemma final_response_eq text :
  match Re.search true re_final_response text with
  | Some m => Py.strip (group1 m)
  | None => text
  end
  = match after_first_ci "FINAL RESPONSE:" text with
    | Some r => Py.strip r
    | None => text
    end.
Proof.
  pose proof (search_first true re_final_response
                (fun t => option_map Py.strip (rest_ci "FINAL RESPONSE:" t))
                (fun m => Py.strip (group1 m))
                match_at_final_response text) as H.
  rewrite first_at_map in H. fold (after_first_ci "FINAL RESPONSE:" text) in H.
  destruct (Re.search true re_final_response text);
    destruct (after_first_ci "FINAL RESPONSE:" text);
    simpl in H; congruence.
Qed.

(** *** The decision *)

Lemma isspace_not_bracket c : Py.isspace c = true -> Ascii.eqb c "[" = false.
Proof. destruct c as [[] [] [] [] [] [] [] []]; vm_compute; congruence. Qed.

(** The word of the decision and the closing bracket, at the end of the
    pattern. *)
Lemma exec_word (s0 s : string) :
  match
    Re.exec true Re.rmatch
      (Re.Group (Re.Alt (Re.Lit "REVISE") (Re.Lit "AFFIRM"))
       +++ Re.Opt (Re.Chr "]"))%re
      s None
      (fun s' g =>
         Some (Re.mk_rmatch
                 (Py.take (String.length s0 - String.length s') s0) g s'))
  with
  | Some m =>
      (if starts_ci "REVISE" s then Some "REVISE"
       else if starts_ci "AFFIRM" s then Some "AFFIRM" else None)
      = Some (Py.upper (group1 m))
  | None =>
      (if starts_ci "REVISE" s then Some "REVISE"
       else if starts_ci "AFFIRM" s then Some "AFFIRM" else None)
      = None
  end.
Proof.
  assert (Hup : forall w d,
             w = "REVISE" \/ w = "AFFIRM" ->
             starts_ci w s = true ->
             d = Py.drop 6 s ->
             Py.upper (Py.take (String.length s - String.length d) s) = w).
  { intros w d Hw H ->.
    assert (Hl : String.length w = 6) by (destruct Hw; subst; reflexivity).
    pose proof (starts_ci_length w s H) as Hlen.
    rewrite take_minus_drop by lia. rewrite <- Hl.
    apply starts_ci_upper; [|exact H].
    destruct Hw; subst; repeat constructor. }
  cbn [Re.exec]. rewrite !lit_true. unfold rest_ci.
  change (String.length "REVISE") with 6.
  change (String.length "AFFIRM") with 6.
  destruct (starts_ci "REVISE" s) eqn:ER.
  - remember (Py.drop 6 s) as d eqn:Ed in |- *.
    destruct d as [|y t];
      [|destruct (Re.in_class true (Re.Chr "]") y)];
      unfold group1; cbn [Re.m_group];
      rewrite (Hup "REVISE" _ (or_introl eq_refl) ER Ed); reflexivity.
  - destruct (starts_ci "AFFIRM" s) eqn:EA; [|reflexivity].
    remember (Py.drop 6 s) as d eqn:Ed in |- *.
    destruct d as [|y t];
      [|destruct (Re.in_class true (Re.Chr "]") y)];
      unfold group1; cbn [Re.m_group];
      rewrite (Hup "AFFIRM" _ (or_intror eq_refl) EA Ed); reflexivity.
Qed.

Lemma starts_ci_space w c t :
  Forall (fun a => Py.isupper_az a = true) (list_ascii_of_string w) ->
  w <> "" ->
  Py.isspace c = true -> starts_ci w (String c t) = false.
Proof.
  intros F Hw Hc. destruct w as [|a w]; [congruence|].
  rewrite starts_ci_cons. simpl in F. apply Forall_cons_iff in F.
  rewrite (isspace_lower_not c a Hc (proj1 F)). reflexivity.
Qed.

Lemma match_at_decision s :
  match Re.match_at true re_decision s with
  | Some m => decision_at s = Some (Py.upper (group1 m))
  | None => decision_at s = None
  end.
Proof.
  unfold Re.match_at, re_decision.
  set (word := (Re.Group (Re.Alt (Re.Lit "REVISE") (Re.Lit "AFFIRM"))
                +++ Re.Opt (Re.Chr "]"))%re).
  set (k := fun (s' : string) (g : option string) =>
              Some (Re.mk_rmatch
                      (Py.take (String.length s - String.length s') s) g s')).
  cbn [Re.exec]. rewrite lit_true. unfold decision_at.
  destruct (rest_ci "DECISION:" s) as [s1|]; [|reflexivity].
  rewrite (star_greedy_max Py.isspace).
  2:{ intros c t Hc.
      change (Re.in_class true (Re.Chr "[") c) with (Re.char_eq true "[" c).
      rewrite char_eq_bracket, (isspace_not_bracket c Hc).
      pose proof (exec_word s (String c t)) as H. fold word k in H.
      rewrite !(starts_ci_space _ c t) in H
        by (try exact Hc; try discriminate; repeat constructor).
      destruct (Re.exec true Re.rmatch word (String c t) None k);
        [discriminate | reflexivity]. }
  rewrite span_lstrip.
  destruct (Py.lstrip s1) as [|x r'].
  - exact (exec_word s "").
  - change (Re.in_class true (Re.Chr "[") x) with (Re.char_eq true "[" x).
    rewrite char_eq_bracket.
    destruct (Ascii.eqb x "[") eqn:Ex.
    + apply Ascii.eqb_eq in Ex. subst x.
      pose proof (exec_word s r') as H. fold word k in H.
      destruct (Re.exec true Re.rmatch word r' None k); [exact H|].
      pose proof (exec_word s (String "[" r')) as H'. fold word k in H'.
      change (starts_ci "REVISE" (String "[" r')) with false in H'.
      change (starts_ci "AFFIRM" (String "[" r')) with false in H'.
      destruct (Re.exec true Re.rmatch word (String "[" r') None k);
        [discriminate | exact H].
    + exact (exec_word s (String x r')).
Qed.

Lemma decision_eq text :
  match Re.search true re_decision text with
  | Some m => Py.upper (group1 m)
  | None => "AFFIRM"
  end
  = match first_at decision_at text with
    | Some d => d
    | None => "AFFIRM"
    end.
Proof.
  pose proof (search_first true re_decision decision_at
                (fun m => Py.upper (group1 m)) match_at_decision text) as H.
  destruct (Re.search true re_decision text);
    destruct (first_at decision_at text); simpl in H; congruence.
Qed.

(** *** The justification *)

Lemma star_lazy_any {R : Type} (k : string -> option R) s :
  Re.star_lazy (Re.in_class true Re.Any) s k = first_at k s.
Proof. exact (star_lazy_first k s). Qed.

Lemma first_at_ahead_group (K : string -> option Re.rmatch) (whole : string) :
  (forall s4,
      K s4 = None <->
      (starts_ci "FINAL RESPONSE:" s4 || Re.at_end s4) = false) ->
  (forall s4 m,
      K s4 = Some m ->
      group1 m
      = Py.take (String.length whole - String.length s4) whole) ->
  forall s3 pre,
    whole = pre ++ s3 ->
    exists m, first_at K s3 = Some m /\ group1 m = pre ++ up_to_ahead s3.
Proof.
  intros HK Hg. induction s3 as [|c s3 IH]; intros pre Hw.
  - cbn [first_at up_to_ahead].
    destruct (K "") as [m|] eqn:E.
    + exists m. split; [reflexivity|]. rewrite (Hg _ _ E).
      rewrite Hw, orb_true_r, app_nil_r_s. apply take_all.
    + apply HK in E. rewrite orb_true_r in E. discriminate.
  - cbn [first_at up_to_ahead].
    destruct (starts_ci "FINAL RESPONSE:" (String c s3)
              || Re.at_end (String c s3)) eqn:Ea.
    + destruct (K (String c s3)) as [m|] eqn:E.
      * exists m. split; [reflexivity|]. rewrite (Hg _ _ E), Hw.
        rewrite take_app_length, app_nil_r_s. reflexivity.
      * apply HK in E. congruence.
    + rewrite (proj2 (HK _) Ea).
      destruct (IH (pre ++ String c "")) as (m & Hm & Hgm).
      { rewrite Hw, app_assoc_s. reflexivity. }
      exists m. split; [exact Hm|]. rewrite Hgm, app_assoc_s. reflexivity.
Qed.

Lemma first_at_colon {R : Type} (K : string -> option R) s1 :
  (forall s, K s <> None) ->
  first_at (fun s' =>
              match s' with
              | String y s2 =>
                  if Re.in_class true (Re.Chr ":") y then K s2 else None
              | EmptyString => None
              end) s1
  = match after_first ":" s1 with
    | Some s2 => K s2
    | None => None
    end.
Proof.
  intros HK. induction s1 as [|y s1 IH]; [reflexivity|].
  cbn [first_at after_first Py.startswith Py.drop String.length].
  change (Re.in_class true (Re.Chr ":") y) with (Re.char_eq true ":" y).
  rewrite char_eq_colon, andb_true_r.
  destruct (Ascii.eqb ":" y).
  - destruct (K s1) eqn:E; [reflexivity | destruct (HK _ E)].
  - exact IH.
Qed.

Lemma match_at_justification s :
  match Re.match_at true re_justification s with
  | Some m => justification_at s = Some (Py.strip (group1 m))
  | None => justification_at s = None
  end.
Proof.
  unfold Re.match_at, re_justification, justification_at.
  set (k := fun (s' : string) (g : option string) =>
              Some (Re.mk_rmatch
                      (Py.take (String.length s - String.length s') s) g s')).
  cbn [Re.exec]. rewrite lit_true.
  destruct (rest_ci "JUSTIFICATION" s) as [s1|]; [|reflexivity].
  rewrite star_lazy_any.
  assert (Hbody : forall s3,
    exists m,
      Re.star_lazy (Re.in_class true Re.Any) s3
        (fun s' =>
           match
             match
               match Re.lit true "FINAL RESPONSE:" s' with
               | Some _ => Some tt
               | None => None
               end
             with
             | Some r => Some r
             | None => if Re.at_end s' then Some tt else None
             end
           with
           | Some _ =>
               k s' (Some (Py.take (String.length s3 - String.length s') s3))
           | None => None
           end) = Some m
      /\ group1 m = up_to_ahead s3).
  { intros s3. rewrite star_lazy_any.
    apply (first_at_ahead_group _ s3) with (pre := "").
    - intros s4. rewrite lit_true. unfold rest_ci, k.
      destruct (starts_ci "FINAL RESPONSE:" s4); simpl;
        [split; discriminate|].
      destruct (Re.at_end s4); split; congruence.
    - intros s4 m. rewrite lit_true. unfold rest_ci, k.
      destruct (starts_ci "FINAL RESPONSE:" s4); simpl.
      + intros H. injection H as <-. reflexivity.
      + destruct (Re.at_end s4); [|discriminate].
        intros H. injection H as <-. reflexivity.
    - reflexivity. }
  rewrite first_at_colon.
  2:{ intros t. rewrite (star_greedy_total Py.isspace).
      - destruct (Hbody (snd (span Py.isspace t))) as (m & -> & _).
        discriminate.
      - intros u. destruct (Hbody u) as (m & -> & _). discriminate. }
  destruct (after_first ":" s1) as [s2|]; [|reflexivity].
  rewrite (star_greedy_total Py.isspace).
  2:{ intros u. destruct (Hbody u) as (m & -> & _). discriminate. }
  rewrite span_lstrip.
  destruct (Hbody (Py.lstrip s2)) as (m & -> & Hg).
  rewrite Hg. reflexivity.
Qed.

Lemma contains_drop p : forall n t,
  Py.contains p t = false -> Py.contains p (Py.drop n t) = false.
Proof.
  induction n as [|n IH]; intros t H.
  - destruct t; exact H.
  - destruct t as [|c t]; [exact H|].
    cbn [Py.drop]. apply IH.
    cbn [Py.contains] in H. apply orb_false_iff in H. tauto.
Qed.

Lemma contains_colon_app a b :
  Py.contains ":" a = false -> Py.contains ":" b = false ->
  Py.contains ":" (a ++ b) = false.
Proof.
  intros Ha Hb. induction a as [|c a IH]; [exact Hb|].
  cbn [Py.contains append Py.startswith] in *.
  apply orb_false_iff in Ha. destruct Ha as [H1 H2].
  rewrite andb_true_r in *. rewrite H1. simpl. apply IH. exact H2.
Qed.

Lemma contains_colon_lower w :
  Py.contains ":" w = true -> Py.contains ":" (Py.lower w) = true.
Proof.
  intros H. apply contains_iff in H. destruct H as (pre & post & ->).
  apply contains_iff. exists (Py.lower pre), (Py.lower post).
  unfold Py.lower. rewrite !map_chars_app. reflexivity.
Qed.

(** A heading that no colon follows stands in a text without colon. *)
Lemma heading_without_colon text s1 :
  rest_ci "JUSTIFICATION" text = Some s1 ->
  after_first ":" s1 = None ->
  Py.contains ":" text = false.
Proof.
  unfold rest_ci. destruct (starts_ci "JUSTIFICATION" text) eqn:E;
    [|discriminate].
  intros H Hc.
  assert (Hs : Py.drop (String.length "JUSTIFICATION") text = s1)
    by (injection H; auto).
  rewrite <- Hs in Hc. clear H Hs.
  rewrite (take_drop (String.length "JUSTIFICATION") text).
  apply contains_colon_app.
  - destruct (Py.contains ":" (Py.take (String.length "JUSTIFICATION") text))
      eqn:Ec; [|reflexivity].
    apply contains_colon_lower in Ec.
    unfold starts_ci in E. apply String.eqb_eq in E. rewrite E in Ec.
    vm_compute in Ec. discriminate.
  - destruct (Py.contains ":" (Py.drop (String.length "JUSTIFICATION") text))
      eqn:Ec; [|reflexivity].
    apply contains_after_first in Ec. congruence.
Qed.

Lemma justification_at_without_colon t :
  Py.contains ":" t = false -> first_at justification_at t = None.
Proof.
  induction t as [|c t IH]; intros H.
  - reflexivity.
  - cbn [first_at].
    assert (E : justification_at (String c t) = None).
    { unfold justification_at, rest_ci.
      destruct (starts_ci "JUSTIFICATION" (String c t)); [|reflexivity].
      destruct (after_first ":" _) eqn:Ea; [|reflexivity].
      assert (Hd : Py.contains ":"
                     (Py.drop (String.length "JUSTIFICATION") (String c t))
                   = false) by (apply contains_drop; exact H).
      assert (Hd' : Py.contains ":"
                      (Py.drop (String.length "JUSTIFICATION") (String c t))
                    = true) by (apply contains_after_first; congruence).
      congruence. }
    rewrite E. apply IH.
    cbn [Py.contains] in H. apply orb_false_iff in H. tauto.
Qed.

(** The first heading that the pattern matches is the first heading of
    the text, when a colon follows it; otherwise the pattern matches
    nowhere. *)
Lemma first_justification text :
  first_at justification_at text
  = match after_first_ci "JUSTIFICATION" text with
    | Some r1 =>
        match after_first ":" r1 with
        | Some r2 => Some (Py.strip (up_to_ahead (Py.lstrip r2)))
        | None => None
        end
    | None => None
    end.
Proof.
  unfold after_first_ci. induction text as [|c text IH].
  - reflexivity.
  - cbn [first_at]. unfold justification_at at 1.
    destruct (rest_ci "JUSTIFICATION" (String c text)) as [s1|] eqn:E1;
      [|exact IH].
    destruct (after_first ":" s1) eqn:E2; [reflexivity|].
    apply justification_at_without_colon.
    pose proof (heading_without_colon _ _ E1 E2) as H.
    cbn [Py.contains] in H. apply orb_false_iff in H. tauto.
Qed.

Lemma starts_ci_first_space a w c t :
  Py.isupper_az a = true -> Py.isspace c = true ->
  starts_ci (String a w) (String c t) = false.
Proof.
  intros Ha Hc. rewrite starts_ci_cons, (isspace_lower_not c a Hc Ha).
  reflexivity.
Qed.

Lemma up_to_ci_span r :
  up_to_ci "FINAL RESPONSE:" r
  = fst (span Py.isspace r) ++ up_to_ci "FINAL RESPONSE:" (Py.lstrip r).
Proof.
  induction r as [|c r IH]; [reflexivity|].
  cbn [span Py.lstrip]. destruct (Py.isspace c) eqn:E; [|reflexivity].
  cbn [up_to_ci]. rewrite (starts_ci_first_space "F" _ c r eq_refl E).
  rewrite IH. destruct (span Py.isspace r). reflexivity.
Qed.

Lemma lstrip_span_app s x :
  Py.lstrip (fst (span Py.isspace s) ++ x) = Py.lstrip x.
Proof.
  induction s as [|c s IH]; [reflexivity|].
  cbn [span]. destruct (Py.isspace c) eqn:E; [|reflexivity].
  destruct (span Py.isspace s) as [a b]. cbn [fst append Py.lstrip] in *.
  rewrite E. exact IH.
Qed.

Lemma up_to_ci_ahead t :
  exists e,
    (e = "" \/ e = nl)
    /\ up_to_ci "FINAL RESPONSE:" t = up_to_ahead t ++ e.
Proof.
  induction t as [|c t IH].
  - exists "". auto.
  - cbn [up_to_ci up_to_ahead].
    destruct (starts_ci "FINAL RESPONSE:" (String c t)) eqn:E.
    + exists "". auto.
    + cbn [orb]. destruct (Re.at_end (String c t)) eqn:Ee.
      * destruct t as [|d t]; [|discriminate].
        simpl in Ee. apply Ascii.eqb_eq in Ee. subst c.
        exists nl. auto.
      * destruct IH as (e & He & ->). exists e. auto.
Qed.

Lemma strip_up_to_ahead r :
  Py.strip (up_to_ahead (Py.lstrip r))
  = Py.strip (up_to_ci "FINAL RESPONSE:" r).
Proof.
  rewrite up_to_ci_span. unfold Py.strip at 2. rewrite lstrip_span_app.
  fold (Py.strip (up_to_ci "FINAL RESPONSE:" (Py.lstrip r))).
  destruct (up_to_ci_ahead (Py.lstrip r)) as (e & [-> | ->] & ->).
  - rewrite app_nil_r_s. reflexivity.
  - symmetry. apply strip_snoc_space. reflexivity.
Qed.

Lemma justification_eq text :
  match Re.search true re_justification text with
  | Some m => Py.strip (group1 m)
  | None => "No justification provided"
  end
  = match after_first_ci "JUSTIFICATION" text with
    | Some r1 =>
        match after_first ":" r1 with
        | Some r2 => Py.strip (up_to_ci "FINAL RESPONSE:" r2)
        | None => "No justification provided"
        end
    | None => "No justification provided"
    end.
Proof.
  pose proof (search_first true re_justification justification_at
                (fun m => Py.strip (group1 m)) match_at_justification text)
    as H.
  rewrite first_justification in H.
  destruct (Re.search true re_justification text);
    destruct (after_first_ci "JUSTIFICATION" text) as [r1|];
    try destruct (after_first ":" r1) as [r2|];
    simpl in H; try discriminate; try reflexivity.
  injection H as ->. apply strip_up_to_ahead.
Qed.

Lemma parse_delphi_response_eq text :
  _parse_delphi_response text = parse_delphi_spec text.
Proof.
  unfold _parse_delphi_response, parse_delphi_spec.
  rewrite decision_eq, justification_eq, final_response_eq. reflexivity.
Qed.

Lemma first_decision_cases text d :
  first_at decision_at text = Some d -> d = "REVISE" \/ d = "AFFIRM".
Proof.
  induction text as [|c text IH]; cbn [first_at].
  - destruct (decision_at "") eqn:E; [|discriminate].
    intros H. injection H as <-. vm_compute in E. discriminate.
  - destruct (decision_at (String c text)) as [d'|] eqn:E; [|exact IH].
    intros H. injection H as <-. revert E. unfold decision_at.
    destruct (rest_ci "DECISION:" (String c text)) as [r|]; [|discriminate].
    cbv zeta.
    match goal with
    | |- (if starts_ci "REVISE" ?r then _ else _) = _ -> _ =>
        destruct (starts_ci "REVISE" r);
        [|destruct (starts_ci "AFFIRM" r)]
    end; intros H; try discriminate; injection H as <-; auto.
Qed.

(** C7, amended.  The reflection parser takes the decision from the first
    place where the marker DECISION:, up to case, is followed by REVISE or
    AFFIRM (white space and an opening bracket may stand between), and
    AFFIRM if there is no such place; the justification is the text after
    the colon that closes the first JUSTIFICATION heading, up to the marker
    FINAL RESPONSE: or to the end of the text, trimmed and cut to 500
    characters, and a fixed text if no heading with a colon is found; the
    final response is the text after the first marker FINAL RESPONSE:,
    trimmed, and the whole raw text if the marker is absent. *)
Theorem C7_reflection_parser :
  (forall text, _parse_delphi_response text = parse_delphi_spec text)
  /\ (forall text d j f,
        _parse_delphi_response text = (d, j, f) ->
        (d = "REVISE" \/ d = "AFFIRM")
        /\ String.length j <= 500
        /\ (first_at decision_at text = None -> d = "AFFIRM")
        /\ (after_first_ci "FINAL RESPONSE:" text = None -> f = text))
  /\ fst (fst (_parse_delphi_response "DECISION: [REVISE]")) = "REVISE"
  /\ fst (fst (_parse_delphi_response "decision: revise")) = "REVISE"
  /\ fst (fst (_parse_delphi_response "I keep my answer.")) = "AFFIRM".
Proof.
  split; [exact parse_delphi_response_eq|].
  split; [|repeat split; vm_compute; reflexivity].
  intros text d j f H. rewrite parse_delphi_response_eq in H.
  assert (Hd : fst (fst (parse_delphi_spec text)) = d)
    by (rewrite H; reflexivity).
  assert (Hj : snd (fst (parse_delphi_spec text)) = j)
    by (rewrite H; reflexivity).
  assert (Hf : snd (parse_delphi_spec text) = f)
    by (rewrite H; reflexivity).
  clear H. unfold parse_delphi_spec in Hd, Hj, Hf.
  cbn [fst snd] in Hd, Hj, Hf.
  split; [|split; [|split]].
  - destruct (first_at decision_at text) as [d'|] eqn:E.
    + subst d'. exact (first_decision_cases text d E).
    + auto.
  - rewrite <- Hj. apply take_length_le.
  - intros E. rewrite E in Hd. auto.
  - intros E. rewrite E in Hf. auto.
Qed.

Lemma C7_reflection_parser_witness :
  snd (_parse_delphi_response "I keep my answer.") = "I keep my answer.".
Proof.
  destruct (proj1 (proj2 C7_reflection_parser) "I keep my answer."
              "AFFIRM" "No justification provided" "I keep my answer.")
    as (_ & _ & _ & H).
  - vm_compute. reflexivity.
  - vm_compute. reflexivity.
Defined.

(** C7 as stated fails on an answer whose JUSTIFICATION heading is not
    closed by a colon: the marker is in the text and text follows it to
    the end, yet the justification is the fixed text, which is not part of
    the answer. *)
Lemma C7_counterexample_heading_without_colon :
  after_first_ci "JUSTIFICATION" reflection_without_colon
  = Some " - I agree with my peers"
  /\ after_first_ci "FINAL RESPONSE:" reflection_without_colon = None
  /\ snd (fst (_parse_delphi_response reflection_without_colon))
     = "No justification provided"
  /\ Py.contains "No justification provided" reflection_without_colon
     = false.
Proof. repeat split; vm_compute; reflexivity. Qed.

(* ================================================================= *)
(** ** The notions of marker used above *)

(** The text splits at the first occurrence of a marker. *)
Lemma after_first_split marker s rest :
  after_first marker s = Some rest -> s = up_to marker s ++ marker ++ rest.
Proof.
  induction s as [|c s IH]; cbn [after_first up_to].
  - destruct (Py.startswith marker "") eqn:E; [|discriminate].
    intros H. apply startswith_iff in E. destruct E as [r E].
    destruct marker; [|discriminate]. simpl in *. congruence.
  - destruct (Py.startswith marker (String c s)) eqn:E.
    + intros H. injection H as <-. simpl.
      apply startswith_iff in E. destruct E as [r E]. rewrite E at 1.
      f_equal. rewrite E.
      clear. induction marker; simpl; [destruct r|]; auto.
    + intros H. simpl. f_equal. exact (IH H).
Qed.

Lemma starts_ci_split marker : forall s,
  starts_ci marker s = true ->
  Py.lower (Py.take (String.length marker) s) = Py.lower marker.
Proof. intros s H. apply String.eqb_eq. exact H. Qed.

(** The text splits at the first occurrence of a marker up to case. *)
Lemma after_first_ci_split marker s rest :
  after_first_ci marker s = Some rest ->
  exists w,
    s = up_to_ci marker s ++ w ++ rest /\ Py.lower w = Py.lower marker.
Proof.
  unfold after_first_ci.
  induction s as [|c s IH]; cbn [first_at up_to_ci]; unfold rest_ci.
  - destruct (starts_ci marker "") eqn:E; [|discriminate].
    intros H. injection H as <-.
    exists (Py.take (String.length marker) ""). split.
    + apply take_drop.
    + apply starts_ci_split. exact E.
  - destruct (starts_ci marker (String c s)) eqn:E.
    + intros H. injection H as <-.
      exists (Py.take (String.length marker) (String c s)). split.
      * apply take_drop.
      * apply starts_ci_split. exact E.
    + intros H. destruct (IH H) as (w & Hs & Hw).
      exists w. split; [|exact Hw]. simpl. f_equal. exact Hs.
Qed.

(** No marker starts in the text before the first one. *)
Lemma up_to_ci_first marker s : forall pre post,
  s = pre ++ post ->
  String.length pre < String.length (up_to_ci marker s) ->
  starts_ci marker post = false.
Proof.
  induction s as [|c s IH]; intros pre post Hs; cbn [up_to_ci].
  - destruct (starts_ci marker ""); simpl; lia.
  - destruct (starts_ci marker (String c s)) eqn:E; [simpl; lia|].
    destruct pre as [|d pre]; simpl in Hs |- *.
    + intros _. subst post. exact E.
    + injection Hs as _ Hs. intros Hl. apply (IH pre post Hs). lia.
Qed.

(* ================================================================= *)
(** * Further properties of the module *)

(* ================================================================= *)
(** ** Roles and stage-1 prompts *)

(** The governance role and the role prefix of a responder are taken from
    two tables with the same keys and from the same two fallback tests:
    they come in six pairs. *)
Lemma role_and_prefix model :
  In (get_governance_role model, role_prefix_of model)
     [ ("Ethics Officer", dict_get "anthropic/claude-sonnet-4.5" SAFETY_ROLES);
       ("Systems Architect", dict_get "google/gemini-3-pro-preview" SAFETY_ROLES);
       ("Red Team", dict_get "x-ai/grok-4" SAFETY_ROLES);
       ("Systems Integrator", Some CHATGPT_ROLE);
       ("Safety Engineer", Some MISTRAL_ROLE);
       ("Council Member", None) ].
Proof.
  unfold get_governance_role, role_prefix_of, GOVERNANCE_ROLES, SAFETY_ROLES.
  cbn [dict_get].
  destruct (String.eqb "anthropic/claude-sonnet-4.5" model) eqn:E1.
  { apply String.eqb_eq in E1. subst model. left. reflexivity. }
  destruct (String.eqb "google/gemini-3-pro-preview" model) eqn:E2.
  { apply String.eqb_eq in E2. subst model. right; left. reflexivity. }
  destruct (String.eqb "x-ai/grok-4" model) eqn:E3.
  { apply String.eqb_eq in E3. subst model. do 2 right; left. reflexivity. }
  cbn [truthy].
  destruct (is_chatgpt_variant model).
  { do 3 right; left. reflexivity. }
  destruct (is_mistral_variant model).
  { do 4 right; left. reflexivity. }
  do 5 right; left. reflexivity.
Qed.

(** X1. The stage-1 prompt of a responder is determined by its governance
    role: two responders with the same role are sent the same prompt.  The
    prompt ends with the question of the user, and the question stands
    alone exactly for the role Council Member. *)
Theorem X1_stage1_prompt_follows_role :
  (forall query m1 m2,
      get_governance_role m1 = get_governance_role m2 ->
      stage1_content query m1 = stage1_content query m2)
  /\ (forall query m,
        exists prefix,
          stage1_content query m = prefix ++ query
          /\ (prefix = "" <-> get_governance_role m = "Council Member")).
Proof.
  split.
  - intros query m1 m2 H. unfold stage1_content.
    assert (E : role_prefix_of m1 = role_prefix_of m2).
    { pose proof (role_and_prefix m1) as H1.
      pose proof (role_and_prefix m2) as H2.
      rewrite <- H in H2. clear H.
      remember (get_governance_role m1) as r.
      remember (role_prefix_of m1) as p1. remember (role_prefix_of m2) as p2.
      clear - H1 H2.
      cbn [In] in H1, H2.
      repeat (destruct H1 as [H1 | H1]; [ | ]); try contradiction;
        repeat (destruct H2 as [H2 | H2]; [ | ]); try contradiction;
        inversion H1; subst; inversion H2; subst; try reflexivity;
        discriminate. }
    rewrite E. reflexivity.
  - intros query m. unfold stage1_content.
    pose proof (role_and_prefix m) as H.
    remember (get_governance_role m) as r. remember (role_prefix_of m) as p.
    clear - H. cbn [In] in H.
    assert (G : forall p : option string,
               truthy p = true ->
               exists prefix,
                 (if truthy p then content_of p ++ nl ++ nl ++ query else query)
                 = prefix ++ query
                 /\ (prefix = "" -> False)).
    { intros p0 T. rewrite T. exists (content_of p0 ++ nl ++ nl). split.
      - rewrite !app_assoc_s. reflexivity.
      - destruct (content_of p0); discriminate. }
    repeat (destruct H as [H | H]; [ | ]); try contradiction;
      inversion H; subst; clear H;
      try (match goal with
           | |- exists _, (if truthy ?p then _ else _) = _ /\ _ =>
               destruct (G p eq_refl) as [prefix [E N]]
           end;
           exists prefix;
           split; [ exact E | split; intro F; [ destruct (N F) | discriminate F ] ]).
    exists "". split; [ reflexivity | split; reflexivity ].
Qed.

Lemma X1_stage1_prompt_follows_role_witness :
  stage1_content "q" "mistralai/mistral-large"
  = stage1_content "q" "vendor/MISTRAL-7b".
Proof.
  apply (proj1 X1_stage1_prompt_follows_role). reflexivity.
Defined.

(* ================================================================= *)
(** ** The short name of a member *)

Lemma contains_char_cons c x s :
  Py.contains (String c "") (String x s)
  = Ascii.eqb c x || Py.contains (String c "") s.
Proof.
  cbn [Py.contains Py.startswith]. rewrite andb_true_r. reflexivity.
Qed.

Lemma contains_char_app c a b :
  Py.contains (String c "") a = false ->
  Py.contains (String c "") b = false ->
  Py.contains (String c "") (a ++ b) = false.
Proof.
  intros Ha Hb. induction a as [| x a IH].
  - exact Hb.
  - change (String x a ++ b) with (String x (a ++ b)).
    rewrite contains_char_cons in Ha |- *.
    apply orb_false_iff in Ha. destruct Ha as [Hx Ha].
    rewrite Hx, (IH Ha). reflexivity.
Qed.

Lemma split_from_nonempty sep : forall s skip cur,
  Py.split_from sep s skip cur <> [].
Proof.
  induction s as [| x s IH]; intros skip cur.
  - destruct skip; cbn [Py.split_from].
    + destruct (Py.startswith sep ""); discriminate.
    + discriminate.
  - destruct skip; cbn [Py.split_from].
    + destruct (Py.startswith sep (String x s)).
      * discriminate.
      * apply IH.
    + apply IH.
Qed.

Lemma last_cons_nonempty {A : Type} (a : A) (l : list A) d :
  l <> [] -> last (a :: l) d = last l d.
Proof. destruct l; [ congruence | reflexivity ]. Qed.

(** The last piece of a split at a one-character separator is free of
    the separator and ends the text. *)
Lemma last_split_char c : forall s cur,
  Py.contains (String c "") cur = false ->
  let piece := last (Py.split_from (String c "") s 0 cur) "" in
  Py.contains (String c "") piece = false
  /\ exists pre, cur ++ s = pre ++ piece.
Proof.
  induction s as [| x s IH]; intros cur Hcur; cbn zeta.
  - cbn [Py.split_from Py.startswith last]. split; [ exact Hcur | ].
    exists "". apply app_nil_r_s.
  - cbn [Py.split_from Py.startswith String.length Nat.sub].
    rewrite andb_true_r.
    destruct (Ascii.eqb c x) eqn:E.
    + rewrite last_cons_nonempty by apply split_from_nonempty.
      destruct (IH "" eq_refl) as [H1 [pre H2]]. split; [ exact H1 | ].
      exists (cur ++ String x pre).
      rewrite app_assoc_s.
      change (String x pre ++ ?p) with (String x (pre ++ p)).
      rewrite <- H2. reflexivity.
    + assert (Hc : Py.contains (String c "") (cur ++ String x "") = false).
      { apply contains_char_app; [ exact Hcur | ].
        rewrite contains_char_cons, E. reflexivity. }
      destruct (IH _ Hc) as [H1 [pre H2]]. split; [ exact H1 | ].
      exists pre. rewrite <- H2, app_assoc_s. reflexivity.
Qed.

(** X2. The short name of a member holds no slash and ends the model
    identifier; it is the whole identifier when that holds no slash. *)
Theorem X2_short_name_is_last_segment :
  forall m,
    Py.contains "/" (CouncilMember.short_name m) = false
    /\ (exists pre,
          CouncilMember.model m = pre ++ CouncilMember.short_name m)
    /\ (Py.contains "/" (CouncilMember.model m) = false <->
        CouncilMember.short_name m = CouncilMember.model m).
Proof.
  intros m. unfold CouncilMember.short_name.
  destruct (Py.contains "/" (CouncilMember.model m)) eqn:E.
  - pose proof (last_split_char "/" (CouncilMember.model m) "" eq_refl) as H.
    cbn zeta in H. destruct H as [H1 H2].
    unfold Py.split. split; [ exact H1 | split; [ exact H2 | ] ].
    split; [ discriminate | ].
    intros H. unfold Py.split in H. rewrite H in H1. congruence.
  - split; [ exact E | split ].
    + exists "". reflexivity.
    + split; reflexivity.
Qed.

(* ================================================================= *)
(** ** The calls of the stages *)

Lemma gather_cons_snd {A : Type} (t : M A) (rest : list (M A)) tr :
  snd (gather (t :: rest) tr) = snd (gather rest (snd (t tr))).
Proof.
  cbn [gather]. rewrite bind_eq, bind_eq. reflexivity.
Qed.

Lemma gather_cons_fst {A : Type} (t : M A) (rest : list (M A)) tr :
  fst (gather (t :: rest) tr)
  = fst (t tr) :: fst (gather rest (snd (t tr))).
Proof.
  cbn [gather]. rewrite bind_eq, bind_eq. reflexivity.
Qed.

(** The calls of stage 1 in the order of the configured responders. *)
Lemma stage1_trace gateway query models : forall tr,
  snd (gather
         (map (fun model =>
                 query_model gateway model (stage1_content query model) None)
              models)
         tr)
  = List.app tr
      (map (fun model => mk_call model (stage1_content query model) None)
           models).
Proof.
  induction models as [| m models IH]; intros tr.
  - cbn. rewrite app_nil_r. reflexivity.
  - cbn [map]. rewrite gather_cons_snd. cbn [query_model snd].
    rewrite IH, <- app_assoc. reflexivity.
Qed.

Lemma stage1_collect_responses_trace MODELS gateway query tr :
  snd (stage1_collect_responses MODELS gateway query tr)
  = List.app tr
      (map (fun model => mk_call model (stage1_content query model) None)
           MODELS).
Proof.
  unfold stage1_collect_responses. rewrite bind_eq. cbn [ret snd].
  apply stage1_trace.
Qed.

Lemma stage1_members_all_failed models : forall replies k,
  (forall r, In r replies -> r = None) ->
  stage1_members (combine models replies) k = Some ([], []).
Proof.
  induction models as [| m models IH]; intros replies k H.
  - reflexivity.
  - destruct replies as [| r replies]; [ reflexivity | ].
    cbn [combine stage1_members].
    rewrite (H r (or_introl eq_refl)).
    apply IH. intros r' Hr'. apply H. right. exact Hr'.
Qed.

Lemma stage1_members_some_answer models : forall replies k results members,
  List.length replies = List.length models ->
  stage1_members (combine models replies) k = Some (results, members) ->
  results = [] ->
  forall r, In r replies -> r = None.
Proof.
  induction models as [| m models IH]; intros replies k results members L H E r Hr.
  - destruct replies; [ destruct Hr | discriminate L ].
  - destruct replies as [| r0 replies]; [ destruct Hr | ].
    cbn [combine stage1_members] in H.
    destruct r0 as [resp |].
    + destruct (Py.chr (65 + k)); [ | discriminate H ].
      destruct (stage1_members (combine models replies) (S k)) as [[rs ms] |];
        [ | discriminate H ].
      subst results. discriminate H.
    + destruct Hr as [Hr | Hr]; [ congruence | ].
      apply (IH replies k results members); auto.
Qed.

(** X3. Stage 1 calls every configured responder once, in the configured
    order and with the default timeout, whatever the others answer. *)
Theorem X3_stage1_calls_every_responder :
  forall MODELS gateway query tr,
    snd (stage1_collect_responses MODELS gateway query tr)
    = List.app tr
        (map (fun model => mk_call model (stage1_content query model) None)
             MODELS).
Proof.
  intros. apply stage1_collect_responses_trace.
Qed.

(** X4. When no responder answers in stage 1, the session is the error
    artifact without metadata and no call is made after those of stage 1;
    when some responder answers, the session has stage-1 results and
    metadata. *)
Theorem X4_total_failure_short_circuit :
  forall MODELS CHAIR DELPHI gateway qmp query tr,
    ((forall r, In r (stage1_replies MODELS gateway query tr) -> r = None) ->
     run_full_council MODELS CHAIR DELPHI gateway qmp query tr
     = (Some (mk_session [] []
                (Stage3Result.mk "error"
                   "All models failed to respond. Please try again." None)
                None),
        List.app tr
          (map (fun model => mk_call model (stage1_content query model) None)
               MODELS)))
    /\ (forall session tr' resp,
          run_full_council MODELS CHAIR DELPHI gateway qmp query tr
          = (Some session, tr') ->
          In (Some resp) (stage1_replies MODELS gateway query tr) ->
          stage1_results session <> [] /\ metadata session <> None).
Proof.
  intros MODELS CHAIR DELPHI gateway qmp query tr. split.
  - intros H. unfold run_full_council. rewrite bind_eq.
    rewrite stage1_collect_responses_eq, stage1_collect_responses_trace.
    rewrite (stage1_members_all_failed _ _ 0 H). reflexivity.
  - intros session tr' resp Hrun Hin.
    revert Hrun. unfold run_full_council. rewrite bind_eq.
    rewrite stage1_collect_responses_eq.
    destruct (stage1_members
                (combine MODELS (stage1_replies MODELS gateway query tr)) 0)
      as [[results members] |] eqn:S1; [ | discriminate ].
    destruct results as [| r results].
    + pose proof (stage1_members_some_answer _ _ _ _ _
                    (stage1_replies_length MODELS gateway query tr)
                    S1 eq_refl _ Hin) as F.
      discriminate F.
    + rewrite bind_eq. unfold ret. intros H.
      destruct (run_after_stage1_spec MODELS CHAIR DELPHI gateway qmp query
                  (r :: results) members
                  (snd (stage1_collect_responses MODELS gateway query tr)))
        as (dr & nhr & tr1 & mr & tr2 & text & _ & _ & Hs).
      rewrite Hs in H. cbn [fst snd] in H. injection H as <- _.
      split; discriminate.
Qed.

Lemma X4_total_failure_short_circuit_witness :
  run_full_council ["a/x"; "b/y"] "a/x" true (fun _ _ => None)
    (invoke_all (fun _ _ => None)) "q" []
  = (Some (mk_session [] []
             (Stage3Result.mk "error"
                "All models failed to respond. Please try again." None)
             None),
     [mk_call "a/x" "q" None; mk_call "b/y" "q" None]).
Proof.
  apply (proj1 (X4_total_failure_short_circuit ["a/x"; "b/y"] "a/x" true
                  (fun _ _ => None) (invoke_all (fun _ _ => None)) "q" [])).
  intros r H. vm_compute in H.
  destruct H as [<- | [<- | []]]; reflexivity.
Defined.

(* ================================================================= *)
(** ** The reflection round: calls and escalation *)

Lemma peers_of_eq : forall results i,
  peers_of i results
  = map Stage1Result.response
      (List.app (firstn i results) (skipn (S i) results)).
Proof.
  induction results as [| r rest IH]; intros i.
  - destruct i; reflexivity.
  - destruct i as [| i].
    + reflexivity.
    + cbn [peers_of firstn skipn List.app map] in *. rewrite IH. reflexivity.
Qed.

Lemma nth_error_combine {A B : Type} (l : list A) : forall (l' : list B) i a b,
  nth_error l i = Some a -> nth_error l' i = Some b ->
  nth_error (combine l l') i = Some (a, b).
Proof.
  induction l as [| x l IH]; intros l' i a b Ha Hb.
  - destruct i; discriminate Ha.
  - destruct l' as [| y l']; [ destruct i; discriminate Hb | ].
    destruct i as [| i]; cbn [nth_error combine] in *.
    + congruence.
    + apply IH; assumption.
Qed.

Lemma reflection_trace gateway query results : forall pairs i tr,
  exists calls,
    snd (gather (reflection_tasks gateway query results pairs i) tr)
    = List.app tr calls
    /\ List.length calls = List.length pairs
    /\ forall j member result,
         nth_error pairs j = Some (member, result) ->
         nth_error calls j
         = Some (mk_call (CouncilMember.model member)
                   (reflection_prompt query (Stage1Result.response result)
                      (_create_peer_digest (peers_of (i + j) results)))
                   (Some 180)).
Proof.
  induction pairs as [| [m r] pairs IH]; intros i tr.
  - exists []. cbn. rewrite app_nil_r. split; [ reflexivity | ].
    split; [ reflexivity | ]. intros [| j] ? ? H; discriminate H.
  - cbn [reflection_tasks]. rewrite gather_cons_snd. cbn [query_model snd].
    destruct (IH (S i)
                (List.app tr
                   [mk_call (CouncilMember.model m)
                      (reflection_prompt query (Stage1Result.response r)
                         (_create_peer_digest (peers_of i results)))
                      (Some 180)]))
      as (calls & E & L & N).
    exists (mk_call (CouncilMember.model m)
              (reflection_prompt query (Stage1Result.response r)
                 (_create_peer_digest (peers_of i results)))
              (Some 180) :: calls).
    split; [ rewrite E, <- app_assoc; reflexivity | ].
    split; [ cbn [List.length]; rewrite L; reflexivity | ].
    intros [| j] member result H; cbn [nth_error] in *.
    + injection H as <- <-. rewrite Nat.add_0_r. reflexivity.
    + rewrite (N j member result H).
      replace (S i + j) with (i + S j) by lia. reflexivity.
Qed.

Lemma stage1_5_trace gateway query results members tr :
  snd (stage1_5_delphi_reflection gateway query results members tr)
  = snd (gather
           (reflection_tasks gateway query results
              (combine members results) 0)
           tr).
Proof.
  unfold stage1_5_delphi_reflection. rewrite bind_eq.
  destruct (delphi_outcomes members results _). reflexivity.
Qed.

(** X5. The reflection round calls every member once, in the order of the
    members, at its own responder and with a timeout of 180 seconds; the
    digest in the prompt of a member is made of the stage-1 responses of
    all the others, its own left out. *)
Theorem X5_reflection_calls :
  forall gateway query results members tr,
    exists calls,
      snd (stage1_5_delphi_reflection gateway query results members tr)
      = List.app tr calls
      /\ List.length calls
         = Nat.min (List.length members) (List.length results)
      /\ forall i member result,
           nth_error members i = Some member ->
           nth_error results i = Some result ->
           nth_error calls i
           = Some (mk_call (CouncilMember.model member)
                     (reflection_prompt query (Stage1Result.response result)
                        (_create_peer_digest
                           (map Stage1Result.response
                              (List.app (firstn i results)
                                 (skipn (S i) results)))))
                     (Some 180)).
Proof.
  intros gateway query results members tr.
  destruct (reflection_trace gateway query results
              (combine members results) 0 tr) as (calls & E & L & N).
  exists calls. rewrite stage1_5_trace. split; [ exact E | ].
  split; [ rewrite L; apply length_combine | ].
  intros i member result Hm Hr.
  rewrite (N i member result (nth_error_combine _ _ _ _ _ Hm Hr)).
  cbn [Nat.add]. rewrite peers_of_eq. reflexivity.
Qed.

(** The detector on a reply of the reflection round; a failed call is
    never flagged. *)
Lemma delphi_outcome_flag member round1 reply :
  DelphiResult.has_material_disagreement
    (fst (delphi_outcome member round1 reply))
  = match reply with
    | Some resp => _detect_material_disagreement (content_of resp)
    | None => false
    end
  /\ (0 <? List.length (snd (delphi_outcome member round1 reply)))
     = match reply with
       | Some resp => _detect_material_disagreement (content_of resp)
       | None => false
       end.
Proof.
  unfold delphi_outcome. destruct reply as [resp |]; [ | split; reflexivity ].
  destruct (_parse_delphi_response (content_of resp)) as [[d j] f].
  cbn [fst snd DelphiResult.has_material_disagreement].
  destruct (_detect_material_disagreement (content_of resp)); split; reflexivity.
Qed.

Lemma delphi_outcomes_flags members : forall results replies,
  List.length replies <= List.length members ->
  List.length replies <= List.length results ->
  let flagged := fun reply : option Reply =>
    match reply with
    | Some resp => _detect_material_disagreement (content_of resp)
    | None => false
    end in
  existsb DelphiResult.has_material_disagreement
    (fst (delphi_outcomes members results replies))
  = existsb flagged replies
  /\ (0 <? List.length (snd (delphi_outcomes members results replies)))
     = existsb flagged replies.
Proof.
  induction members as [| m members IH]; intros results replies Lm Lr flagged.
  - destruct replies; [ split; reflexivity | cbn in Lm; lia ].
  - destruct replies as [| reply replies].
    + destruct results; split; reflexivity.
    + destruct results as [| r results]; [ cbn in Lr; lia | ].
      cbn [delphi_outcomes].
      destruct (delphi_outcome_flag m r reply) as [F1 F2].
      destruct (delphi_outcome m r reply) as [o d].
      cbn [List.length] in Lm, Lr.
      destruct (IH results replies ltac:(lia) ltac:(lia)) as [G1 G2].
      destruct (delphi_outcomes members results replies) as [os ds].
      subst flagged. cbn [fst snd existsb] in *.
      rewrite <- F2, <- G2 at 2. rewrite F1, G1, <- G2.
      split; [ reflexivity | ].
      rewrite length_app. destruct d, ds; reflexivity.
Qed.

Lemma existsb_nth_error {A : Type} (p : A -> bool) (l : list A) :
  existsb p l = true <-> exists i a, nth_error l i = Some a /\ p a = true.
Proof.
  rewrite existsb_exists. split.
  - intros (a & Ha & Hp). destruct (In_nth_error _ _ Ha) as [i Hi].
    exists i, a. split; assumption.
  - intros (i & a & Hi & Hp). exists a. split; [ | exact Hp ].
    eapply nth_error_In. exact Hi.
Qed.

(** The escalation flag of the reflection round. *)
Lemma needs_human_review_eq gateway query results members tr :
  let res := fst (stage1_5_delphi_reflection gateway query results members tr) in
  snd res = existsb DelphiResult.has_material_disagreement (fst res)
  /\ (snd res = true <->
      exists i resp,
        nth_error (reflection_replies gateway query results members tr) i
        = Some (Some resp)
        /\ _detect_material_disagreement (content_of resp) = true).
Proof.
  unfold stage1_5_delphi_reflection, reflection_replies.
  rewrite bind_eq.
  set (replies := fst (gather _ tr)).
  assert (L : List.length replies = List.length (combine members results)).
  { unfold replies. rewrite gather_length, reflection_tasks_length.
    reflexivity. }
  rewrite length_combine in L.
  destruct (delphi_outcomes_flags members results replies
              ltac:(lia) ltac:(lia)) as [G1 G2].
  destruct (delphi_outcomes members results replies) as [os ds].
  cbn [fst snd ret] in *. rewrite G1, G2, orb_diag. split; [ reflexivity | ].
  rewrite existsb_nth_error. split.
  - intros (i & [resp |] & Hi & Hp); [ | discriminate Hp ].
    exists i, resp. split; assumption.
  - intros (i & resp & Hi & Hp). exists i, (Some resp). split; assumption.
Qed.

(** X6. The reflection round asks for human review exactly when the
    detector flags the text of some answered reflection call: the two
    tests of the flag, the list of disagreements and the flags of the
    outcomes, always agree, and a failed call never raises it. *)
Theorem X6_human_review_iff_flagged_reply :
  forall gateway query results members tr,
    let res :=
      fst (stage1_5_delphi_reflection gateway query results members tr) in
    snd res = existsb DelphiResult.has_material_disagreement (fst res)
    /\ (snd res = true <->
        exists i resp,
          nth_error (reflection_replies gateway query results members tr) i
          = Some (Some resp)
          /\ _detect_material_disagreement (content_of resp) = true).
Proof.
  intros. apply needs_human_review_eq.
Qed.

(** X7. In Delphi mode a flagged reflection reply reaches the chairman:
    the escalation flag is set in the stage-3 result and in the metadata,
    and the prompt of the chairman call, the last call of the session,
    holds the section that asks for a human decision. *)
Theorem X7_escalation_reaches_chairman :
  forall MODELS CHAIR gateway qmp query tr session tr' results members i resp,
    run_full_council MODELS CHAIR true gateway qmp query tr
    = (Some session, tr') ->
    fst (stage1_collect_responses MODELS gateway query tr)
    = Some (results, members) ->
    nth_error
      (reflection_replies gateway query results members
         (snd (stage1_collect_responses MODELS gateway query tr))) i
    = Some (Some resp) ->
    _detect_material_disagreement (content_of resp) = true ->
    Stage3Result.needs_human_review (stage3_result session) = Some true
    /\ (exists md,
          metadata session = Some md
          /\ Metadata.needs_human_review md = true)
    /\ exists tr0 c,
         tr' = List.app tr0 [c]
         /\ call_model c = CHAIR
         /\ call_timeout c = Some 180
         /\ occurs escalation_section (call_content c).
Proof.
  intros MODELS CHAIR gateway qmp query tr session tr' results members i resp
         Hrun S1 Hi Hd.
  revert Hrun. unfold run_full_council. rewrite bind_eq, S1.
  destruct results as [| r results].
  { unfold reflection_replies in Hi.
    replace (combine members []) with (@nil (CouncilMember.t * Stage1Result.t))
      in Hi by (destruct members; reflexivity).
    destruct i; discriminate Hi. }
  rewrite bind_eq. unfold ret. intros H.
  destruct (run_after_stage1_spec MODELS CHAIR true gateway qmp query
              (r :: results) members
              (snd (stage1_collect_responses MODELS gateway query tr)))
    as (dr & nhr & tr1 & mr & tr2 & text & (outcomes & E5 & Edr) & _ & Hs).
  rewrite Hs in H. cbn [fst snd] in H. injection H as <- <-.
  assert (N : nhr = true).
  { pose proof (needs_human_review_eq gateway query (r :: results) members
                  (snd (stage1_collect_responses MODELS gateway query tr)))
      as [_ Hiff].
    rewrite E5 in Hiff. cbn [fst snd] in Hiff. apply Hiff.
    exists i, resp. split; assumption. }
  subst nhr. cbn [stage3_result metadata Stage3Result.needs_human_review].
  split; [ reflexivity | ]. split.
  - eexists. split; reflexivity.
  - do 2 eexists. split; [ reflexivity | ].
    cbn [call_model call_timeout call_content].
    split; [ reflexivity | ]. split; [ reflexivity | ].
    unfold chairman_prompt. apply occurs_app_r, occurs_app_l, occurs_refl.
Qed.

Lemma X7_escalation_reaches_chairman_witness :
  exists session tr',
    session_dissent = (Some session, tr')
    /\ Stage3Result.needs_human_review (stage3_result session) = Some true.
Proof.
  eexists; eexists. split; [ vm_compute; reflexivity | ].
  eapply (X7_escalation_reaches_chairman ["a/x"] "a/x" gateway_dissent
            (invoke_all gateway_dissent) "q" [] _ _ _ _ 0
            (Some "DECISION: AFFIRM DISSENT: the plan is unsafe")).
  - vm_compute. reflexivity.
  - vm_compute. reflexivity.
  - vm_compute. reflexivity.
  - vm_compute. reflexivity.
Defined.

(* ================================================================= *)
(** ** The identity registry of a session *)

Lemma dict_get_set_same {V : Type} k (v : V) d :
  dict_get k (dict_set k v d) = Some v.
Proof.
  induction d as [| [k' v'] d IH]; cbn [dict_set dict_get].
  - rewrite String.eqb_refl. reflexivity.
  - destruct (String.eqb k' k) eqn:E; cbn [dict_get]; rewrite E.
    + reflexivity.
    + exact IH.
Qed.

Lemma dict_get_set_other {V : Type} k k0 (v : V) d :
  k0 <> k -> dict_get k0 (dict_set k v d) = dict_get k0 d.
Proof.
  intros N. induction d as [| [k' v'] d IH]; cbn [dict_set dict_get].
  - destruct (String.eqb k k0) eqn:E; [ | reflexivity ].
    apply String.eqb_eq in E. congruence.
  - destruct (String.eqb k' k) eqn:E; cbn [dict_get].
    + destruct (String.eqb k' k0) eqn:E0; [ | reflexivity ].
      apply String.eqb_eq in E, E0. congruence.
    + rewrite IH. reflexivity.
Qed.

Lemma dict_set_keys_new {V : Type} k (v : V) d :
  ~ In k (map fst d) -> map fst (dict_set k v d) = List.app (map fst d) [k].
Proof.
  induction d as [| [k' v'] d IH]; intros N; cbn [dict_set map fst List.app].
  - reflexivity.
  - cbn [map fst In] in N.
    destruct (String.eqb k' k) eqn:E.
    + apply String.eqb_eq in E. exfalso. apply N. left. exact E.
    + cbn [map fst]. rewrite IH; [ reflexivity | ].
      intros H. apply N. right. exact H.
Qed.

(** The members of stage 1: consecutive letters, and for each the role of
    the role resolver. *)
Lemma stage1_members_ids pairs : forall k results members,
  stage1_members pairs k = Some (results, members) ->
  map CouncilMember.id members = letters_from k (List.length members)
  /\ map Stage1Result.member_id results = map CouncilMember.id members
  /\ map Stage1Result.model results = map CouncilMember.model members
  /\ Forall (fun m => CouncilMember.role m
                      = get_governance_role (CouncilMember.model m)) members
  /\ (members <> [] -> 65 + k + List.length members <= 256).
Proof.
  induction pairs as [| [model [resp |]] pairs IH]; intros k results members H;
    cbn [stage1_members] in H.
  - injection H as <- <-. repeat split; try constructor. congruence.
  - destruct (Py.chr (65 + k)) as [mid |] eqn:Ec; [ | discriminate H ].
    destruct (stage1_members pairs (S k)) as [[rs ms] |] eqn:E;
      [ | discriminate H ].
    injection H as <- <-.
    destruct (IH _ _ _ E) as (I1 & I2 & I3 & I4 & I5).
    assert (Hk : 65 + k < 256 /\ mid = String (ascii_of_nat (65 + k)) "").
    { unfold Py.chr in Ec. destruct (65 + k <? 256) eqn:Ek; [ | discriminate Ec ].
      apply Nat.ltb_lt in Ek. split; [ exact Ek | congruence ]. }
    destruct Hk as [Hk ->].
    cbn [map List.length CouncilMember.id CouncilMember.model
         CouncilMember.role Stage1Result.member_id Stage1Result.model].
    rewrite I1, I2, I3, I1. unfold letters_from. cbn [seq map].
    repeat split.
    + constructor; [ reflexivity | exact I4 ].
    + intros _. destruct ms as [| m0 ms].
      * cbn [List.length]. lia.
      * assert (N : m0 :: ms <> []) by discriminate.
        specialize (I5 N). lia.
  - apply (IH _ _ _ H).
Qed.

Lemma stage1_members_NoDup pairs k results members :
  stage1_members pairs k = Some (results, members) ->
  NoDup (map CouncilMember.id members).
Proof.
  intros H. destruct (stage1_members_ids _ _ _ _ H) as (I1 & _ & _ & _ & I5).
  rewrite I1. destruct members as [| m ms].
  - constructor.
  - apply letters_from_NoDup, I5. discriminate.
Qed.

(** The response mapping of members with distinct identifiers. *)
Lemma build_response_mapping_get members : forall d m,
  NoDup (map CouncilMember.id members) ->
  In m members ->
  dict_get (CouncilMember.id m) (build_response_mapping members d)
  = Some (Mapping.mk (CouncilMember.model m) (CouncilMember.role m)
            (CouncilMember.label m)).
Proof.
  assert (K : forall l d k,
             ~ In k (map CouncilMember.id l) ->
             dict_get k (build_response_mapping l d) = dict_get k d).
  { induction l as [| m0 ms IH]; intros d k N; cbn [build_response_mapping].
    - reflexivity.
    - cbn [map In] in N. rewrite IH by tauto.
      apply dict_get_set_other. intros E. apply N. left. congruence. }
  induction members as [| m0 ms IH]; intros d m ND Hin; [ destruct Hin | ].
  cbn [build_response_mapping]. cbn [map] in ND.
  apply NoDup_cons_iff in ND. destruct ND as [N0 ND].
  destruct Hin as [<- | Hin].
  - rewrite K by exact N0. apply dict_get_set_same.
  - apply IH; assumption.
Qed.

Lemma build_response_mapping_keys members : forall d,
  NoDup (List.app (map fst d) (map CouncilMember.id members)) ->
  map fst (build_response_mapping members d)
  = List.app (map fst d) (map CouncilMember.id members).
Proof.
  induction members as [| m0 ms IH]; intros d ND; cbn [build_response_mapping map].
  - rewrite app_nil_r. reflexivity.
  - cbn [map] in ND.
    assert (N0 : ~ In (CouncilMember.id m0) (map fst d)).
    { intros H. apply NoDup_remove_2 in ND. apply ND.
      apply in_or_app. left. exact H. }
    rewrite IH; rewrite (dict_set_keys_new _ _ _ N0), <- app_assoc.
    + reflexivity.
    + exact ND.
Qed.

Lemma label_injective m1 m2 :
  CouncilMember.label m1 = CouncilMember.label m2 ->
  CouncilMember.id m1 = CouncilMember.id m2.
Proof.
  unfold CouncilMember.label. intros H.
  cbn [String.append] in H. congruence.
Qed.

Lemma build_label_to_model_get members : forall d m,
  NoDup (map CouncilMember.id members) ->
  In m members ->
  dict_get (CouncilMember.label m) (build_label_to_model members d)
  = Some (CouncilMember.model m).
Proof.
  assert (K : forall l d k,
             ~ In k (map CouncilMember.label l) ->
             dict_get k (build_label_to_model l d) = dict_get k d).
  { induction l as [| m0 ms IH]; intros d k N; cbn [build_label_to_model].
    - reflexivity.
    - cbn [map In] in N. rewrite IH by tauto.
      apply dict_get_set_other. intros E. apply N. left. congruence. }
  induction members as [| m0 ms IH]; intros d m ND Hin; [ destruct Hin | ].
  cbn [build_label_to_model]. cbn [map] in ND.
  apply NoDup_cons_iff in ND. destruct ND as [N0 ND].
  destruct Hin as [<- | Hin].
  - rewrite K; [ apply dict_get_set_same | ].
    intros H. apply N0. apply in_map_iff in H.
    destruct H as (m' & E & Hm'). apply in_map_iff. exists m'.
    split; [ apply label_injective; exact E | exact Hm' ].
  - apply IH; assumption.
Qed.

(** The sessions that went through all the stages. *)
Lemma run_full_council_metadata MODELS CHAIR DELPHI gateway qmp query tr
      session tr' md :
  run_full_council MODELS CHAIR DELPHI gateway qmp query tr
  = (Some session, tr') ->
  metadata session = Some md ->
  exists results members dr nhr mr text,
    stage1_members (combine MODELS (stage1_replies MODELS gateway query tr)) 0
    = Some (results, members)
    /\ (if DELPHI return Prop then exists outcomes, dr = Some outcomes
        else dr = None)
    /\ session
       = mk_session results (stage2_results_of mr)
           (Stage3Result.mk CHAIR text (Some nhr)) (Some md)
    /\ md = Metadata.mk members
              (build_response_mapping members [])
              (build_label_to_model members [])
              (calculate_aggregate_rankings (stage2_results_of mr)
                 (build_response_mapping members []))
              DELPHI (if DELPHI then dr else None) nhr.
Proof.
  intros Hrun Hmd.
  destruct (run_full_council_cases _ _ _ _ _ _ _ _ _ Hrun)
    as [[_ E] | (results & members & S1 & _ & Hs)]; [ congruence | ].
  rewrite stage1_collect_responses_eq in S1.
  destruct (run_after_stage1_spec MODELS CHAIR DELPHI gateway qmp query
              results members
              (snd (stage1_collect_responses MODELS gateway query tr)))
    as (dr & nhr & tr1 & mr & tr2 & text & Hd & _ & Hs').
  rewrite Hs' in Hs.
  assert (Es : mk_session results (stage2_results_of mr)
                 (Stage3Result.mk CHAIR text (Some nhr))
                 (Some (Metadata.mk members
                          (build_response_mapping members [])
                          (build_label_to_model members [])
                          (calculate_aggregate_rankings (stage2_results_of mr)
                             (build_response_mapping members []))
                          DELPHI (if DELPHI then dr else None) nhr))
               = session) by congruence.
  subst session. cbn [metadata] in Hmd.
  exists results, members, dr, nhr, mr, text.
  split; [ exact S1 | ]. split.
  - destruct DELPHI.
    + destruct Hd as (outcomes & _ & ->). exists outcomes. reflexivity.
    + destruct Hd as (-> & _). reflexivity.
  - split; congruence.
Qed.

(** X8. The parts of a session agree with each other: the stage-3 result
    names the chairman and carries the escalation flag of the metadata;
    the metadata record the Delphi mode of the configuration and hold
    reflection outcomes exactly in that mode; the stage-1 results and the
    members go by pairs, every member with the role of the role resolver;
    every stored parsed ranking is the parse of the stored text; the
    aggregate ranking is the one of the stored rankings and registry. *)
Theorem X8_session_is_consistent :
  forall MODELS CHAIR DELPHI gateway qmp query tr session tr' md,
    run_full_council MODELS CHAIR DELPHI gateway qmp query tr
    = (Some session, tr') ->
    metadata session = Some md ->
    Stage3Result.model (stage3_result session) = CHAIR
    /\ Stage3Result.needs_human_review (stage3_result session)
       = Some (Metadata.needs_human_review md)
    /\ Metadata.delphi_mode md = DELPHI
    /\ (Metadata.delphi_results md = None <-> DELPHI = false)
    /\ map Stage1Result.member_id (stage1_results session)
       = map CouncilMember.id (Metadata.council_members md)
    /\ map Stage1Result.model (stage1_results session)
       = map CouncilMember.model (Metadata.council_members md)
    /\ Forall (fun m => CouncilMember.role m
                        = get_governance_role (CouncilMember.model m))
              (Metadata.council_members md)
    /\ (forall r, In r (stage2_results session) ->
          Stage2Result.parsed_ranking r
          = parse_ranking_from_text (Stage2Result.ranking r))
    /\ Metadata.aggregate_rankings md
       = calculate_aggregate_rankings (stage2_results session)
           (Metadata.response_mapping md).
Proof.
  intros MODELS CHAIR DELPHI gateway qmp query tr session tr' md Hrun Hmd.
  destruct (run_full_council_metadata _ _ _ _ _ _ _ _ _ _ Hrun Hmd)
    as (results & members & dr & nhr & mr & text & S1 & Hd & -> & ->).
  destruct (stage1_members_ids _ _ _ _ S1) as (_ & I2 & I3 & I4 & _).
  cbn [stage3_result stage1_results stage2_results Stage3Result.model
       Stage3Result.needs_human_review Metadata.needs_human_review
       Metadata.delphi_mode Metadata.delphi_results Metadata.council_members
       Metadata.aggregate_rankings Metadata.response_mapping].
  repeat split; auto.
  - intros H. destruct DELPHI; [ | reflexivity ].
    destruct Hd as (outcomes & ->). discriminate H.
  - intros ->. reflexivity.
  - intros r Hr. apply (stage2_results_of_parsed mr). exact Hr.
Qed.

Lemma X8_session_is_consistent_witness :
  exists session tr' md,
    session_dissent = (Some session, tr')
    /\ metadata session = Some md
    /\ Stage3Result.needs_human_review (stage3_result session)
       = Some (Metadata.needs_human_review md).
Proof.
  do 3 eexists. split; [ vm_compute; reflexivity | ].
  split; [ reflexivity | ].
  eapply (X8_session_is_consistent ["a/x"] "a/x" true gateway_dissent
            (invoke_all gateway_dissent) "q" []).
  - vm_compute. reflexivity.
  - reflexivity.
Defined.

(** X9. Every member of a session can be named again from its anonymous
    identifier: the identifiers of the members are distinct, they are the
    keys of the response mapping in the order of the members, the entry of
    an identifier holds the model, the role and the label of its member,
    and the label leads to the model in the second map. *)
Theorem X9_registry_lookup :
  forall MODELS CHAIR DELPHI gateway qmp query tr session tr' md,
    run_full_council MODELS CHAIR DELPHI gateway qmp query tr
    = (Some session, tr') ->
    metadata session = Some md ->
    NoDup (map CouncilMember.id (Metadata.council_members md))
    /\ map fst (Metadata.response_mapping md)
       = map CouncilMember.id (Metadata.council_members md)
    /\ forall m,
         In m (Metadata.council_members md) ->
         dict_get (CouncilMember.id m) (Metadata.response_mapping md)
         = Some (Mapping.mk (CouncilMember.model m) (CouncilMember.role m)
                   (CouncilMember.label m))
         /\ dict_get (CouncilMember.label m) (Metadata.label_to_model md)
            = Some (CouncilMember.model m).
Proof.
  intros MODELS CHAIR DELPHI gateway qmp query tr session tr' md Hrun Hmd.
  destruct (run_full_council_metadata _ _ _ _ _ _ _ _ _ _ Hrun Hmd)
    as (results & members & dr & nhr & mr & text & S1 & Hd & -> & ->).
  pose proof (stage1_members_NoDup _ _ _ _ S1) as ND.
  cbn [Metadata.council_members Metadata.response_mapping
       Metadata.label_to_model].
  split; [ exact ND | ]. split.
  - apply (build_response_mapping_keys members []). exact ND.
  - intros m Hm. split.
    + apply build_response_mapping_get; assumption.
    + apply build_label_to_model_get; assumption.
Qed.

Lemma X9_registry_lookup_witness :
  exists session tr' md,
    session_dissent = (Some session, tr')
    /\ metadata session = Some md
    /\ map fst (Metadata.response_mapping md) = ["A"].
Proof.
  do 3 eexists. split; [ vm_compute; reflexivity | ].
  split; [ reflexivity | ].
  refine (proj1 (proj2 (X9_registry_lookup ["a/x"] "a/x" true gateway_dissent
            (invoke_all gateway_dissent) "q" [] _ _ _ _ _))).
  - vm_compute. reflexivity.
  - reflexivity.
Defined.

(* ================================================================= *)
(** ** The aggregate ranking of a session *)

Lemma build_response_mapping_values (P : Mapping.t -> Prop) members :
  forall d,
    Forall (fun m => P (Mapping.mk (CouncilMember.model m)
                          (CouncilMember.role m) (CouncilMember.label m)))
           members ->
    Forall (fun kv => P (snd kv)) d ->
    Forall (fun kv => P (snd kv)) (build_response_mapping members d).
Proof.
  induction members as [| m ms IH]; intros d Hm Hd; cbn [build_response_mapping].
  - exact Hd.
  - inversion Hm as [| ? ? H1 H2]; subst.
    apply IH; [ exact H2 | ]. apply dict_set_values; assumption.
Qed.

Lemma role_of_model_resolved mapping m :
  Forall (fun kv : string * Mapping.t =>
            Mapping.role (snd kv) = get_governance_role (Mapping.model (snd kv)))
         mapping ->
  In m (map (fun kv => Mapping.model (snd kv)) mapping) ->
  role_of_model mapping m = get_governance_role m.
Proof.
  intros HF Hin. unfold role_of_model.
  destruct (find (fun kv => String.eqb (Mapping.model (snd kv)) m) mapping)
    as [kv |] eqn:E.
  - apply find_some in E. destruct E as [Hkv Heq].
    apply String.eqb_eq in Heq. rewrite <- Heq.
    rewrite Forall_forall in HF. apply (HF kv Hkv).
  - exfalso. apply in_map_iff in Hin. destruct Hin as (kv & <- & Hkv).
    pose proof (find_none _ _ E kv Hkv) as F. cbv beta in F.
    rewrite String.eqb_refl in F. discriminate F.
Qed.

Lemma aggregate_entry_role subs mapping e :
  In e (calculate_aggregate_rankings subs mapping) ->
  AggregateEntry.role e = role_of_model mapping (AggregateEntry.model e).
Proof.
  rewrite calculate_aggregate_rankings_eq. intros He.
  apply (proj1 (sort_by_key_In _ _ _)) in He.
  apply in_map_iff in He. destruct He as (k & <- & _). reflexivity.
Qed.

Lemma aggregate_models_NoDup subs mapping :
  NoDup (map AggregateEntry.model (calculate_aggregate_rankings subs mapping)).
Proof.
  rewrite calculate_aggregate_rankings_eq.
  apply sort_by_key_NoDup_map. rewrite map_map.
  cbn [entry_of AggregateEntry.model]. rewrite map_id.
  apply first_seen_NoDup.
Qed.

(** X10. The aggregate ranking of a session ranks members only: every
    entry is the entry of a member of the session and carries the
    governance role of its model, no responder has two entries, and there
    are at most as many entries as members. *)
Theorem X10_aggregate_ranks_members :
  forall MODELS CHAIR DELPHI gateway qmp query tr session tr' md,
    run_full_council MODELS CHAIR DELPHI gateway qmp query tr
    = (Some session, tr') ->
    metadata session = Some md ->
    (forall e,
        In e (Metadata.aggregate_rankings md) ->
        In (AggregateEntry.model e)
           (map CouncilMember.model (Metadata.council_members md))
        /\ AggregateEntry.role e
           = get_governance_role (AggregateEntry.model e))
    /\ NoDup (map AggregateEntry.model (Metadata.aggregate_rankings md))
    /\ List.length (Metadata.aggregate_rankings md)
       <= List.length (Metadata.council_members md).
Proof.
  intros MODELS CHAIR DELPHI gateway qmp query tr session tr' md Hrun Hmd.
  destruct (run_full_council_metadata _ _ _ _ _ _ _ _ _ _ Hrun Hmd)
    as (results & members & dr & nhr & mr & text & S1 & Hd & -> & ->).
  destruct (stage1_members_ids _ _ _ _ S1) as (_ & _ & _ & I4 & _).
  cbn [Metadata.aggregate_rankings Metadata.council_members].
  set (mapping := build_response_mapping members []).
  assert (Hmodels : Forall (fun kv : string * Mapping.t =>
                      In (Mapping.model (snd kv))
                         (map CouncilMember.model members)) mapping).
  { apply build_response_mapping_models; [ apply incl_refl | constructor ]. }
  assert (Hroles : Forall (fun kv : string * Mapping.t =>
                      Mapping.role (snd kv)
                      = get_governance_role (Mapping.model (snd kv))) mapping).
  { apply (build_response_mapping_values
             (fun mp => Mapping.role mp = get_governance_role (Mapping.model mp)));
      [ | constructor ].
    apply Forall_forall. intros m Hm. rewrite Forall_forall in I4.
    apply (I4 m Hm). }
  assert (Hin : forall e,
             In e (calculate_aggregate_rankings (stage2_results_of mr) mapping) ->
             In (AggregateEntry.model e) (map CouncilMember.model members)).
  { intros e He. apply aggregate_models_in_mapping in He.
    apply in_map_iff in He. destruct He as (kv & <- & Hkv).
    rewrite Forall_forall in Hmodels. apply (Hmodels kv Hkv). }
  split; [ | split ].
  - intros e He. split; [ apply Hin; exact He | ].
    rewrite (aggregate_entry_role _ _ _ He).
    apply role_of_model_resolved; [ exact Hroles | ].
    apply aggregate_models_in_mapping with (subs := stage2_results_of mr).
    exact He.
  - apply aggregate_models_NoDup.
  - rewrite <- (length_map AggregateEntry.model).
    rewrite <- (length_map CouncilMember.model members).
    apply NoDup_incl_length; [ apply aggregate_models_NoDup | ].
    intros m Hm. apply in_map_iff in Hm. destruct Hm as (e & <- & He).
    apply Hin. exact He.
Qed.

Lemma X10_aggregate_ranks_members_witness :
  exists session tr' md,
    session_dissent = (Some session, tr')
    /\ metadata session = Some md
    /\ List.length (Metadata.aggregate_rankings md)
       <= List.length (Metadata.council_members md).
Proof.
  do 3 eexists. split; [ vm_compute; reflexivity | ].
  split; [ reflexivity | ].
  refine (proj2 (proj2 (X10_aggregate_ranks_members ["a/x"] "a/x" true
            gateway_dissent (invoke_all gateway_dissent) "q" [] _ _ _ _ _))).
  - vm_compute. reflexivity.
  - reflexivity.
Defined.

(** *** The order of the submissions *)

Lemma recordings_Permutation mapping subs subs' :
  Permutation subs subs' ->
  Permutation (recordings mapping subs) (recordings mapping subs').
Proof.
  unfold recordings. induction 1 as [| x l l' _ IH | x y l | l l' l'' _ IH1 _ IH2];
    cbn [flat_map].
  - constructor.
  - apply Permutation_app_head. exact IH.
  - rewrite !app_assoc. apply Permutation_app_tail, Permutation_app_comm.
  - eapply perm_trans; eassumption.
Qed.

Lemma positions_of_Permutation m recs recs' :
  Permutation recs recs' ->
  Permutation (positions_of m recs) (positions_of m recs').
Proof.
  unfold positions_of.
  induction 1 as [| x l l' _ IH | x y l | l l' l'' _ IH1 _ IH2];
    cbn [filter].
  - constructor.
  - destruct (String.eqb (fst x) m); cbn [map]; [ constructor | ]; exact IH.
  - destruct (String.eqb (fst x) m), (String.eqb (fst y) m); cbn [map];
      try apply Permutation_refl. constructor.
  - eapply perm_trans; eassumption.
Qed.

Lemma sum_positions_Permutation ps ps' :
  Permutation ps ps' -> sum_positions ps = sum_positions ps'.
Proof.
  unfold sum_positions.
  induction 1 as [| x l l' _ IH | x y l | l l' l'' _ IH1 _ IH2];
    cbn [fold_right]; lia.
Qed.

(** X11. The entries of the aggregate ranking do not depend on the order
    in which the rankings were submitted: a reordering of the submissions
    gives the same entries, each with the same role, mean and count (the
    order of entries with equal means may change). *)
Theorem X11_aggregate_order_independent :
  forall subs subs' mapping e,
    Permutation subs subs' ->
    (In e (calculate_aggregate_rankings subs mapping) <->
     In e (calculate_aggregate_rankings subs' mapping)).
Proof.
  assert (G : forall subs subs' mapping e,
             Permutation subs subs' ->
             In e (calculate_aggregate_rankings subs mapping) ->
             In e (calculate_aggregate_rankings subs' mapping)).
  { intros subs subs' mapping e HP.
    rewrite !calculate_aggregate_rankings_eq. intros He.
    apply (proj1 (sort_by_key_In _ _ _)) in He.
    apply (proj2 (sort_by_key_In _ _ _)).
    apply in_map_iff in He. destruct He as (m & <- & Hm).
    apply in_map_iff. exists m.
    pose proof (recordings_Permutation mapping _ _ HP) as HR.
    split.
    - unfold entry_of.
      pose proof (positions_of_Permutation m _ _ HR) as HPs.
      unfold average_rank_of.
      rewrite (sum_positions_Permutation _ _ HPs),
              (Permutation_length HPs).
      reflexivity.
    - apply (proj1 (first_seen_In _ _)) in Hm.
      apply (proj2 (first_seen_In _ _)).
      apply (Permutation_in _ (Permutation_map fst HR)). exact Hm. }
  intros subs subs' mapping e HP. split.
  - apply G. exact HP.
  - apply G. apply Permutation_sym. exact HP.
Qed.

Lemma X11_aggregate_order_independent_witness :
  In (AggregateEntry.mk "a/x" "Council Member" 100%Z 1)
     (calculate_aggregate_rankings
        [Stage2Result.mk "a/x" "" ["Response A"; "Response B"];
         Stage2Result.mk "b/y" "" ["Response B"]]
        [("A", Mapping.mk "a/x" "Council Member" "Response A");
         ("B", Mapping.mk "b/y" "Council Member" "Response B")])
  <-> In (AggregateEntry.mk "a/x" "Council Member" 100%Z 1)
         (calculate_aggregate_rankings
            [Stage2Result.mk "b/y" "" ["Response B"];
             Stage2Result.mk "a/x" "" ["Response A"; "Response B"]]
            [("A", Mapping.mk "a/x" "Council Member" "Response A");
             ("B", Mapping.mk "b/y" "Council Member" "Response B")]).
Proof.
  apply X11_aggregate_order_independent. apply perm_swap.
Defined.

(* ================================================================= *)
(** ** The labels of a parsed ranking *)

Lemma scan_In {A : Type} (item : string -> option (nat * A)) a :
  forall s k, In a (scan item s k) -> exists t n, item t = Some (n, a).
Proof.
  induction s as [| x s IH]; intros k H.
  - destruct k; cbn [scan] in H; [ | destruct H ].
    destruct (item "") as [[n b] |] eqn:E; [ | destruct H ].
    destruct H as [<- | []]. exists "", n. exact E.
  - destruct k; cbn [scan] in H.
    + destruct (item (String x s)) as [[n b] |] eqn:E.
      * destruct H as [<- | H]; [ exists (String x s), n; exact E | ].
        apply (IH _ H).
      * apply (IH _ H).
    + apply (IH _ H).
Qed.

Lemma numbered_at_label s n l :
  numbered_at s = Some (n, l) -> exists t, label_at t = Some l.
Proof.
  unfold numbered_at. destruct (span Py.isdecimal s) as [digits r1].
  destruct digits as [| d digits]; [ discriminate | ].
  destruct r1 as [| c r2]; [ discriminate | ].
  destruct (Ascii.eqb c "."); [ | discriminate ].
  destruct (span Py.isspace r2) as [blank r3].
  destruct (label_at r3) as [l' |] eqn:E; [ | discriminate ].
  intros H. exists r3. congruence.
Qed.

Lemma parsed_label_token text l :
  In l (parse_ranking_from_text text) ->
  exists c, Py.isupper_az c = true /\ l = label_token c.
Proof.
  rewrite parse_ranking_from_text_eq. unfold parse_ranking_section.
  assert (B : forall s, In l (bare_labels s) ->
                        exists c, Py.isupper_az c = true /\ l = label_token c).
  { intros s H. unfold bare_labels in H. apply scan_In in H.
    destruct H as (t & n & H).
    destruct (label_at t) as [l' |] eqn:E; [ | discriminate H ].
    cbn [option_map] in H. assert (l' = l) by congruence. subst l'.
    apply label_at_spec in E. destruct E as (c & rest & _ & U & ->).
    exists c. split; [ exact U | reflexivity ]. }
  assert (N : forall s, In l (numbered_labels s) ->
                        exists c, Py.isupper_az c = true /\ l = label_token c).
  { intros s H. unfold numbered_labels in H. apply scan_In in H.
    destruct H as (t & n & H). apply numbered_at_label in H.
    destruct H as (t' & E).
    apply label_at_spec in E. destruct E as (c & rest & _ & U & ->).
    exists c. split; [ exact U | reflexivity ]. }
  destruct (after_first FINAL_RANKING text) as [rest |]; [ | apply B ].
  unfold labels_of_section.
  destruct (numbered_labels (up_to FINAL_RANKING rest)) as [| l0 ls] eqn:E.
  - apply B.
  - rewrite <- E. apply N.
Qed.

Lemma isupper_not_space c : Py.isupper_az c = true -> Py.isspace c = false.
Proof. destruct c as [[] [] [] [] [] [] [] []]; vm_compute; congruence. Qed.

(** The responder identifier of a label token is its letter. *)
Lemma response_id_of_token c :
  Py.isupper_az c = true ->
  Py.strip (Py.replace "Response " "" (label_token c)) = String c "".
Proof.
  intros U. unfold Py.replace, label_token.
  rewrite (split_eq "Response " "R" "esponse " _ eq_refl).
  change (up_to "Response " ("Response " ++ String c "")) with "".
  change (after_first "Response " ("Response " ++ String c ""))
    with (Some (String c "")).
  cbv iota beta.
  rewrite (split_eq "Response " "R" "esponse " _ eq_refl).
  assert (S0 : Py.startswith "Response " (String c "") = false).
  { cbn [Py.startswith]. apply andb_false_r. }
  assert (E1 : up_to "Response " (String c "") = String c "").
  { cbn [up_to]. rewrite S0. reflexivity. }
  assert (E2 : after_first "Response " (String c "") = None).
  { cbn [after_first]. rewrite S0. reflexivity. }
  rewrite E1, E2. cbn [Py.join String.append].
  unfold Py.strip. cbn [Py.lstrip]. rewrite (isupper_not_space c U).
  cbn [Py.rstrip]. rewrite (isupper_not_space c U). reflexivity.
Qed.

(** X12. The ranking parser returns label tokens only: every parsed
    label is the text Response followed by one upper-case letter, and the
    responder identifier the aggregator takes from it is that letter. *)
Theorem X12_parsed_labels_are_tokens :
  forall text l,
    In l (parse_ranking_from_text text) ->
    exists c,
      Py.isupper_az c = true
      /\ l = "Response " ++ String c ""
      /\ Py.strip (Py.replace "Response " "" l) = String c "".
Proof.
  intros text l H. destruct (parsed_label_token text l H) as (c & U & ->).
  exists c. split; [ exact U | ]. split; [ reflexivity | ].
  apply response_id_of_token. exact U.
Qed.

Lemma X12_parsed_labels_are_tokens_witness :
  exists c,
    Py.isupper_az c = true
    /\ "Response B" = "Response " ++ String c ""
    /\ Py.strip (Py.replace "Response " "" "Response B") = String c "".
Proof.
  apply (X12_parsed_labels_are_tokens "Response B, then Response A").
  vm_compute. left. reflexivity.
Defined.

(* ================================================================= *)
(** ** A ranking in the format of the prompt is parsed back *)

Lemma drop_app_length a : forall b, Py.drop (String.length a) (a ++ b) = b.
Proof.
  induction a as [| x a IH]; intros b; [ reflexivity | ].
  cbn [String.length String.append Py.drop]. apply IH.
Qed.

Lemma scan_skip {A : Type} (item : string -> option (nat * A)) :
  forall k s, k <= String.length s ->
  scan item s k = scan item (Py.drop k s) 0.
Proof.
  induction k as [| k IH]; intros s H.
  - destruct s; reflexivity.
  - destruct s as [| x s]; cbn [String.length] in H; [ lia | ].
    cbn [scan Py.drop]. apply IH. lia.
Qed.

Lemma span_all_chars p ds : forall c t,
  all_chars p ds = true -> p c = false ->
  span p (ds ++ String c t) = (ds, String c t).
Proof.
  induction ds as [| d ds IH]; intros c t H N.
  - cbn [String.append span]. rewrite N. reflexivity.
  - cbn [all_chars] in H. apply andb_true_iff in H. destruct H as [Hd H].
    cbn [String.append span]. rewrite Hd, (IH c t H N). reflexivity.
Qed.

Lemma all_chars_app p a b :
  all_chars p a = true -> all_chars p b = true -> all_chars p (a ++ b) = true.
Proof.
  intros Ha Hb. induction a as [| x a IH]; [ exact Hb | ].
  cbn [String.append all_chars] in *.
  apply andb_true_iff in Ha. destruct Ha as [Hx Ha].
  rewrite Hx, (IH Ha). reflexivity.
Qed.

Lemma digit_char n : Py.isdecimal (ascii_of_nat (48 + n mod 10)) = true.
Proof.
  unfold Py.isdecimal, Py.in_range, Py.ord.
  pose proof (Nat.mod_upper_bound n 10 ltac:(lia)) as B.
  rewrite nat_ascii_embedding by lia.
  apply andb_true_iff. split; apply Nat.leb_le; lia.
Qed.

Lemma digits_fuel_spec : forall fuel n acc,
  exists ds,
    Py.digits_fuel fuel n acc = ds ++ acc
    /\ all_chars Py.isdecimal ds = true
    /\ (0 < fuel -> ds <> "").
Proof.
  induction fuel as [| fuel IH]; intros n acc.
  - exists "". split; [ reflexivity | ]. split; [ reflexivity | lia ].
  - cbn [Py.digits_fuel]. cbv zeta.
    destruct (n / 10 =? 0).
    + exists (String (ascii_of_nat (48 + n mod 10)) ""). split; [ reflexivity | ].
      split; [ | discriminate ].
      cbn [all_chars]. rewrite digit_char. reflexivity.
    + destruct (IH (n / 10) (String (ascii_of_nat (48 + n mod 10)) acc))
        as (ds & E & D & _).
      exists (ds ++ String (ascii_of_nat (48 + n mod 10)) "").
      split; [ rewrite E, app_assoc_s; reflexivity | ].
      split.
      * apply all_chars_app; [ exact D | ].
        cbn [all_chars]. rewrite digit_char. reflexivity.
      * intros _. destruct ds; discriminate.
Qed.

Lemma str_of_nat_digits i :
  exists d ds,
    Py.str_of_nat i = String d ds
    /\ all_chars Py.isdecimal (String d ds) = true.
Proof.
  unfold Py.str_of_nat.
  destruct (digits_fuel_spec (S i) i "") as (ds & E & D & N).
  rewrite app_nil_r_s in E. rewrite E.
  destruct ds as [| d ds]; [ exfalso; apply N; [ lia | reflexivity ] | ].
  exists d, ds. split; [ reflexivity | exact D ].
Qed.

(** A numbered item at the start of a text. *)
Lemma numbered_at_item d ds c rest :
  all_chars Py.isdecimal (String d ds) = true ->
  Py.isupper_az c = true ->
  numbered_at (String d ds ++ ". " ++ label_token c ++ rest)
  = Some (String.length (String d ds ++ ". " ++ label_token c),
          label_token c).
Proof.
  intros D U. unfold numbered_at.
  change (String d ds ++ ". " ++ label_token c ++ rest)
    with (String d ds ++ String "." (" " ++ label_token c ++ rest)).
  rewrite (span_all_chars Py.isdecimal (String d ds) "."
             (" " ++ label_token c ++ rest) D eq_refl).
  change (Ascii.eqb "." ".") with true. cbv iota.
  change (" " ++ label_token c ++ rest)
    with (String " " (String "R" ("esponse " ++ String c rest))).
  cbn [span]. change (Py.isspace " ") with true.
  change (Py.isspace "R") with false. cbv iota beta.
  assert (L : label_at (String "R" ("esponse " ++ String c rest))
              = Some (label_token c)).
  { unfold label_at.
    change (Py.startswith "Response " (String "R" ("esponse " ++ String c rest)))
      with true.
    change (Py.drop 9 (String "R" ("esponse " ++ String c rest)))
      with (String c rest).
    cbv iota. rewrite U. reflexivity. }
  rewrite L. f_equal. f_equal.
  rewrite !length_app_s. unfold label_token.
  cbn [String.length String.append]. lia.
Qed.

(** The numbered items of a numbered list are its labels. *)
Lemma numbered_labels_lines cs : forall i,
  forallb Py.isupper_az cs = true ->
  numbered_labels (numbered_lines i (map label_token cs))
  = map label_token cs.
Proof.
  unfold numbered_labels.
  induction cs as [| c cs IH]; intros i U; [ reflexivity | ].
  cbn [forallb] in U. apply andb_true_iff in U. destruct U as [Uc U].
  cbn [map numbered_lines].
  destruct (str_of_nat_digits i) as (d & ds & -> & D).
  set (rest := numbered_lines (S i) (map label_token cs)).
  change (nl ++ String d ds ++ ". " ++ label_token c ++ rest)
    with (String (ascii_of_nat 10)
            (String d (ds ++ ". " ++ label_token c ++ rest))).
  cbn [scan].
  change (numbered_at
            (String (ascii_of_nat 10)
               (String d (ds ++ ". " ++ label_token c ++ rest))))
    with (@None (nat * string)).
  cbv iota.
  change (String d (ds ++ ". " ++ label_token c ++ rest))
    with (String d ds ++ ". " ++ label_token c ++ rest).
  rewrite (numbered_at_item d ds c rest D Uc).
  f_equal.
  change (String d ds ++ ". " ++ label_token c ++ rest)
    with (String d (ds ++ ". " ++ label_token c ++ rest)).
  cbv iota beta.
  rewrite scan_skip.
  - replace (String.length (String d ds ++ ". " ++ label_token c) - 1)
      with (String.length (ds ++ ". " ++ label_token c))
      by (cbn [String.length String.append]; lia).
    replace (ds ++ ". " ++ label_token c ++ rest)
      with ((ds ++ ". " ++ label_token c) ++ rest)
      by (rewrite !app_assoc_s; reflexivity).
    rewrite drop_app_length. apply IH. exact U.
  - cbn [String.length String.append].
    rewrite !length_app_s. cbn [String.length]. rewrite !length_app_s. lia.
Qed.

Lemma all_chars_app_inv p a b :
  all_chars p (a ++ b) = true -> all_chars p b = true.
Proof.
  induction a as [| x a IH]; [ auto | ].
  cbn [String.append all_chars]. intros H.
  apply andb_true_iff in H. apply IH, H.
Qed.

Lemma all_chars_impl (p q : ascii -> bool) s :
  (forall c, p c = true -> q c = true) ->
  all_chars p s = true -> all_chars q s = true.
Proof.
  intros I. induction s as [| x s IH]; [ auto | ].
  cbn [all_chars]. intros H. apply andb_true_iff in H. destruct H as [Hx H].
  rewrite (I x Hx), (IH H). reflexivity.
Qed.

Lemma isdecimal_not_F c :
  Py.isdecimal c = true -> negb (Ascii.eqb "F" c) = true.
Proof. destruct c as [[] [] [] [] [] [] [] []]; vm_compute; congruence. Qed.

(** A text without the first letter of the marker is passed by the search
    of the marker. *)
Lemma contains_marker_skip ds : forall t,
  all_chars (fun c => negb (Ascii.eqb "F" c)) ds = true ->
  Py.contains FINAL_RANKING (ds ++ t) = Py.contains FINAL_RANKING t.
Proof.
  induction ds as [| d ds IH]; intros t H; [ reflexivity | ].
  cbn [all_chars] in H. apply andb_true_iff in H. destruct H as [Hd H].
  apply negb_true_iff in Hd.
  change (String d ds ++ t) with (String d (ds ++ t)).
  unfold FINAL_RANKING in *. cbn [Py.contains Py.startswith].
  rewrite Hd. cbn [andb orb]. apply IH, H.
Qed.

Lemma numbered_lines_no_marker cs : forall i,
  forallb Py.isupper_az cs = true ->
  Py.contains FINAL_RANKING (numbered_lines i (map label_token cs)) = false.
Proof.
  induction cs as [| c cs IH]; intros i U; [ reflexivity | ].
  cbn [forallb] in U. apply andb_true_iff in U. destruct U as [Uc U].
  cbn [map numbered_lines].
  destruct (str_of_nat_digits i) as (d & ds & -> & D).
  specialize (IH (S i) U).
  set (rest := numbered_lines (S i) (map label_token cs)) in *.
  replace (nl ++ String d ds ++ ". " ++ label_token c ++ rest)
    with ((nl ++ String d ds ++ ". Response ") ++ String c rest).
  2:{ unfold label_token. rewrite !app_assoc_s. reflexivity. }
  rewrite contains_marker_skip.
  - unfold FINAL_RANKING in *. cbn [Py.contains]. rewrite IH.
    rewrite orb_false_r. cbn [Py.startswith].
    assert (R : rest = "" \/ exists t, rest = String (ascii_of_nat 10) t).
    { unfold rest. destruct cs; [ left; reflexivity | right ].
      cbn [map numbered_lines]. eexists. reflexivity. }
    destruct R as [-> | [t ->]].
    + apply andb_false_r.
    + cbn [Py.startswith].
      change (Ascii.eqb "I" (ascii_of_nat 10)) with false.
      apply andb_false_r.
  - apply all_chars_app; [ reflexivity | ].
    apply all_chars_app; [ | reflexivity ].
    apply (all_chars_impl Py.isdecimal); [ apply isdecimal_not_F | exact D ].
Qed.

Lemma startswith_app_cases q : forall p t,
  Py.startswith q (p ++ t) = true ->
  Py.startswith q p = true
  \/ exists q2, q = p ++ q2 /\ Py.startswith q2 t = true.
Proof.
  induction q as [| a q IH]; intros p t H.
  - left. reflexivity.
  - destruct p as [| b p].
    + right. exists (String a q). split; [ reflexivity | exact H ].
    + cbn [String.append Py.startswith] in H |- *.
      apply andb_true_iff in H. destruct H as [Hab H].
      destruct (IH p t H) as [L | (q2 & E & S2)].
      * left. rewrite Hab, L. reflexivity.
      * right. exists q2. apply Ascii.eqb_eq in Hab. subst b.
        split; [ rewrite E; reflexivity | exact S2 ].
Qed.

(** The first marker of a text whose preamble has none is the one after
    the preamble. *)
Lemma after_first_preamble pre : forall rest,
  Py.contains FINAL_RANKING pre = false ->
  after_first FINAL_RANKING (pre ++ FINAL_RANKING ++ rest) = Some rest.
Proof.
  induction pre as [| x pre IH]; intros rest H.
  - reflexivity.
  - cbn [Py.contains] in H. apply orb_false_iff in H. destruct H as [H0 H].
    change (String x pre ++ FINAL_RANKING ++ rest)
      with (String x (pre ++ FINAL_RANKING ++ rest)).
    cbn [after_first].
    destruct (Py.startswith FINAL_RANKING
                (String x (pre ++ FINAL_RANKING ++ rest))) eqn:E.
    + exfalso.
      change (String x (pre ++ FINAL_RANKING ++ rest))
        with (String x pre ++ (FINAL_RANKING ++ rest)) in E.
      apply startswith_app_cases in E.
      destruct E as [E | (q2 & E & S2)]; [ congruence | ].
      unfold FINAL_RANKING in E. cbn [String.append] in E.
      assert (E' : "INAL RANKING:" = pre ++ q2) by congruence.
      assert (A : all_chars (fun c => negb (Ascii.eqb c "F")) (pre ++ q2) = true).
      { rewrite <- E'. reflexivity. }
      apply all_chars_app_inv in A.
      destruct q2 as [| c q2].
      * rewrite app_nil_r_s in E. rewrite <- E in H0.
        discriminate H0.
      * cbn [all_chars] in A. apply andb_true_iff in A. destruct A as [Ac _].
        apply negb_true_iff in Ac.
        unfold FINAL_RANKING in S2. cbn [String.append Py.startswith] in S2.
        rewrite Ac in S2. discriminate S2.
    + apply IH, H.
Qed.

(** X13. A ranking in the format the ranking prompt asks for is parsed
    back: when the text before the marker line holds no marker, and the
    numbered list after it names label tokens, the parser returns the
    labels of the list in its order, whatever labels the text before the
    marker mentions. *)
Theorem X13_formatted_ranking_round_trip :
  forall pre cs,
    Py.contains FINAL_RANKING pre = false ->
    forallb Py.isupper_az cs = true ->
    parse_ranking_from_text
      (pre ++ FINAL_RANKING ++ numbered_lines 1 (map label_token cs))
    = map label_token cs.
Proof.
  intros pre cs H U.
  rewrite parse_ranking_from_text_eq. unfold parse_ranking_section.
  rewrite (after_first_preamble pre _ H).
  rewrite (up_to_no_marker _ _ (numbered_lines_no_marker cs 1 U)).
  unfold labels_of_section. rewrite (numbered_labels_lines cs 1 U).
  destruct cs; reflexivity.
Qed.

Lemma X13_formatted_ranking_round_trip_witness :
  parse_ranking_from_text
    ("Response A is weaker than Response B." ++ FINAL_RANKING
     ++ numbered_lines 1 (map label_token ["B"%char; "A"%char]))
  = ["Response B"; "Response A"].
Proof.
  apply (X13_formatted_ranking_round_trip
           "Response A is weaker than Response B." ["B"%char; "A"%char]);
    reflexivity.
Defined.

(* ================================================================= *)
(** ** The peer digest *)

Lemma lstrip_length_le s : String.length (Py.lstrip s) <= String.length s.
Proof.
  induction s as [| c s IH]; cbn [Py.lstrip String.length]; [ lia | ].
  destruct (Py.isspace c); cbn [String.length]; lia.
Qed.

Lemma rstrip_length_le s : String.length (Py.rstrip s) <= String.length s.
Proof.
  induction s as [| c s IH]; cbn [Py.rstrip String.length]; [ lia | ].
  destruct (Py.rstrip s) as [| x r].
  - destruct (Py.isspace c); cbn [String.length]; lia.
  - cbn [String.length] in *. lia.
Qed.

Lemma strip_length_le s : String.length (Py.strip s) <= String.length s.
Proof.
  unfold Py.strip. pose proof (rstrip_length_le (Py.lstrip s)).
  pose proof (lstrip_length_le s). lia.
Qed.

Lemma take_short n : forall s, String.length s <= n -> Py.take n s = s.
Proof.
  induction n as [| n IH]; intros s H.
  - destruct s; [ reflexivity | cbn [String.length] in H; lia ].
  - destruct s as [| c s]; [ reflexivity | ].
    cbn [String.length] in H. cbn [Py.take]. rewrite IH by lia. reflexivity.
Qed.

Lemma peer_lines_spec rs : forall i,
  List.length (peer_lines i rs) = List.length rs
  /\ forall k r,
       nth_error rs k = Some r ->
       exists summary,
         nth_error (peer_lines i rs) k
         = Some (bullet ++ " Peer " ++ Py.str_of_nat (i + k) ++ ": " ++ summary)
         /\ String.length summary <= 223
         /\ (String.length r <= 220 -> summary = Py.strip r).
Proof.
  induction rs as [| r0 rs IH]; intros i.
  - split; [ reflexivity | ]. intros [| k] r H; discriminate H.
  - destruct (IH (S i)) as [L N]. split.
    + cbn [peer_lines List.length]. rewrite L. reflexivity.
    + intros [| k] r H; cbn [nth_error] in H.
      * injection H as ->. cbn [peer_lines nth_error]. cbv zeta.
        rewrite Nat.add_0_r. eexists. split; [ reflexivity | ].
        pose proof (strip_length_le (Py.take 220 r)) as B1.
        pose proof (take_length_le 220 r) as B2.
        destruct (220 <? String.length r) eqn:E.
        -- split.
           ++ rewrite length_app_s. cbn [String.length]. lia.
           ++ apply Nat.ltb_lt in E. lia.
        -- split; [ lia | ].
           intros Hr. rewrite (take_short 220 r Hr). reflexivity.
      * destruct (N k r H) as (summary & E & B).
        exists summary. cbn [peer_lines nth_error].
        replace (i + S k) with (S i + k) by lia.
        split; [ exact E | exact B ].
Qed.

(** X14. The peer digest.  Without peers it is a fixed sentence.  With
    peers it has a heading, then one line per peer in the order of the
    peers, numbered from 1, then the heading of the themes and at most
    three theme lines.  The line of a peer quotes at most 220 characters
    of the response and three dots; a response of at most 220 characters
    is quoted in full, without the white space around it. *)
Theorem X14_peer_digest_shape :
  _create_peer_digest [] = "No peer responses available."
  /\ forall rs,
       rs <> [] ->
       exists lines themes,
         _create_peer_digest rs
         = Py.join nl
             ("PEER RESPONSE SUMMARY:"
              :: List.app lines ((nl ++ "KEY THEMES:") :: themes))
         /\ List.length lines = List.length rs
         /\ List.length themes <= 3
         /\ forall k r,
              nth_error rs k = Some r ->
              exists summary,
                nth_error lines k
                = Some (bullet ++ " Peer " ++ Py.str_of_nat (S k) ++ ": "
                        ++ summary)
                /\ String.length summary <= 223
                /\ (String.length r <= 220 -> summary = Py.strip r).
Proof.
  split; [ reflexivity | ].
  intros rs Hne. destruct rs as [| r0 rs]; [ congruence | ].
  destruct (peer_lines_spec (r0 :: rs) 1) as [L N].
  exists (peer_lines 1 (r0 :: rs)).
  unfold _create_peer_digest. cbv zeta.
  eexists. split; [ reflexivity | ]. split; [ exact L | ].
  split.
  - repeat match goal with
           | |- context [if ?b then _ else _] => destruct b
           end; cbn [List.app List.length]; lia.
  - exact N.
Qed.

Lemma X14_peer_digest_shape_witness :
  exists lines themes,
    _create_peer_digest ["a plan"; "a risk"]
    = Py.join nl
        ("PEER RESPONSE SUMMARY:"
         :: List.app lines ((nl ++ "KEY THEMES:") :: themes))
    /\ List.length lines = 2.
Proof.
  destruct (proj2 X14_peer_digest_shape ["a plan"; "a risk"])
    as (lines & themes & E & L & _); [ discriminate | ].
  exists lines, themes. split; [ exact E | exact L ].
Defined.

(* ================================================================= *)
(** ** The summary of a disagreement *)

(** A character that ends a sentence. *)
Lemma sentence_end_no_match c s :
  Re.match_at false re_sentence_end (String c s) = None ->
  Re.mem_char false ".!?" c = false.
Proof.
  unfold Re.match_at, re_sentence_end. cbn [Re.exec Re.in_class].
  destruct (Re.mem_char false ".!?" c); [ | reflexivity ].
  rewrite star_greedy_total by discriminate. discriminate.
Qed.

Lemma all_chars_snoc p s c :
  all_chars p s = true -> p c = true -> all_chars p (s ++ String c "") = true.
Proof.
  intros Hs Hc. apply all_chars_app; [ exact Hs | ].
  cbn [all_chars]. rewrite Hc. reflexivity.
Qed.

(** The pieces of a split at the sentence ends hold no sentence end. *)
Lemma sentences_no_end : forall s skip cur piece,
  all_chars (fun c => negb (Re.mem_char false ".!?" c)) cur = true ->
  In piece (Re.split_from false re_sentence_end s skip cur) ->
  all_chars (fun c => negb (Re.mem_char false ".!?" c)) piece = true.
Proof.
  induction s as [| c s IH]; intros skip cur piece Hcur H.
  - destruct skip; cbn [Re.split_from] in H.
    + destruct (Re.match_at false re_sentence_end "");
        destruct H as [<- | []]; exact Hcur.
    + destruct H as [<- | []]; exact Hcur.
  - destruct skip; cbn [Re.split_from] in H.
    + destruct (Re.match_at false re_sentence_end (String c s)) as [m |] eqn:E.
      * destruct H as [<- | H]; [ exact Hcur | ].
        apply (IH _ "" _ eq_refl H).
      * apply (IH _ _ _ (all_chars_snoc _ _ _ Hcur
                           (proj2 (negb_true_iff _)
                              (sentence_end_no_match c s E))) H).
    + apply (IH _ _ _ Hcur H).
Qed.

Lemma all_chars_lstrip p s :
  all_chars p s = true -> all_chars p (Py.lstrip s) = true.
Proof.
  induction s as [| c s IH]; [ auto | ].
  cbn [Py.lstrip]. destruct (Py.isspace c); [ | auto ].
  cbn [all_chars]. intros H. apply andb_true_iff in H. apply IH, H.
Qed.

Lemma all_chars_rstrip p s :
  all_chars p s = true -> all_chars p (Py.rstrip s) = true.
Proof.
  induction s as [| c s IH]; [ auto | ].
  cbn [Py.rstrip all_chars]. intros H.
  apply andb_true_iff in H. destruct H as [Hc H]. specialize (IH H).
  destruct (Py.rstrip s) as [| x r].
  - destruct (Py.isspace c); [ reflexivity | ].
    cbn [all_chars]. rewrite Hc. reflexivity.
  - cbn [all_chars] in *. rewrite Hc. exact IH.
Qed.

Lemma all_chars_take p n : forall s,
  all_chars p s = true -> all_chars p (Py.take n s) = true.
Proof.
  induction n as [| n IH]; intros s H; [ destruct s; reflexivity | ].
  destruct s as [| c s]; [ reflexivity | ].
  cbn [Py.take all_chars] in *.
  apply andb_true_iff in H. destruct H as [Hc H].
  rewrite Hc, (IH s H). reflexivity.
Qed.

Lemma occurs_cons x c s : occurs x s -> occurs x (String c s).
Proof.
  intros (pre & post & ->). exists (String c pre), post. reflexivity.
Qed.

Lemma occurs_drop x k s : occurs x (Py.drop k s) -> occurs x s.
Proof.
  intros (pre & post & E). exists (Py.take k s ++ pre), post.
  rewrite app_assoc_s, <- E. apply take_drop.
Qed.

(** Every piece of a split is a part of the text. *)
Lemma sentences_occur : forall s skip cur piece,
  In piece (Re.split_from false re_sentence_end s skip cur) ->
  (exists a, piece = cur ++ a /\ Py.startswith a (Py.drop skip s) = true)
  \/ occurs piece s.
Proof.
  induction s as [| c s IH]; intros skip cur piece H.
  - left. exists "". split; [ | reflexivity ].
    rewrite app_nil_r_s.
    destruct skip; cbn [Re.split_from] in H.
    + destruct (Re.match_at false re_sentence_end "");
        destruct H as [<- | []]; reflexivity.
    + destruct H as [<- | []]; reflexivity.
  - destruct skip; cbn [Re.split_from] in H.
    + destruct (Re.match_at false re_sentence_end (String c s)) as [m |].
      * destruct H as [<- | H].
        -- left. exists "". split; [ rewrite app_nil_r_s | ]; reflexivity.
        -- right. apply occurs_cons.
           destruct (IH _ _ _ H) as [(a & -> & Ha) | Ho]; [ | exact Ho ].
           apply (occurs_drop _ (String.length (Re.m_text m) - 1)).
           apply startswith_iff in Ha. destruct Ha as [rest ->].
           exists "", rest. reflexivity.
      * destruct (IH _ _ _ H) as [(a & -> & Ha) | Ho].
        -- left. exists (String c a). split.
           ++ rewrite app_assoc_s. reflexivity.
           ++ change (Py.drop 0 (String c s)) with (String c s).
              replace (Py.drop 0 s) with s in Ha by (destruct s; reflexivity).
              cbn [Py.startswith]. rewrite Ascii.eqb_refl. exact Ha.
        -- right. apply occurs_cons. exact Ho.
    + destruct (IH _ _ _ H) as [(a & -> & Ha) | Ho].
      * left. exists a. split; [ reflexivity | exact Ha ].
      * right. apply occurs_cons. exact Ho.
Qed.

Lemma contains_occurs k piece text :
  occurs piece text ->
  Py.contains k (Py.lower piece) = true ->
  Py.contains k (Py.lower text) = true.
Proof.
  intros (pre & post & ->) H.
  apply contains_iff in H. destruct H as (a & b & E).
  apply contains_iff. unfold Py.lower in *.
  rewrite !map_chars_app, E.
  exists (Py.map_chars Py.lower_char pre ++ a),
         (b ++ Py.map_chars Py.lower_char post).
  rewrite !app_assoc_s. reflexivity.
Qed.

(** X15. The summary of a disagreement is a piece of one sentence: it has
    at most 220 characters and holds no full stop, exclamation mark or
    question mark; it is the fixed text when the response names none of
    the seven words the summary looks for, in whatever case. *)
Theorem X15_disagreement_summary_is_one_sentence :
  forall text,
    let summary := _extract_disagreement_summary text in
    String.length summary <= 220
    /\ all_chars (fun c => negb (Re.mem_char false ".!?" c)) summary = true
    /\ (any_in ["dissent"; "disagree"; "concern"; "risk"; "oppose";
                "forensic"; "breach"] (Py.lower text) = false ->
        summary = "Material disagreement detected").
Proof.
  intros text. cbv zeta. unfold _extract_disagreement_summary.
  destruct (find _ (Re.split false re_sentence_end text)) as [s |] eqn:E.
  - apply find_some in E. destruct E as [Hin Hkey].
    split; [ apply take_length_le | ]. split.
    + apply all_chars_take. unfold Py.strip.
      apply all_chars_rstrip, all_chars_lstrip.
      apply (sentences_no_end text 0 "" s eq_refl Hin).
    + intros Hno. exfalso.
      assert (Ho : occurs s text).
      { destruct (sentences_occur text 0 "" s Hin) as [(a & -> & Ha) | Ho];
          [ | exact Ho ].
        replace (Py.drop 0 text) with text in Ha by (destruct text; reflexivity).
        apply startswith_iff in Ha. destruct Ha as [rest ->].
        exists "", rest. reflexivity. }
      unfold any_in in Hkey, Hno.
      apply existsb_exists in Hkey. destruct Hkey as (k & Hk & Hc).
      assert (T : existsb (fun k => Py.contains k (Py.lower text))
                    ["dissent"; "disagree"; "concern"; "risk"; "oppose";
                     "forensic"; "breach"] = true).
      { apply existsb_exists. exists k. split; [ exact Hk | ].
        apply (contains_occurs k s text Ho Hc). }
      congruence.
  - split; [ cbn; lia | ]. split; [ reflexivity | ]. reflexivity.
Qed.

(* ================================================================= *)
(** ** The title of a conversation *)

Lemma lstrip_chars_head chars s c rest :
  lstrip_chars chars s = String c rest -> Re.mem_char false chars c = false.
Proof.
  induction s as [| x s IH]; cbn [lstrip_chars]; [ discriminate | ].
  destruct (Re.mem_char false chars x) eqn:E; [ exact IH | ].
  intros H. congruence.
Qed.

Lemma rstrip_chars_head chars c s :
  rstrip_chars chars (String c s) = ""
  \/ exists r, rstrip_chars chars (String c s) = String c r.
Proof.
  cbn [rstrip_chars]. destruct (rstrip_chars chars s) as [| x r].
  - destruct (Re.mem_char false chars c); [ left | right; eexists ];
      reflexivity.
  - right. eexists. reflexivity.
Qed.

Lemma strip_chars_head chars s c rest :
  strip_chars chars s = String c rest -> Re.mem_char false chars c = false.
Proof.
  unfold strip_chars. intros H.
  destruct (lstrip_chars chars s) as [| x t] eqn:E; [ discriminate H | ].
  destruct (rstrip_chars_head chars x t) as [R | [r R]]; rewrite R in H.
  - discriminate H.
  - assert (x = c) by congruence. subst x.
    apply (lstrip_chars_head chars s c t E).
Qed.

(** X16. The title of a conversation takes one call, to the title model
    with a timeout of 30 seconds.  The title has at most 50 characters and
    does not begin with a quote character; it is New Conversation when
    the call fails or the reply has no content. *)
Theorem X16_conversation_title :
  forall gateway query tr,
    let call :=
      mk_call "google/gemini-2.5-flash" (title_prompt query) (Some 30) in
    let res := generate_conversation_title gateway query tr in
    snd res = List.app tr [call]
    /\ String.length (fst res) <= 50
    /\ (forall c rest,
          fst res = String c rest ->
          Re.mem_char false (dq ++ "'") c = false)
    /\ (gateway (List.length tr) call = None \/
        gateway (List.length tr) call = Some None ->
        fst res = "New Conversation").
Proof.
  intros gateway query tr. cbv zeta.
  unfold generate_conversation_title. rewrite bind_eq.
  cbn [query_model fst snd].
  destruct (gateway (List.length tr)
              (mk_call "google/gemini-2.5-flash" (title_prompt query)
                 (Some 30))) as [resp |].
  - cbv zeta. cbn [ret fst snd].
    set (title := strip_chars (dq ++ "'") (Py.strip _)).
    split; [ reflexivity | ]. split; [ | split ].
    + destruct (50 <? String.length title) eqn:E.
      * rewrite length_app_s. pose proof (take_length_le 47 title).
        cbn [String.length]. lia.
      * apply Nat.ltb_ge in E. exact E.
    + intros c rest H.
      destruct (50 <? String.length title) eqn:E.
      * apply Nat.ltb_lt in E.
        destruct title as [| x t] eqn:Et; [ cbn [String.length] in E; lia | ].
        cbn [Py.take String.append] in H.
        assert (x = c) by congruence. subst x.
        apply (strip_chars_head _ _ _ _ Et).
      * apply (strip_chars_head _ _ _ _ H).
    + intros [H | H]; [ discriminate H | ].
      assert (resp = None) by congruence. subst resp. reflexivity.
  - cbn [ret fst snd]. split; [ reflexivity | ].
    split; [ cbn; lia | ]. split.
    + intros c rest H. assert (c = "N"%char) by congruence. subst c.
      reflexivity.
    + reflexivity.
Qed.

(* ================================================================= *)
(** ** The fallbacks of the role resolver *)

Lemma contains_trans a b s :
  Py.contains a b = true -> Py.contains b s = true -> Py.contains a s = true.
Proof.
  intros Hab Hbs. apply contains_iff in Hab, Hbs.
  destruct Hab as (p1 & q1 & ->). destruct Hbs as (p2 & q2 & ->).
  apply contains_iff. exists (p2 ++ p1), (q1 ++ q2).
  rewrite !app_assoc_s. reflexivity.
Qed.

(** X17. The fallbacks of the role resolver, for a model that is not in
    the role table: the test of a ChatGPT variant is the test for openai/
    and gpt in the lower-case identifier (the test for chatgpt adds
    nothing), it goes before the test for mistral, and a model that
    names mistral and not openai/ is a Safety Engineer, in the table or
    not. *)
Theorem X17_role_fallbacks :
  (forall model,
      dict_get model GOVERNANCE_ROLES = None ->
      get_governance_role model
      = if Py.contains "openai/" (Py.lower model)
           && Py.contains "gpt" (Py.lower model)
        then "Systems Integrator"
        else if Py.contains "mistral" (Py.lower model)
             then "Safety Engineer"
             else "Council Member")
  /\ (forall model,
        Py.contains "mistral" (Py.lower model) = true ->
        Py.contains "openai/" (Py.lower model) = false ->
        get_governance_role model = "Safety Engineer").
Proof.
  assert (G : forall model,
             is_chatgpt_variant model
             = Py.contains "openai/" (Py.lower model)
               && Py.contains "gpt" (Py.lower model)).
  { intros model. unfold is_chatgpt_variant. f_equal.
    destruct (Py.contains "chatgpt" (Py.lower model)) eqn:E; [ | reflexivity ].
    cbn [orb]. symmetry.
    apply (contains_trans "gpt" "chatgpt"); [ reflexivity | exact E ]. }
  split.
  - intros model H. unfold get_governance_role. rewrite H, G. reflexivity.
  - intros model Hm Ho. unfold get_governance_role, GOVERNANCE_ROLES.
    cbn [dict_get].
    destruct (String.eqb "anthropic/claude-sonnet-4.5" model) eqn:E1.
    { apply String.eqb_eq in E1. subst model. discriminate Hm. }
    destruct (String.eqb "google/gemini-3-pro-preview" model) eqn:E2.
    { apply String.eqb_eq in E2. subst model. discriminate Hm. }
    destruct (String.eqb "x-ai/grok-4" model) eqn:E3.
    { apply String.eqb_eq in E3. subst model. discriminate Hm. }
    rewrite G, Ho. cbn [andb]. unfold is_mistral_variant. rewrite Hm.
    reflexivity.
Qed.

Lemma X17_role_fallbacks_witness :
  get_governance_role "mistralai/mistral-large" = "Safety Engineer".
Proof.
  apply (proj2 X17_role_fallbacks); reflexivity.
Defined.

(* ================================================================= *)
(** ** The reflection round in the later stages *)

Lemma map_eq_length {A B C : Type} (f : A -> C) (g : B -> C) l l' :
  map f l = map g l' -> List.length l = List.length l'.
Proof.
  intros H. rewrite <- (length_map f l), H. apply length_map.
Qed.

(** X18. In Delphi mode the later stages work on the reflection outcomes:
    the metadata hold one outcome per member; the ranking prompt handed to
    the ranking helper is built from the round-2 texts of the outcomes;
    and the prompt of the chairman call, the last call of the session,
    holds the context line of the reflection round and, for every
    outcome, its block with the decision, the reason and the round-2
    text. *)
Theorem X18_delphi_outcomes_feed_later_stages :
  forall MODELS CHAIR gateway qmp query tr session tr' md,
    run_full_council MODELS CHAIR true gateway qmp query tr
    = (Some session, tr') ->
    metadata session = Some md ->
    exists outcomes,
      Metadata.delphi_results md = Some outcomes
      /\ map DelphiResult.member_id outcomes
         = map CouncilMember.id (Metadata.council_members md)
      /\ (exists model_responses tr1 tr2,
            qmp MODELS
              (stage2_prompt query (ranking_input_of outcomes)
                 (Metadata.council_members md))
              tr1
            = (model_responses, tr2)
            /\ stage2_results session = stage2_results_of model_responses)
      /\ exists tr0 c,
           tr' = List.app tr0 [c]
           /\ call_model c = CHAIR
           /\ occurs
                "After a Delphi reflection round where models reviewed anonymized peer feedback:"
                (call_content c)
           /\ forall r,
                In r outcomes ->
                occurs ("Model: " ++ DelphiResult.model r ++ nl
                        ++ "Decision: " ++ DelphiResult.decision r ++ nl
                        ++ "Reason: " ++ DelphiResult.revision_reason r ++ nl
                        ++ "Final Response: "
                        ++ DelphiResult.round2_response r)
                       (call_content c).
Proof.
  intros MODELS CHAIR gateway qmp query tr session tr' md Hrun Hmd.
  destruct (run_full_council_cases _ _ _ _ _ _ _ _ _ Hrun)
    as [[_ E] | (results & members & S1 & Hne & Hs)]; [ congruence | ].
  rewrite stage1_collect_responses_eq in S1.
  destruct (stage1_members_ids _ _ _ _ S1) as (_ & I2 & _ & _ & _).
  pose proof (map_eq_length _ _ _ _ I2) as L.
  set (tr1 := snd (stage1_collect_responses MODELS gateway query tr)) in *.
  destruct (run_after_stage1_spec MODELS CHAIR true gateway qmp query
              results members tr1)
    as (dr & nhr & tr2 & mr & tr3 & text & (outcomes & E5 & ->) & Hq & Hs').
  rewrite Hs' in Hs.
  assert (Es : mk_session results (stage2_results_of mr)
                 (Stage3Result.mk CHAIR text (Some nhr))
                 (Some (Metadata.mk members
                          (build_response_mapping members [])
                          (build_label_to_model members [])
                          (calculate_aggregate_rankings (stage2_results_of mr)
                             (build_response_mapping members []))
                          true (Some outcomes) nhr))
               = session) by congruence.
  assert (Et : List.app tr3
                 [mk_call CHAIR
                    (chairman_prompt query results (stage2_results_of mr)
                       (Some outcomes) nhr) (Some 180)] = tr') by congruence.
  subst session tr'. cbn [metadata] in Hmd.
  assert (md = Metadata.mk members
                 (build_response_mapping members [])
                 (build_label_to_model members [])
                 (calculate_aggregate_rankings (stage2_results_of mr)
                    (build_response_mapping members []))
                 true (Some outcomes) nhr) by congruence.
  subst md. cbn [Metadata.delphi_results Metadata.council_members stage2_results].
  assert (Eo : outcomes
               = fst (delphi_outcomes members results
                        (reflection_replies gateway query results members tr1))).
  { rewrite <- stage1_5_outcomes_eq, E5. reflexivity. }
  destruct (delphi_outcomes_spec members results
              (reflection_replies gateway query results members tr1) L
              (reflection_replies_length gateway query results members tr1 L))
    as (O1 & _).
  rewrite <- Eo in O1.
  exists outcomes. split; [ reflexivity | ]. split; [ exact O1 | ].
  assert (Ho : exists o os, outcomes = o :: os).
  { destruct outcomes as [| o os]; [ | eauto ].
    destruct members as [| m ms]; [ | discriminate O1 ].
    destruct results; [ congruence | discriminate L ]. }
  destruct Ho as (o & os & Ho).
  split.
  - exists mr, tr2, tr3. split; [ | reflexivity ].
    rewrite <- Hq. rewrite Ho. reflexivity.
  - do 2 eexists. split; [ reflexivity | ].
    cbn [call_model call_content]. split; [ reflexivity | ].
    unfold chairman_prompt, chairman_prompt_body. rewrite Ho. split.
    + apply occurs_app_l. do 3 apply occurs_app_r. apply occurs_app_l.
      apply occurs_refl.
    + intros r Hr. apply occurs_app_l.
      do 5 apply occurs_app_r. apply occurs_app_l.
      unfold synthesis_text_of. cbn [delphi_given].
      apply occurs_join.
      apply (in_map (fun r =>
                       "Model: " ++ DelphiResult.model r ++ nl
                       ++ "Decision: " ++ DelphiResult.decision r ++ nl
                       ++ "Reason: " ++ DelphiResult.revision_reason r ++ nl
                       ++ "Final Response: " ++ DelphiResult.round2_response r)).
      exact Hr.
Qed.

Lemma X18_delphi_outcomes_feed_later_stages_witness :
  exists session tr' md outcomes,
    session_dissent = (Some session, tr')
    /\ metadata session = Some md
    /\ Metadata.delphi_results md = Some outcomes
    /\ map DelphiResult.member_id outcomes
       = map CouncilMember.id (Metadata.council_members md).
Proof.
  edestruct (X18_delphi_outcomes_feed_later_stages ["a/x"] "a/x"
               gateway_dissent (invoke_all gateway_dissent) "q" [])
    as (outcomes & H1 & H2 & _);
    [ vm_compute; reflexivity | reflexivity | ].
  do 4 eexists. split; [ vm_compute; reflexivity | ].
  split; [ reflexivity | ]. split; [ exact H1 | exact H2 ].
Defined.

(* ================================================================= *)
(** ** A session without rankings *)




(* ================================================================= *)
(** ** The answer of the chairman *)

(** The last stage of a session: the call of the chairman and the text
    taken from its answer. *)
Lemma run_after_stage1_chairman MODELS CHAIR (DELPHI : bool) gateway qmp query
      results members tr :
  exists s1 s2 md dr nhr tr2,
    let call :=
      mk_call CHAIR (chairman_prompt query s1 s2 dr nhr) (Some 180) in
    run_after_stage1 MODELS CHAIR DELPHI gateway qmp query results members tr
    = (mk_session s1 s2
         (Stage3Result.mk CHAIR
            (match gateway (List.length tr2) call with
             | None => "Error: Unable to generate final synthesis."
             | Some resp => content_of resp
             end)
            (Some nhr))
         (Some md),
       List.app tr2 [call]).
Proof.
  unfold run_after_stage1.
  destruct DELPHI.
  - destruct (stage1_5_delphi_reflection gateway query results members tr)
      as [[outcomes nhr] tr1] eqn:E15.
    rewrite !bind_eq. rewrite E15. cbn [fst snd ret].
    unfold stage2_collect_rankings. rewrite !bind_eq.
    destruct (qmp MODELS
                (stage2_prompt query
                   match delphi_given (Some outcomes) with
                   | Some outcomes0 => ranking_input_of outcomes0
                   | None => results
                   end members) tr1) as [mr tr2] eqn:E2.
    cbn [fst snd ret MappingMetadata.response_mapping
         MappingMetadata.council_members MappingMetadata.label_to_model].
    unfold stage3_synthesize_final, query_model. rewrite bind_eq.
    cbn [fst snd].
    exists results, (stage2_results_of mr). eexists.
    exists (Some outcomes), nhr, tr2. cbv zeta.
    destruct (gateway _ _) as [resp |]; reflexivity.
  - rewrite !bind_eq. cbn [fst snd ret].
    unfold stage2_collect_rankings. rewrite !bind_eq.
    destruct (qmp MODELS (stage2_prompt query results members) tr)
      as [mr tr2] eqn:E2.
    cbn [fst snd ret MappingMetadata.response_mapping
         MappingMetadata.council_members MappingMetadata.label_to_model].
    unfold stage3_synthesize_final, query_model. rewrite bind_eq.
    cbn [fst snd].
    exists results, (stage2_results_of mr). eexists.
    exists None, false, tr2. cbv zeta.
    destruct (gateway _ _) as [resp |]; reflexivity.
Qed.

(** X20. The last call of a session with metadata is the call of the
    chairman, with a timeout of 180 seconds.  The text of the stage-3
    result is the content of the answer to that call, and the fixed error
    text when the call fails: a failure of the chairman does not end the
    session, which keeps its results and metadata. *)
Theorem X20_chairman_answer_or_error :
  forall MODELS CHAIR DELPHI gateway qmp query tr session tr' md,
    run_full_council MODELS CHAIR DELPHI gateway qmp query tr
    = (Some session, tr') ->
    metadata session = Some md ->
    exists tr0 c,
      tr' = List.app tr0 [c]
      /\ call_model c = CHAIR
      /\ call_timeout c = Some 180
      /\ Stage3Result.response (stage3_result session)
         = match gateway (List.length tr0) c with
           | None => "Error: Unable to generate final synthesis."
           | Some resp => content_of resp
           end.
Proof.
  intros MODELS CHAIR DELPHI gateway qmp query tr session tr' md Hrun Hmd.
  destruct (run_full_council_cases _ _ _ _ _ _ _ _ _ Hrun)
    as [[_ E] | (results & members & _ & _ & Hs)]; [ congruence | ].
  destruct (run_after_stage1_chairman MODELS CHAIR DELPHI gateway qmp query
              results members
              (snd (stage1_collect_responses MODELS gateway query tr)))
    as (s1 & s2 & md' & dr & nhr & tr2 & Hs').
  cbv zeta in Hs'. rewrite Hs' in Hs.
  exists tr2, (mk_call CHAIR (chairman_prompt query s1 s2 dr nhr) (Some 180)).
  assert (Es : mk_session s1 s2
                 (Stage3Result.mk CHAIR
                    (match gateway (List.length tr2)
                             (mk_call CHAIR (chairman_prompt query s1 s2 dr nhr)
                                (Some 180)) with
                     | None => "Error: Unable to generate final synthesis."
                     | Some resp => content_of resp
                     end) (Some nhr))
                 (Some md') = session) by congruence.
  split; [ congruence | ]. split; [ reflexivity | ]. split; [ reflexivity | ].
  rewrite <- Es. reflexivity.
Qed.

Lemma X20_chairman_answer_or_error_witness :
  exists session tr' md,
    session_chairman_fails = (Some session, tr')
    /\ metadata session = Some md
    /\ Stage3Result.response (stage3_result session)
       = "Error: Unable to generate final synthesis.".
Proof.
  edestruct (X20_chairman_answer_or_error ["a/x"] "c/z" false
               gateway_chairman_fails (invoke_all gateway_chairman_fails)
               "q" [])
    as (tr0 & c & H1 & H2 & H3 & H4);
    [ vm_compute; reflexivity | reflexivity | ].
  do 3 eexists. split; [ vm_compute; reflexivity | ].
  split; [ reflexivity | ].
  assert (L : List.length tr0 = 2).
  { apply (f_equal (@List.length Call)) in H1. rewrite length_app in H1.
    cbn [List.length] in H1. lia. }
  unfold gateway_chairman_fails in H4. rewrite L in H4. exact H4.
Defined.


(* ================================================================= *)
(** ** A reflection in the format of the prompt is parsed back *)

Lemma starts_ci_startswith m : forall s,
  starts_ci m s = Py.startswith (Py.lower m) (Py.lower s).
Proof.
  induction m as [| a m IH]; intros s.
  - reflexivity.
  - destruct s as [| b s]; [ reflexivity | ].
    rewrite starts_ci_cons, IH. cbn [Py.lower Py.map_chars Py.startswith].
    rewrite Ascii.eqb_sym. reflexivity.
Qed.

(** A character that is not in a marker separates the occurrences of the
    marker on its two sides. *)
Lemma startswith_pad m c : forall s y,
  all_chars (fun x => negb (Ascii.eqb x c)) m = true ->
  Py.startswith m (s ++ String c y) = Py.startswith m s.
Proof.
  induction m as [| b m IH]; intros s y H; [ reflexivity | ].
  cbn [all_chars] in H. apply andb_true_iff in H. destruct H as [Hb H].
  apply negb_true_iff in Hb.
  destruct s as [| a s]; cbn [String.append Py.startswith].
  - rewrite Hb. reflexivity.
  - rewrite (IH s y H). reflexivity.
Qed.

Lemma contains_cons_eq m a s :
  Py.contains m (String a s) = Py.startswith m (String a s) || Py.contains m s.
Proof. reflexivity. Qed.

Lemma contains_pad b m c : forall s y,
  all_chars (fun x => negb (Ascii.eqb x c)) (String b m) = true ->
  Py.contains (String b m) (s ++ String c y)
  = Py.contains (String b m) s || Py.contains (String b m) y.
Proof.
  intros s y H. induction s as [| a s IH].
  - change ("" ++ String c y) with (String c y).
    change (Py.contains (String b m) "") with false.
    rewrite contains_cons_eq.
    pose proof (startswith_pad (String b m) c "" y H) as E.
    change ("" ++ String c y) with (String c y) in E.
    rewrite E. reflexivity.
  - change (String a s ++ String c y) with (String a (s ++ String c y)).
    rewrite !contains_cons_eq, IH.
    pose proof (startswith_pad (String b m) c (String a s) y H) as E.
    change (String a s ++ String c y) with (String a (s ++ String c y)) in E.
    rewrite E, orb_assoc. reflexivity.
Qed.

(** A marker whose first character does not come again in it cannot
    start in a text before it and end in it. *)
Lemma no_straddle x m b t :
  all_chars (fun c => negb (Ascii.eqb c x)) m = true ->
  b <> "" ->
  Py.startswith (String x m) b = false ->
  Py.startswith (String x m) (b ++ String x m ++ t) = false.
Proof.
  intros A Hb H0.
  destruct (Py.startswith (String x m) (b ++ String x m ++ t)) eqn:E;
    [ exfalso | reflexivity ].
  apply startswith_app_cases in E.
  destruct E as [E | (q2 & E & S2)]; [ congruence | ].
  destruct b as [| y b]; [ congruence | ].
  cbn [String.append] in E.
  assert (E' : m = b ++ q2) by congruence.
  rewrite E' in A. apply all_chars_app_inv in A.
  destruct q2 as [| c q2].
  - rewrite app_nil_r_s in E. rewrite <- E in H0.
    assert (T : forall s, Py.startswith s s = true).
    { induction s as [| z s IH]; [ reflexivity | ].
      cbn [Py.startswith]. rewrite Ascii.eqb_refl. exact IH. }
    rewrite T in H0. discriminate H0.
  - cbn [all_chars] in A. apply andb_true_iff in A. destruct A as [Ac _].
    apply negb_true_iff in Ac.
    cbn [String.append Py.startswith] in S2. rewrite Ac in S2.
    discriminate S2.
Qed.

(** The first occurrence up to case of a marker after a text that has
    none. *)
Lemma marker_ci_preamble x m pre : forall rest M,
  Py.lower M = String x m ->
  all_chars (fun c => negb (Ascii.eqb c x)) m = true ->
  Py.contains (String x m) (Py.lower pre) = false ->
  up_to_ci M (pre ++ M ++ rest) = pre
  /\ after_first_ci M (pre ++ M ++ rest) = Some rest.
Proof.
  intros rest M EM A.
  assert (S0 : starts_ci M (M ++ rest) = true).
  { rewrite starts_ci_startswith. unfold Py.lower.
    rewrite map_chars_app. apply startswith_iff. eexists. reflexivity. }
  assert (G : forall s,
             starts_ci M s = true ->
             up_to_ci M s = ""
             /\ after_first_ci M s = Some (Py.drop (String.length M) s)).
  { intros s Hs. unfold after_first_ci.
    destruct s as [| y r]; cbn [up_to_ci first_at]; unfold rest_ci;
      rewrite Hs; split; reflexivity. }
  induction pre as [| c pre IH]; intros H.
  - change ("" ++ M ++ rest) with (M ++ rest).
    destruct (G _ S0) as [G1 G2]. rewrite G1, G2, drop_app_length.
    split; reflexivity.
  - cbn [Py.lower Py.map_chars Py.contains] in H.
    apply orb_false_iff in H. destruct H as [H0 H].
    destruct (IH H) as [IH1 IH2].
    assert (N : starts_ci M (String c pre ++ M ++ rest) = false).
    { rewrite starts_ci_startswith. unfold Py.lower.
      rewrite !map_chars_app. fold (Py.lower M). rewrite EM.
      apply no_straddle; [ exact A | discriminate | exact H0 ]. }
    change (String c pre ++ M ++ rest) with (String c (pre ++ M ++ rest)) in *.
    split.
    + cbn [up_to_ci]. rewrite N, IH1. reflexivity.
    + unfold after_first_ci in *. cbn [first_at]. unfold rest_ci at 1.
      rewrite N. exact IH2.
Qed.

Lemma strip_padded j : Py.strip (nl ++ j ++ nl ++ nl) = Py.strip j.
Proof.
  unfold Py.strip. change (Py.lstrip (nl ++ j ++ nl ++ nl))
    with (Py.lstrip (j ++ nl ++ nl)).
  fold (Py.strip (j ++ nl ++ nl)).
  replace (j ++ nl ++ nl) with ((j ++ nl) ++ nl)
    by (rewrite app_assoc_s; reflexivity).
  unfold nl at 2. rewrite strip_snoc_space by reflexivity.
  unfold nl. rewrite strip_snoc_space by reflexivity. reflexivity.
Qed.

(** X21. A reflection in the format the reflection prompt asks for is
    parsed back: with the decision REVISE or AFFIRM on the decision line,
    a justification that does not name the heading of the final response
    in any case, and any final response, the parser returns the decision,
    the justification without the white space around it, cut to 500
    characters, and the final response without the white space around
    it. *)
Theorem X21_formatted_reflection_round_trip :
  forall d j f,
    d = "REVISE" \/ d = "AFFIRM" ->
    Py.contains "final response:" (Py.lower j) = false ->
    _parse_delphi_response (formatted_reflection d j f)
    = (d, Py.take 500 (Py.strip j), Py.strip f).
Proof.
  intros d j f Hd Hj.
  rewrite parse_delphi_response_eq. unfold parse_delphi_spec.
  assert (Hpad : Py.contains "final response:" (Py.lower (nl ++ j ++ nl ++ nl))
                 = false).
  { unfold Py.lower. rewrite !map_chars_app. fold (Py.lower j).
    change (Py.map_chars Py.lower_char nl) with nl.
    change (nl ++ Py.lower j ++ nl ++ nl)
      with ("" ++ String (ascii_of_nat 10)
                    (Py.lower j ++ String (ascii_of_nat 10) nl)).
    rewrite contains_pad by reflexivity.
    rewrite contains_pad by reflexivity.
    rewrite Hj. reflexivity. }
  assert (E1 : first_at decision_at (formatted_reflection d j f) = Some d).
  { destruct Hd as [-> | ->]; reflexivity. }
  assert (E2 : after_first_ci "JUSTIFICATION" (formatted_reflection d j f)
               = Some (" (2-3 sentences):" ++ nl ++ j ++ nl ++ nl
                       ++ "FINAL RESPONSE:" ++ nl ++ f)).
  { destruct Hd as [-> | ->]; reflexivity. }
  assert (E3 : after_first ":" (" (2-3 sentences):" ++ nl ++ j ++ nl ++ nl
                                ++ "FINAL RESPONSE:" ++ nl ++ f)
               = Some (nl ++ j ++ nl ++ nl ++ "FINAL RESPONSE:" ++ nl ++ f)).
  { reflexivity. }
  assert (E4 : up_to_ci "FINAL RESPONSE:"
                 (nl ++ j ++ nl ++ nl ++ "FINAL RESPONSE:" ++ nl ++ f)
               = nl ++ j ++ nl ++ nl).
  { replace (nl ++ j ++ nl ++ nl ++ "FINAL RESPONSE:" ++ nl ++ f)
      with ((nl ++ j ++ nl ++ nl) ++ "FINAL RESPONSE:" ++ nl ++ f)
      by (rewrite !app_assoc_s; reflexivity).
    apply (marker_ci_preamble "f" "inal response:" _ _ "FINAL RESPONSE:"
             eq_refl eq_refl Hpad). }
  assert (E5 : after_first_ci "FINAL RESPONSE:" (formatted_reflection d j f)
               = Some (nl ++ f)).
  { set (head := "DECISION: " ++ d ++ nl ++ nl
                 ++ "JUSTIFICATION (2-3 sentences):").
    replace (formatted_reflection d j f)
      with ((head ++ nl ++ j ++ nl ++ nl) ++ "FINAL RESPONSE:" ++ nl ++ f)
      by (unfold formatted_reflection, head; rewrite !app_assoc_s; reflexivity).
    apply (marker_ci_preamble "f" "inal response:" _ _ "FINAL RESPONSE:"
             eq_refl eq_refl).
    unfold Py.lower. rewrite map_chars_app. fold (Py.lower head).
    fold (Py.lower (nl ++ j ++ nl ++ nl)).
    assert (Hh : Py.contains "final response:" (Py.lower head) = false).
    { unfold head. destruct Hd as [-> | ->]; reflexivity. }
    assert (Hn : exists t, Py.lower (nl ++ j ++ nl ++ nl)
                           = String (ascii_of_nat 10) t
                           /\ Py.contains "final response:" t = false).
    { eexists. split; [ reflexivity | ].
      cbn [Py.lower Py.map_chars String.append nl] in Hpad.
      cbn [Py.contains] in Hpad. apply orb_false_iff in Hpad.
      apply (proj2 Hpad). }
    destruct Hn as (t & -> & Ht).
    rewrite contains_pad by reflexivity. rewrite Hh, Ht. reflexivity. }
  rewrite E1, E2, E3, E4, E5, strip_padded.
  change (Py.strip (nl ++ f)) with (Py.strip f). reflexivity.
Qed.

Lemma X21_formatted_reflection_round_trip_witness :
  _parse_delphi_response
    (formatted_reflection "REVISE" "I missed a risk." "A new plan.")
  = ("REVISE", Py.take 500 (Py.strip "I missed a risk."),
     Py.strip "A new plan.").
Proof.
  apply X21_formatted_reflection_round_trip;
    [ left; reflexivity | reflexivity ].
Defined.
